(** * Verification of the [ai] scripts

    Two pipelines are embedded here:

    - [python/natural/model.py]: the generator of binary multiplication
      examples ([number], [source_pad], [target_pad], [generate]);
    - [core/linear_classifier.py]: the [Dataset] batch partitioner, the
      [LinearClassifier] expressions, the compiled [train] step and the
      training driver.

    Integers are Python integers ([Z]), except the index of a compiled
    function, which is a 64-bit integer with wrap-around ([Compiled]);
    strings are [string]; the arrays held by a [Dataset] are lists of
    rows.  Theano expressions are read
    with their mathematical meaning over the reals: rounding of [floatX]
    is outside this model. *)

From Stdlib Require Import ZArith String Ascii List Bool Lia.
From Stdlib Require Import Reals Lra.
Import ListNotations.

(** Exceptions that the modelled code can raise. *)
Inductive exn : Type :=
| ZeroDivisionError
| IndexError
| ShapeError
| NameError
| MissingInputError.

Inductive result (A : Type) : Type :=
| Ok (a : A)
| Raise (e : exn).
Arguments Ok {A} a.
Arguments Raise {A} e.

(* ===================================================================== *)
(** * python/natural/model.py *)
(* ===================================================================== *)

Module Natural.

Local Open Scope string_scope.
Local Open Scope Z_scope.

Definition MIN_NUMBER : Z := 1.
Definition MAX_NUMBER : Z := 127.

(** [number()] is [random.randrange(MIN_NUMBER, MAX_NUMBER + 1)]: the
    values it can return are those of the half-open range. *)
Definition number_range (n : Z) : Prop := MIN_NUMBER <= n < MAX_NUMBER + 1.

(** ['{0:b}'.format(n)]: binary digits, most significant first, no
    leading zero, ['-'] in front of a negative number. *)
Fixpoint bin_pos (p : positive) : string :=
  match p with
  | xH => "1"
  | xO q => bin_pos q ++ "0"
  | xI q => bin_pos q ++ "1"
  end.

Definition format_b (n : Z) : string :=
  match n with
  | Z0 => "0"
  | Zpos p => bin_pos p
  | Zneg p => "-" ++ bin_pos p
  end.

Definition SOURCE_VOCAB : string := "10* ".
Definition TARGET_VOCAB : string := "10 ".

Definition SOURCE_LEN : nat := 1 + 2 * String.length (format_b MAX_NUMBER).
Definition TARGET_LEN : nat := String.length (format_b (MAX_NUMBER * MAX_NUMBER)).

(** [while len(s) <= limit: s += ' '].  The loop is run with fuel; [None]
    is fuel exhaustion. *)
Fixpoint pad_while (fuel : nat) (limit : nat) (s : string) : option string :=
  match fuel with
  | O => None
  | S fuel' =>
      if (String.length s <=? limit)%nat
      then pad_while fuel' limit (s ++ " ")
      else Some s
  end.

(** Fuel that covers every run of the loop: at most [limit + 1] spaces are
    appended, and one more test ends it. *)
Definition pad_fuel (limit : nat) : nat := S (S limit).

Definition source_pad (s : string) : option string :=
  pad_while (pad_fuel SOURCE_LEN) SOURCE_LEN s.

Definition target_pad (s : string) : option string :=
  pad_while (pad_fuel TARGET_LEN) TARGET_LEN s.

(** [ch in vocab] for a one-character [ch], and [all(... for ch in s)]. *)
Fixpoint char_in (vocab : string) (ch : ascii) : bool :=
  match vocab with
  | EmptyString => false
  | String c rest => Ascii.eqb ch c || char_in rest ch
  end.

Fixpoint all_in (vocab : string) (s : string) : bool :=
  match s with
  | EmptyString => true
  | String c rest => char_in vocab c && all_in vocab rest
  end.

(** The format string of line 37 is ['{0:b}*{0:b}']: both fields take
    positional argument 0. *)
Definition source_text (a b : Z) : string :=
  format_b a ++ "*" ++ format_b a.

Definition target_text (a b : Z) : string :=
  let c := a * b in format_b c.

Inductive outcome : Type :=
| Returned (source target : string)
| AssertionError (line : nat)
| OutOfFuel.

(** The body of [generate] once [a] and [b] are drawn.  The four
    assertions are those of lines 39 to 42, in order. *)
Definition generate_with (a b : Z) : outcome :=
  match source_pad (source_text a b) with
  | None => OutOfFuel
  | Some source =>
      match target_pad (target_text a b) with
      | None => OutOfFuel
      | Some target =>
          if negb (all_in SOURCE_VOCAB source) then AssertionError 39
          else if negb (all_in TARGET_VOCAB target) then AssertionError 40
          else if negb (String.length source =? SOURCE_LEN)%nat then AssertionError 41
          else if negb (String.length target =? TARGET_LEN)%nat then AssertionError 42
          else Returned source target
      end
  end.

(** Decoding of a binary numeral, as the round-trip property of the
    specification reads a target string back: digits only, most
    significant first. *)
Fixpoint parse_binary_from (acc : Z) (s : string) : option Z :=
  match s with
  | EmptyString => Some acc
  | String c rest =>
      if Ascii.eqb c "0"%char then parse_binary_from (2 * acc) rest
      else if Ascii.eqb c "1"%char then parse_binary_from (2 * acc + 1) rest
      else None
  end.

Definition parse_binary (s : string) : option Z :=
  match s with
  | EmptyString => None
  | _ => parse_binary_from 0 s
  end.

Fixpoint spaces (n : nat) : string :=
  match n with
  | O => ""
  | S m => " " ++ spaces m
  end.

End Natural.

(* ===================================================================== *)
(** * Array operations of the numerical libraries *)
(* ===================================================================== *)

Module Numpy.

Local Open Scope Z_scope.

(** [range(n)] of Python 2: the list [0, 1, ..., n-1], empty for [n <= 0]. *)
Definition range (n : Z) : list Z := map Z.of_nat (seq 0 (Z.to_nat n)).

(** Bound of a slice on a sequence of length [n]: a negative bound counts
    from the end, and every bound is clipped to [0, n]. *)
Definition slice_bound (n : Z) (i : Z) : Z :=
  if i <? 0 then Z.max (i + n) 0 else Z.min i n.

(** [l[lo:hi]]: never raises; empty when the clipped bounds cross. *)
Definition slice {A : Type} (l : list A) (lo hi : Z) : list A :=
  let n := Z.of_nat (length l) in
  let start := slice_bound n lo in
  let stop := slice_bound n hi in
  firstn (Z.to_nat (stop - start)) (skipn (Z.to_nat start) l).

(** Position selected by an integer index on an axis of length [n]:
    indices in [-n, 0) count from the end, anything else is out of
    bounds. *)
Definition index_axis (n : nat) (t : Z) : option nat :=
  if (0 <=? t) && (t <? Z.of_nat n) then Some (Z.to_nat t)
  else if (- Z.of_nat n <=? t) && (t <? 0) then Some (Z.to_nat (t + Z.of_nat n))
  else None.

Local Open Scope R_scope.

Definition Rsum (l : list R) : R := fold_right Rplus 0 l.

(** Sum of [f 0 .. f (n-1)]. *)
Definition big_sum (n : nat) (f : nat -> R) : R := Rsum (map f (seq 0 n)).

(** [numpy.mean] and [T.mean] of a vector. *)
Definition mean (l : list R) : R := Rsum l / INR (length l).

(** Entry [(i, j)] of a matrix stored as a list of rows. *)
Definition entry (m : list (list R)) (i j : nat) : R :=
  nth j (nth i m nil) 0.

(** [argmax] along an axis of length [n]: the first position holding the
    maximum. *)
Fixpoint argmax (n : nat) (f : nat -> R) : nat :=
  match n with
  | O => O
  | S m =>
      let j := argmax m f in
      if Rlt_dec (f j) (f m) then m else j
  end.

(** [T.neq] of an integer label and a predicted position. *)
Definition neq (t : Z) (j : nat) : R :=
  if Z.eqb t (Z.of_nat j) then 0 else 1.

End Numpy.

(* ===================================================================== *)
(** * core/linear_classifier.py *)
(* ===================================================================== *)

Module Classifier.

Import Numpy.

(** ** Dataset *)

Record Dataset : Type := {
  input_set : list (list R);
  output_set : list Z;
  batch_size : Z;
  num_batches : Z
}.

(** [Dataset.__init__].  The script is Python 2: [/] on two integers is
    floor division, and raises on a zero divisor. *)
Definition Dataset_init (input_set0 : list (list R)) (output_set0 : list Z)
    (batch_size0 : Z) : result Dataset :=
  if (batch_size0 =? 0)%Z then Raise ZeroDivisionError
  else Ok {| input_set := input_set0;
             output_set := output_set0;
             batch_size := batch_size0;
             num_batches := (Z.of_nat (length input_set0) / batch_size0)%Z |}.

(** The slice expressions of [input_batch] and [output_batch], with
    their bounds as integers.  A compiled function evaluates the bounds
    on a 64-bit index, see [Compiled]; the two agree whenever the bounds
    fit in 64 bits, which holds of every index in [[0, num_batches)]. *)
Definition input_batch (self : Dataset) (index : Z) : list (list R) :=
  slice (input_set self) (index * batch_size self)%Z
        ((index + 1) * batch_size self)%Z.

Definition output_batch (self : Dataset) (index : Z) : list Z :=
  slice (output_set self) (index * batch_size self)%Z
        ((index + 1) * batch_size self)%Z.

(** ** LinearClassifier *)

Local Open Scope R_scope.

(** Values held by the shared variables [W] (of shape
    [input_dimension * num_categories]) and [b] (of shape
    [num_categories]), by entry. *)
Record Params : Type := {
  W : nat -> nat -> R;
  b : nat -> R
}.

(** The shared variables live in a store, by address: two names of one
    classifier object read and write the same cells. *)
Definition Store : Type := nat -> Params.

Definition store_set (st : Store) (a : nat) (p : Params) : Store :=
  fun a' => if Nat.eqb a' a then p else st a'.

(** A classifier object: the symbolic input [x] it was built on (by
    identity), its shape, and the address of its shared variables. *)
Record LinearClassifier : Type := {
  x : nat;
  input_dimension : nat;
  num_categories : nat;
  shared : nat
}.

Definition zeros : Params := {| W := fun _ _ => 0; b := fun _ => 0 |}.

(** [LinearClassifier.__init__]: [W] and [b] start as zeros, in fresh
    cells at address [addr]. *)
Definition LinearClassifier_init (addr : nat) (x0 : nat)
    (input_dimension0 num_categories0 : nat) (st : Store)
  : LinearClassifier * Store :=
  ({| x := x0;
      input_dimension := input_dimension0;
      num_categories := num_categories0;
      shared := addr |},
   store_set st addr zeros).

(** [T.dot(x, W)] needs every row of [x] to have [input_dimension]
    entries. *)
Definition dot_shape_ok (self : LinearClassifier) (xv : list (list R)) : bool :=
  forallb (fun row => Nat.eqb (length row) (input_dimension self)) xv.

(** [y_calculated = T.dot(x, W) + b], entry [(i, c)]. *)
Definition y_calculated (self : LinearClassifier) (p : Params)
    (xv : list (list R)) (i c : nat) : R :=
  big_sum (input_dimension self) (fun d => entry xv i d * W p d c) + b p c.

(** [y_prob = T.nnet.softmax(y_calculated)], row by row. *)
Definition softmax (n : nat) (z : nat -> R) (c : nat) : R :=
  exp (z c) / big_sum n (fun k => exp (z k)).

Definition y_prob (self : LinearClassifier) (p : Params)
    (xv : list (list R)) (i c : nat) : R :=
  softmax (num_categories self) (y_calculated self p xv i) c.

(** [predictions = T.argmax(y_prob, axis=1)]. *)
Definition predictions (self : LinearClassifier) (p : Params)
    (xv : list (list R)) (i : nat) : nat :=
  argmax (num_categories self) (y_prob self p xv i).

(** [log_probs[T.arange(target.shape[0]), target]]: one selected column
    per row; [None] when a label is out of bounds. *)
Definition target_columns (self : LinearClassifier) (target : list Z)
  : option (list nat) :=
  fold_right
    (fun t acc =>
       match index_axis (num_categories self) t, acc with
       | Some c, Some cs => Some (c :: cs)
       | _, _ => None
       end)
    (Some nil) target.

(** Labels with values in [[0, n)]. *)
Definition in_range (n : nat) (target : list Z) : Prop :=
  forall t, In t target -> (0 <= t < Z.of_nat n)%Z.

(** The value of [-T.mean(target_log_probs)] once the columns are
    selected. *)
Definition nll_value (self : LinearClassifier) (p : Params)
    (xv : list (list R)) (cols : list nat) : R :=
  - mean (map (fun ic => ln (y_prob self p xv (fst ic) (snd ic)))
              (combine (seq 0 (length cols)) cols)).

(** [negative_log_likelihood(target)] evaluated on a batch [xv]. *)
Definition negative_log_likelihood (self : LinearClassifier) (p : Params)
    (xv : list (list R)) (target : list Z) : result R :=
  if negb (dot_shape_ok self xv) then Raise ShapeError
  else if negb (length target <=? length xv)%nat then Raise IndexError
  else match target_columns self target with
       | None => Raise IndexError
       | Some cols => Ok (nll_value self p xv cols)
       end.

(** The value of [T.mean(T.neq(target, predictions))]. *)
Definition error_rate_value (self : LinearClassifier) (p : Params)
    (xv : list (list R)) (target : list Z) : R :=
  mean (map (fun it => neq (snd it) (predictions self p xv (fst it)))
            (combine (seq 0 (length target)) target)).

(** [batch_error_rate(target)] evaluated on a batch [xv]. *)
Definition batch_error_rate (self : LinearClassifier) (p : Params)
    (xv : list (list R)) (target : list Z) : result R :=
  if negb (dot_shape_ok self xv) then Raise ShapeError
  else if negb (length target =? length xv)%nat then Raise ShapeError
  else Ok (error_rate_value self p xv target).

(** ** The gradient *)

(** The parameters with one entry of [W], or of [b], replaced. *)
Definition set_W (p : Params) (d k : nat) (v : R) : Params :=
  {| W := fun d' k' => if Nat.eqb d' d && Nat.eqb k' k then v else W p d' k';
     b := b p |}.

Definition set_b (p : Params) (k : nat) (v : R) : Params :=
  {| W := W p;
     b := fun k' => if Nat.eqb k' k then v else b p k' |}.

(** What [T.grad] is documented to return, for a cost read as a function
    of the parameter values: entry by entry, the partial derivative of
    the cost at the current values. *)
Definition is_gradient (cost : Params -> R) (p : Params) (D C : nat)
    (gW : nat -> nat -> R) (gb : nat -> R) : Prop :=
  (forall d k, (d < D)%nat -> (k < C)%nat ->
     derivable_pt_lim (fun v => cost (set_W p d k v)) (W p d k) (gW d k)) /\
  (forall k, (k < C)%nat ->
     derivable_pt_lim (fun v => cost (set_b p k v)) (b p k) (gb k)).

(** The closed form of the specification.  [one_hot(target)] has a one
    in column [target[i]] of row [i]; the gradient for [W] is
    [x^T (softmax(x.W + b) - one_hot(target)) / B], and the one for [b]
    is the column mean of [softmax(x.W + b) - one_hot(target)]. *)
Definition one_hot (t : Z) (k : nat) : R :=
  if (t =? Z.of_nat k)%Z then 1 else 0.

Definition closed_form_W_gradient (self : LinearClassifier) (p : Params)
    (xv : list (list R)) (target : list Z) (d k : nat) : R :=
  big_sum (length xv)
    (fun i => entry xv i d * (y_prob self p xv i k - one_hot (nth i target 0%Z) k))
  / INR (length xv).

Definition closed_form_b_gradient (self : LinearClassifier) (p : Params)
    (xv : list (list R)) (target : list Z) (k : nat) : R :=
  big_sum (length xv)
    (fun i => y_prob self p xv i k - one_hot (nth i target 0%Z) k)
  / INR (length xv).

(** ** Compiled functions and the driver *)

(** What a run of the script does that can be observed: the printed
    lines, and each evaluation of a compiled function on a batch of a
    dataset. *)
Inductive event : Type :=
| Batch (dataset : Dataset) (index : Z)
| Print_training_pass (run : Z)
| Print_training_cost (batch_index : Z) (c : R)
| Print_validation (v : R)
| Print_testing (v : R).

Record World : Type := {
  store : Store;
  trace : list event
}.

(** Computations of the script: they read and write the world, and may
    raise. *)
Definition M (A : Type) : Type := World -> result (A * World).

Definition ret {A : Type} (a : A) : M A := fun w => Ok (a, w).

Definition bind {A B : Type} (m : M A) (k : A -> M B) : M B :=
  fun w =>
    match m w with
    | Ok (a, w') => k a w'
    | Raise e => Raise e
    end.

Notation "'do' v <- m ; k" := (bind m (fun v => k))
  (at level 10, v name, m at level 100, k at level 200).
Notation "m ;; k" := (bind m (fun _ => k))
  (at level 100, k at level 200, right associativity).

Definition emit (e : event) : M unit :=
  fun w => Ok (tt, {| store := store w; trace := trace w ++ [e] |}).

Definition lift {A : Type} (r : result A) : M A :=
  fun w => match r with Ok a => Ok (a, w) | Raise e => Raise e end.

(** [for v in l: body(v)]. *)
Fixpoint for_each {A : Type} (l : list A) (body : A -> M unit) : M unit :=
  match l with
  | nil => ret tt
  | v :: rest => body v ;; for_each rest body
  end.

(** [map(f, l)] of Python 2: the list of results, left to right. *)
Fixpoint map_M {A B : Type} (f : A -> M B) (l : list A) : M (list B) :=
  match l with
  | nil => ret nil
  | v :: rest => do r <- f v; do rs <- map_M f rest; ret (r :: rs)
  end.

(** Module-level names visible from a method body. *)
Record Globals : Type := {
  classifier : option LinearClassifier
}.

(** [batch_error_rate_function(self, dataset)].  The output expression is
    built from the global name [classifier]; the only input supplied is
    [self.x], so the expression can be evaluated when it reads that same
    symbolic input. *)
Definition batch_error_rate_function (self : LinearClassifier)
    (globals : Globals) (dataset : Dataset) : result (Z -> M R) :=
  match classifier globals with
  | None => Raise NameError
  | Some g =>
      if Nat.eqb (x g) (x self)
      then Ok (fun index =>
                 emit (Batch dataset index) ;;
                 fun w => lift (batch_error_rate g (store w (shared g))
                                  (input_batch dataset index)
                                  (output_batch dataset index)) w)
      else Raise MissingInputError
  end.

(** [error_rate_function(self, dataset)]:
    [lambda: numpy.mean(map(f, range(n)))]. *)
Definition error_rate_function (self : LinearClassifier)
    (globals : Globals) (dataset : Dataset) : result (M R) :=
  match batch_error_rate_function self globals dataset with
  | Raise e => Raise e
  | Ok f =>
      let n := num_batches dataset in
      Ok (do vs <- map_M f (range n); ret (mean vs))
  end.

Section Driver.

(** [T.grad(cost, wrt=W)] and [T.grad(cost, wrt=b)] belong to the tensor
    library: they take the cost, read as a function of the parameter
    values, and the current values, and give one number per entry. *)
Variable T_grad_W : (Params -> R) -> Params -> nat -> nat -> R.
Variable T_grad_b : (Params -> R) -> Params -> nat -> R.

(** The expression [cost] of line 146 as a function of the values of [W]
    and [b], the batch being fixed. *)
Definition cost_expression (self : LinearClassifier)
    (xv : list (list R)) (yv : list Z) : Params -> R :=
  fun q =>
    match negative_log_likelihood self q xv yv with
    | Ok c => c
    | Raise _ => 0
    end.

(** The new values of lines 153 and 154. *)
Definition updates (self : LinearClassifier) (learning_rate : R)
    (xv : list (list R)) (yv : list Z) (p : Params) : Params :=
  let cost := cost_expression self xv yv in
  let W_gradient := T_grad_W cost p in
  let b_gradient := T_grad_b cost p in
  {| W := fun d k => W p d k - learning_rate * W_gradient d k;
     b := fun k => b p k - learning_rate * b_gradient k |}.

(** The compiled [train] of lines 158 to 164: returns the cost of the
    batch and stores the updated parameters. *)
Definition train (self : LinearClassifier) (training : Dataset)
    (learning_rate : R) (index : Z) : M R :=
  emit (Batch training index) ;;
  fun w =>
    let xv := input_batch training index in
    let yv := output_batch training index in
    let p := store w (shared self) in
    match negative_log_likelihood self p xv yv with
    | Raise e => Raise e
    | Ok c =>
        Ok (c, {| store := store_set (store w) (shared self)
                             (updates self learning_rate xv yv p);
                  trace := trace w |})
    end.

(** The three splits returned by [datasets.mnist()]. *)
Record Mnist : Type := {
  train_input : list (list R);  train_output : list Z;
  valid_input : list (list R);  valid_output : list Z;
  test_input : list (list R);   test_output : list Z
}.

Definition batch_size_main : Z := 500.
Definition learning_rate_main : R := 13 / 100.
Definition runs : Z := 100.

(** The body of the inner loop, lines 172 to 174. *)
Definition batch_body (self : LinearClassifier) (training : Dataset)
    (batch_index : Z) : M unit :=
  do c <- train self training learning_rate_main batch_index;
  if (batch_index mod 20 =? 0)%Z
  then emit (Print_training_cost batch_index c)
  else ret tt.

(** The body of the outer loop, lines 170 to 176. *)
Definition run_body (self : LinearClassifier) (training : Dataset)
    (validator : M R) (run : Z) : M unit :=
  emit (Print_training_pass run) ;;
  for_each (range (num_batches training)) (batch_body self training) ;;
  if (run mod 10 =? 9)%Z
  then (do v <- validator; emit (Print_validation v))
  else ret tt.

(** The loops of lines 169 to 177. *)
Definition training_loop (self : LinearClassifier) (training : Dataset)
    (validator tester : M R) : M unit :=
  for_each (range runs) (run_body self training validator) ;;
  do v <- tester;
  emit (Print_testing v).

(** The script, from line 126 on.  [addr] and [x0] are the fresh address
    of the shared variables and the identity of [T.matrix("x")]. *)
Definition main (data : Mnist) (addr x0 : nat) : M unit :=
  do training <- lift (Dataset_init (train_input data) (train_output data) batch_size_main);
  do validation <- lift (Dataset_init (valid_input data) (valid_output data) batch_size_main);
  do testing <- lift (Dataset_init (test_input data) (test_output data) batch_size_main);
  do self <- (fun w =>
                let '(c, st) := LinearClassifier_init addr x0 (28 * 28) 10 (store w) in
                Ok (c, {| store := st; trace := trace w |}));
  let globals := {| classifier := Some self |} in
  do validator <- lift (error_rate_function self globals validation);
  do tester <- lift (error_rate_function self globals testing);
  training_loop self training validator tester.

(** ** The run of the driver, as the specification describes it *)

(** A dataset whose rows fit the classifier, with one label per row. *)
Definition fits (self : LinearClassifier) (d : Dataset) : Prop :=
  dot_shape_ok self (input_set d) = true /\
  length (output_set d) = length (input_set d).

(** The three splits as MNIST has them: rows of [28 * 28] pixels, one
    label per row, training labels among the ten digits. *)
Definition well_formed (data : Mnist) : Prop :=
  Forall (fun row => length row = (28 * 28)%nat) (train_input data) /\
  Forall (fun row => length row = (28 * 28)%nat) (valid_input data) /\
  Forall (fun row => length row = (28 * 28)%nat) (test_input data) /\
  length (train_output data) = length (train_input data) /\
  length (valid_output data) = length (valid_input data) /\
  length (test_output data) = length (test_input data) /\
  in_range 10 (train_output data).

(** The batch indices that a trace evaluates, in order. *)
Fixpoint batch_indices (evs : list event) : list Z :=
  match evs with
  | [] => []
  | Batch _ i :: rest => i :: batch_indices rest
  | _ :: rest => batch_indices rest
  end.

(** From world [w] to world [w']: the cell at [addr] now holds [p'], the
    other cells are untouched, and [evs] was appended to the trace. *)
Definition reaches (addr : nat) (w w' : World) (p' : Params)
    (evs : list event) : Prop :=
  store w' addr = p' /\
  (forall a, a <> addr -> store w' a = store w a) /\
  trace w' = trace w ++ evs.

(** One gradient-descent step on batch [i]. *)
Definition sgd_step (self : LinearClassifier) (training : Dataset)
    (p : Params) (i : Z) : Params :=
  updates self learning_rate_main
    (input_batch training i) (output_batch training i) p.

(** The parameters when batch [i] starts, in an epoch that started with
    [p]: batches [0 .. i-1] have been stepped through, in that order. *)
Definition params_in_epoch (self : LinearClassifier) (training : Dataset)
    (p : Params) (i : Z) : Params :=
  fold_left (sgd_step self training) (range i) p.

(** The parameters after [r] whole epochs, from zeros. *)
Definition params_after (self : LinearClassifier) (training : Dataset)
    (r : Z) : Params :=
  Nat.iter (Z.to_nat r)
    (fun p => params_in_epoch self training p (num_batches training)) zeros.

(** The arithmetic mean of the error rates of the batches of a dataset. *)
Definition dataset_error (self : LinearClassifier) (p : Params)
    (dataset : Dataset) : R :=
  mean (map (fun i => error_rate_value self p
                        (input_batch dataset i) (output_batch dataset i))
            (range (num_batches dataset))).

(** What one epoch shows: each batch index once, in increasing order,
    with the cost printed on every 20th. *)
Definition epoch_events (self : LinearClassifier) (training : Dataset)
    (p : Params) : list event :=
  concat
    (map (fun i =>
            Batch training i ::
            (if (i mod 20 =? 0)%Z
             then [Print_training_cost i
                     (cost_expression self (input_batch training i)
                        (output_batch training i)
                        (params_in_epoch self training p i))]
             else []))
         (range (num_batches training))).

(** What run [r] shows: the epoch, then on every 10th run the validation
    batches and the validation error of the parameters just reached. *)
Definition run_events (self : LinearClassifier)
    (training validation : Dataset) (r : Z) : list event :=
  Print_training_pass r ::
  epoch_events self training (params_after self training r) ++
  (if (r mod 10 =? 9)%Z
   then map (Batch validation) (range (num_batches validation)) ++
        [Print_validation
           (dataset_error self (params_after self training (r + 1)) validation)]
   else []).

Definition expected_trace (self : LinearClassifier)
    (training validation testing : Dataset) : list event :=
  concat (map (run_events self training validation) (range runs)) ++
  map (Batch testing) (range (num_batches testing)) ++
  [Print_testing (dataset_error self (params_after self training runs) testing)].

End Driver.

End Classifier.

(* ===================================================================== *)
(** * Small concrete inputs *)
(* ===================================================================== *)

Module Samples.

Import Classifier.
Local Open Scope R_scope.

(** Three rows of one feature, two classes, batches of two rows: one full
    batch and one trailing row. *)
Definition sample_input : list (list R) := [[1]; [2]; [3]].
Definition sample_output : list Z := [0%Z; 1%Z; 0%Z].

Definition sample_dataset : Dataset :=
  {| input_set := sample_input;
     output_set := sample_output;
     batch_size := 2;
     num_batches := Z.of_nat (length sample_input) / 2 |}.

(** A classifier of that shape, with its parameters at address 0, in a
    store that holds zeros everywhere. *)
Definition sample_classifier : LinearClassifier :=
  {| x := 0; input_dimension := 1; num_categories := 2; shared := 0 |}.

Definition sample_world : World :=
  {| store := fun _ => zeros; trace := [] |}.

(** The first batch of [sample_dataset]. *)
Definition sample_x : list (list R) := [[1]; [2]].
Definition sample_y : list Z := [0%Z; 1%Z].

(** A gradient routine that is right on the cost of that batch. *)
Definition sample_grad_W (cost : Params -> R) (p : Params) : nat -> nat -> R :=
  closed_form_W_gradient sample_classifier p sample_x sample_y.

Definition sample_grad_b (cost : Params -> R) (p : Params) : nat -> R :=
  closed_form_b_gradient sample_classifier p sample_x sample_y.

(** A second classifier object of the same shape, on the same symbolic
    input, with its own shared variables at address 1. *)
Definition other_classifier : LinearClassifier :=
  {| x := 0; input_dimension := 1; num_categories := 2; shared := 1 |}.

(** Parameters that classify both rows of [sample_x] rightly, and a store
    that holds them for [other_classifier] only. *)
Definition tuned_params : Params :=
  {| W := fun _ k => if Nat.eqb k 1 then 1 else 0;
     b := fun k => if Nat.eqb k 1 then - (3 / 2) else 0 |}.

Definition two_cell_world : World :=
  {| store := fun a => if Nat.eqb a 1 then tuned_params else zeros;
     trace := [] |}.

(** Three splits of 500 blank images each, all labelled 3. *)
Definition sample_mnist : Mnist :=
  {| train_input := repeat (repeat 0 (28 * 28)) 500;
     train_output := repeat 3%Z 500;
     valid_input := repeat (repeat 0 (28 * 28)) 500;
     valid_output := repeat 3%Z 500;
     test_input := repeat (repeat 0 (28 * 28)) 500;
     test_output := repeat 3%Z 500 |}.

End Samples.

(* ===================================================================== *)
(** * core/datasets.py *)
(* ===================================================================== *)

Module Datasets.

Local Open Scope string_scope.

Definition MNIST : string :=
  "http://www.iro.umontreal.ca/~lisa/deep/data/mnist/mnist.pkl.gz".

Fixpoint has_slash (s : string) : bool :=
  match s with
  | EmptyString => false
  | String c rest => Ascii.eqb c "/"%char || has_slash rest
  end.

(** The second component of [os.path.split(p)]: what follows the last
    slash of [p], or all of [p] when it has no slash. *)
Fixpoint split_tail (p : string) : string :=
  match p with
  | EmptyString => EmptyString
  | String c rest =>
      if has_slash rest then split_tail rest
      else if Ascii.eqb c "/"%char then rest
      else String c rest
  end.

(** The part of the machine that [data_path] deals with: for each path,
    whether a regular file is there and, if so, which source its content
    came from; and the lines printed so far. *)
Record Disk : Type := {
  files : string -> option string;
  printed : list string
}.

Definition isfile (w : Disk) (path : string) : bool :=
  match files w path with
  | Some _ => true
  | None => false
  end.

Inductive outcome : Type :=
| Returned (answer : string) (w : Disk)
| IOError.

Section Environment.

(** [os.path.abspath(os.path.expanduser(p))] depends on the home and
    working directories of the process: it is left open. *)
Variable resolve : string -> string.

(** Whether [urllib.urlretrieve] can fetch a source; when it cannot it
    raises. *)
Variable reachable : string -> bool.

(** [urllib.urlretrieve(source, answer)] on success: the file at
    [answer] now holds the content served at [source]. *)
Definition urlretrieve (source answer : string) (w : Disk) : Disk :=
  {| files := fun path => if String.eqb path answer then Some source
                          else files w path;
     printed := printed w |}.

Definition print (line : string) (w : Disk) : Disk :=
  {| files := files w; printed := printed w ++ [line] |}.

(** [data_path(source)]. *)
Definition data_path (source : string) (w : Disk) : outcome :=
  let fname := split_tail source in
  let answer := resolve ("~/data/" ++ fname) in
  if negb (isfile w answer)
  then
    let w1 := print ("Downloading data from " ++ source) w in
    if reachable source
    then Returned answer (urlretrieve source answer w1)
    else IOError
  else Returned answer w.

End Environment.

End Datasets.

(* ===================================================================== *)
(** * Names for the objects of the script *)
(* ===================================================================== *)

Module Script.

Import Numpy Classifier.

(** The classifier and the three datasets that [main] builds. *)
Definition main_classifier (addr x0 : nat) : LinearClassifier :=
  {| x := x0; input_dimension := 28 * 28; num_categories := 10; shared := addr |}.

Definition main_dataset (input : list (list R)) (output : list Z) : Dataset :=
  {| input_set := input; output_set := output; batch_size := batch_size_main;
     num_batches := (Z.of_nat (length input) / batch_size_main)%Z |}.

Definition main_training (data : Mnist) : Dataset :=
  main_dataset (train_input data) (train_output data).

Definition main_validation (data : Mnist) : Dataset :=
  main_dataset (valid_input data) (valid_output data).

Definition main_testing (data : Mnist) : Dataset :=
  main_dataset (test_input data) (test_output data).

(** The entries of [b], and of each row of [W], sum to zero. *)
Definition sums_zero (self : LinearClassifier) (p : Params) : Prop :=
  big_sum (num_categories self) (b p) = 0%R /\
  forall d, (d < input_dimension self)%nat ->
    big_sum (num_categories self) (W p d) = 0%R.

(** The number of validation reports in a trace. *)
Fixpoint count_validation (evs : list event) : nat :=
  match evs with
  | [] => 0
  | Print_validation _ :: rest => S (count_validation rest)
  | _ :: rest => count_validation rest
  end.

(** A gradient routine that is right on the first training batch of
    [sample_mnist], which is its only one. *)
Definition mnist_grad_W (cost : Params -> R) (p : Params) : nat -> nat -> R :=
  closed_form_W_gradient (main_classifier 0 0) p
    (input_batch (main_training Samples.sample_mnist) 0)
    (output_batch (main_training Samples.sample_mnist) 0).

Definition mnist_grad_b (cost : Params -> R) (p : Params) : nat -> R :=
  closed_form_b_gradient (main_classifier 0 0) p
    (input_batch (main_training Samples.sample_mnist) 0)
    (output_batch (main_training Samples.sample_mnist) 0).

(** Fewer rows than one batch in every split. *)
Definition tiny_mnist : Mnist :=
  {| train_input := repeat (repeat 0%R (28 * 28)) 3;
     train_output := repeat 3%Z 3;
     valid_input := repeat (repeat 0%R (28 * 28)) 3;
     valid_output := repeat 3%Z 3;
     test_input := repeat (repeat 0%R (28 * 28)) 3;
     test_output := repeat 3%Z 3 |}.

End Script.

(* ===================================================================== *)
(** * Batches as a compiled function evaluates them *)
(* ===================================================================== *)

Module Compiled.

Import Numpy Classifier.
Local Open Scope Z_scope.

(** The index of a compiled function is [T.lscalar()], a signed 64-bit
    integer, and tensor arithmetic on it wraps around. *)
Definition int64_min : Z := -9223372036854775808.
Definition int64_max : Z := 9223372036854775807.

Definition is_int64 (z : Z) : Prop := int64_min <= z <= int64_max.

Definition wrap64 (z : Z) : Z :=
  (z + 9223372036854775808) mod 18446744073709551616 - 9223372036854775808.

Definition add64 (a c : Z) : Z := wrap64 (a + c).
Definition mul64 (a c : Z) : Z := wrap64 (a * c).

(** [input_batch(index)] and [output_batch(index)] on a 64-bit [index]:
    the bounds [index * batch_size] and [(index + 1) * batch_size] are
    computed in 64 bits, then read as slice bounds. *)
Definition input_batch_int64 (self : Dataset) (index : Z) : list (list R) :=
  slice (input_set self)
        (mul64 index (batch_size self))
        (mul64 (add64 index 1) (batch_size self)).

Definition output_batch_int64 (self : Dataset) (index : Z) : list Z :=
  slice (output_set self)
        (mul64 index (batch_size self))
        (mul64 (add64 index 1) (batch_size self)).

(** Four rows in batches of two, and five rows in batches of four. *)
Definition four_rows : Dataset :=
  {| input_set := [[1%R]; [2%R]; [3%R]; [4%R]];
     output_set := [10; 11; 12; 13];
     batch_size := 2;
     num_batches := 4 / 2 |}.

Definition five_rows : Dataset :=
  {| input_set := [[1%R]; [2%R]; [3%R]; [4%R]; [5%R]];
     output_set := [10; 11; 12; 13; 14];
     batch_size := 4;
     num_batches := 5 / 4 |}.

End Compiled.

(* ===================================================================== *)
(** * Properties of the example generator *)
(* ===================================================================== *)

Module NaturalFacts.

Import Natural.
Local Open Scope string_scope.

Lemma length_append (s t : string) :
  String.length (s ++ t) = String.length s + String.length t.
Proof. induction s as [|c s IH]; simpl; [reflexivity | now rewrite IH]. Qed.

Lemma append_assoc (s t u : string) : (s ++ t) ++ u = s ++ (t ++ u).
Proof. induction s as [|c s IH]; simpl; [reflexivity | now rewrite IH]. Qed.

Lemma length_spaces (n : nat) : String.length (spaces n) = n.
Proof. induction n as [|n IH]; simpl; [reflexivity | now rewrite IH]. Qed.

Lemma all_in_append (v s t : string) :
  all_in v (s ++ t) = all_in v s && all_in v t.
Proof.
  induction s as [|c s IH]; simpl; [reflexivity|].
  now rewrite IH, andb_assoc.
Qed.

Lemma all_in_spaces (v : string) (n : nat) :
  char_in v " "%char = true -> all_in v (spaces n) = true.
Proof.
  intros Hv. induction n as [|n IH]; simpl; [reflexivity|].
  now rewrite Hv, IH.
Qed.

(** ** The padding loop *)

(** With enough fuel the loop ends by its own test, having appended
    [limit + 1 - len(s)] spaces. *)
Lemma pad_while_spec (limit : nat) :
  forall (fuel : nat) (s : string),
    S limit - String.length s < fuel ->
    pad_while fuel limit s = Some (s ++ spaces (S limit - String.length s)).
Proof.
  induction fuel as [|fuel IH]; intros s Hfuel; [lia|].
  cbn [pad_while]. destruct (Nat.leb_spec (String.length s) limit) as [Hle|Hgt].
  - rewrite IH by (rewrite length_append; change (String.length " ") with 1; lia).
    rewrite append_assoc, length_append. f_equal. f_equal.
    change (String.length " ") with 1.
    replace (S limit - String.length s) with (S (S limit - (String.length s + 1))) by lia.
    reflexivity.
  - replace (S limit - String.length s) with 0 by lia.
    cbn [spaces]. clear. f_equal.
    induction s as [|c s IH]; simpl; [reflexivity | now rewrite <- IH].
Qed.

Lemma source_pad_spec (s : string) :
  source_pad s = Some (s ++ spaces (S SOURCE_LEN - String.length s)).
Proof. apply pad_while_spec. unfold pad_fuel. lia. Qed.

Lemma target_pad_spec (s : string) :
  target_pad s = Some (s ++ spaces (S TARGET_LEN - String.length s)).
Proof. apply pad_while_spec. unfold pad_fuel. lia. Qed.

(** A string no longer than the limit leaves the loop one character
    longer than the limit. *)
Lemma padded_length (limit : nat) (s : string) :
  String.length s <= limit ->
  String.length (s ++ spaces (S limit - String.length s)) = S limit.
Proof. intros H. rewrite length_append, length_spaces. lia. Qed.

(** ** Binary rendering *)

Lemma length_bin_pos (p : positive) : String.length (bin_pos p) = Pos.size_nat p.
Proof.
  induction p as [p IH|p IH|]; simpl; try reflexivity;
    rewrite length_append, IH; simpl; lia.
Qed.

Lemma size_nat_le (p q : positive) :
  (p <= q)%positive -> Pos.size_nat p <= Pos.size_nat q.
Proof.
  intros H. destruct (Pos.eq_dec p q) as [->|Hne]; [lia|].
  apply Pos.size_nat_monotone. lia.
Qed.

Lemma length_format_b_le (n m : Z) :
  (0 < n <= m)%Z ->
  String.length (format_b n) <= String.length (format_b m).
Proof.
  intros [Hn Hm]. destruct n as [|p|p]; try lia.
  destruct m as [|q|q]; try lia.
  simpl. rewrite !length_bin_pos. apply size_nat_le. lia.
Qed.

Lemma bin_pos_digits (v : string) (p : positive) :
  char_in v "0"%char = true -> char_in v "1"%char = true ->
  all_in v (bin_pos p) = true.
Proof.
  intros H0 H1. induction p as [p IH|p IH|]; simpl.
  - rewrite all_in_append, IH. simpl. now rewrite H1.
  - rewrite all_in_append, IH. simpl. now rewrite H0.
  - now rewrite H1.
Qed.

Lemma parse_binary_from_append (s t : string) :
  forall acc,
    parse_binary_from acc (s ++ t) =
    match parse_binary_from acc s with
    | Some v => parse_binary_from v t
    | None => None
    end.
Proof.
  induction s as [|c s IH]; intros acc; simpl; [reflexivity|].
  destruct (Ascii.eqb c "0"); [apply IH|].
  destruct (Ascii.eqb c "1"); [apply IH | reflexivity].
Qed.

Lemma parse_bin_pos (p : positive) :
  parse_binary_from 0 (bin_pos p) = Some (Zpos p).
Proof.
  induction p as [p IH|p IH|]; simpl; try reflexivity;
    rewrite parse_binary_from_append, IH; simpl; f_equal.
Qed.

Lemma bin_pos_nonempty (p : positive) : bin_pos p <> "".
Proof.
  intros H. apply (f_equal String.length) in H.
  rewrite length_bin_pos in H. destruct p; simpl in H; discriminate.
Qed.

Lemma parse_format_b (n : Z) : (0 <= n)%Z -> parse_binary (format_b n) = Some n.
Proof.
  intros Hn. destruct n as [|p|p]; [reflexivity| |lia].
  simpl. unfold parse_binary.
  pose proof (bin_pos_nonempty p) as Hne.
  destruct (bin_pos p) eqn:E; [congruence|].
  rewrite <- E. apply parse_bin_pos.
Qed.

(** The unpadded strings of a draw have at most [SOURCE_LEN] and
    [TARGET_LEN] characters. *)
Lemma source_text_length (a b : Z) :
  number_range a -> String.length (source_text a b) <= SOURCE_LEN.
Proof.
  unfold number_range, MIN_NUMBER, MAX_NUMBER. intros Ha.
  unfold source_text, SOURCE_LEN. rewrite !length_append. simpl String.length at 2.
  assert (String.length (format_b a) <= String.length (format_b MAX_NUMBER))
    by (apply length_format_b_le; unfold MAX_NUMBER; lia).
  lia.
Qed.

Lemma target_text_length (a b : Z) :
  number_range a -> number_range b ->
  String.length (target_text a b) <= TARGET_LEN.
Proof.
  unfold number_range, MIN_NUMBER, MAX_NUMBER. intros Ha Hb.
  unfold target_text, TARGET_LEN. apply length_format_b_le.
  unfold MAX_NUMBER. nia.
Qed.

Lemma source_text_vocab (a b : Z) :
  (0 < a)%Z -> all_in SOURCE_VOCAB (source_text a b) = true.
Proof.
  intros Ha. destruct a as [|p|p]; try lia.
  unfold source_text. simpl format_b.
  rewrite !all_in_append, bin_pos_digits by reflexivity.
  reflexivity.
Qed.

Lemma target_text_vocab (a b : Z) :
  (0 < a)%Z -> (0 < b)%Z -> all_in TARGET_VOCAB (target_text a b) = true.
Proof.
  intros Ha Hb. unfold target_text. cbv zeta.
  destruct (a * b)%Z as [|p|p] eqn:E; try nia.
  simpl. now apply bin_pos_digits.
Qed.

(** ** Small cases *)

Example format_b_5 : format_b 5 = "101".
Proof. reflexivity. Qed.

Example source_text_2_3 : source_text 2 3 = "10*10".
Proof. reflexivity. Qed.

Example target_text_2_3 : target_text 2 3 = "110".
Proof. reflexivity. Qed.

Example parse_binary_110 : parse_binary "110" = Some 6%Z.
Proof. reflexivity. Qed.

Example parse_binary_padded : parse_binary "110 " = None.
Proof. reflexivity. Qed.

Example source_pad_full :
  source_pad "1111111*1111111" = Some "1111111*1111111 ".
Proof. reflexivity. Qed.

(** ** The claims on [generate] *)

(** C3 (the code departs from it): the source string of a draw [(a, b)]
    is claimed to be the binary rendering of [a], then ['*'], then the
    binary rendering of [b].  The format string names argument 0 twice, so
    the code renders [a] on both sides for every draw: at [(1, 2)] it
    builds ["1*1"] and not ["1*10"]. *)
Theorem source_text_renders_a_twice :
  (forall a b : Z, source_text a b = format_b a ++ "*" ++ format_b a) /\
  source_text 1 2 = "1*1" /\
  format_b 1 ++ "*" ++ format_b 2 = "1*10" /\
  source_text 1 2 <> format_b 1 ++ "*" ++ format_b 2.
Proof.
  split; [reflexivity|]. split; [reflexivity|]. split; [reflexivity|].
  vm_compute. discriminate.
Qed.

(** C4 (the code departs from it): after padding, the source is claimed
    to have exactly [SOURCE_LEN = 15] characters and the target exactly
    [TARGET_LEN = 14].  At the draw [(1, 1)] the loops stop one character
    later, at 16 and 15, all characters being in their alphabets, and
    the length assertion of line 41 fails. *)
Theorem padded_lengths_at_1_1 :
  SOURCE_LEN = 15 /\ TARGET_LEN = 14 /\
  source_pad (source_text 1 1) = Some "1*1             " /\
  target_pad (target_text 1 1) = Some "1              " /\
  String.length "1*1             " = 16 /\
  String.length "1              " = 15 /\
  all_in SOURCE_VOCAB "1*1             " = true /\
  all_in TARGET_VOCAB "1              " = true /\
  generate_with 1 1 = AssertionError 41.
Proof. repeat split. Qed.

(** C5: for every draw [a, b] in [1, 127], the unpadded target string
    that [generate] builds is the binary rendering of [a * b], reading it
    back as a binary numeral gives [a * b], and padding only appends
    spaces to it; at the boundary pair [(127, 127)] the product is 16129
    and its rendering is [11111100000001]. *)
Theorem target_round_trip (a b : Z) :
  number_range a -> number_range b ->
  target_text a b = format_b (a * b) /\
  parse_binary (target_text a b) = Some (a * b)%Z /\
  (exists k, target_pad (target_text a b) = Some (target_text a b ++ spaces k)) /\
  (MAX_NUMBER * MAX_NUMBER = 16129)%Z /\
  target_text MAX_NUMBER MAX_NUMBER = "11111100000001".
Proof.
  unfold number_range, MIN_NUMBER. intros Ha Hb.
  split; [reflexivity|]. split.
  - unfold target_text. apply parse_format_b. nia.
  - split; [|split; reflexivity].
    eexists. apply target_pad_spec.
Qed.

Lemma target_round_trip_witness :
  target_text 127 127 = format_b (127 * 127) /\
  parse_binary (target_text 127 127) = Some (127 * 127)%Z /\
  (exists k, target_pad (target_text 127 127) = Some (target_text 127 127 ++ spaces k)) /\
  (MAX_NUMBER * MAX_NUMBER = 16129)%Z /\
  target_text MAX_NUMBER MAX_NUMBER = "11111100000001".
Proof.
  apply (target_round_trip 127 127); unfold number_range, MIN_NUMBER, MAX_NUMBER; lia.
Defined.

(** C9: for every draw [a, b] in [1, 127], the padding loops end (they do
    not run out of fuel) with a source of [SOURCE_LEN + 1 = 16] characters
    and a target of [TARGET_LEN + 1 = 15] characters; the alphabet
    assertions pass, the assertion [len(source) == SOURCE_LEN] of line 41
    fails, and [generate] raises instead of returning a pair. *)
Theorem generate_always_raises (a b : Z) :
  number_range a -> number_range b ->
  (exists source target,
      source_pad (source_text a b) = Some source /\
      target_pad (target_text a b) = Some target /\
      String.length source = SOURCE_LEN + 1 /\
      String.length source = 16 /\
      String.length target = TARGET_LEN + 1 /\
      String.length target = 15) /\
  generate_with a b = AssertionError 41 /\
  (forall source target, generate_with a b <> Returned source target).
Proof.
  intros Ha Hb.
  pose proof (source_text_length a b Ha) as Hs.
  pose proof (target_text_length a b Ha Hb) as Ht.
  pose proof (padded_length _ _ Hs) as Hps.
  pose proof (padded_length _ _ Ht) as Hpt.
  assert (Hgen : generate_with a b = AssertionError 41).
  { unfold generate_with. rewrite source_pad_spec, target_pad_spec.
    rewrite !all_in_append.
    rewrite source_text_vocab by (unfold number_range, MIN_NUMBER in *; lia).
    rewrite target_text_vocab by (unfold number_range, MIN_NUMBER in *; lia).
    rewrite !all_in_spaces by reflexivity.
    cbn [andb negb]. rewrite Hps.
    destruct (Nat.eqb_spec (S SOURCE_LEN) SOURCE_LEN) as [E|_]; [lia | reflexivity]. }
  split; [|split].
  - exists (source_text a b ++ spaces (S SOURCE_LEN - String.length (source_text a b))).
    exists (target_text a b ++ spaces (S TARGET_LEN - String.length (target_text a b))).
    rewrite source_pad_spec, target_pad_spec, Hps, Hpt.
    repeat split; reflexivity.
  - exact Hgen.
  - intros source target H. rewrite Hgen in H. discriminate.
Qed.

Lemma generate_always_raises_witness :
  (exists source target,
      source_pad (source_text 3 5) = Some source /\
      target_pad (target_text 3 5) = Some target /\
      String.length source = SOURCE_LEN + 1 /\
      String.length source = 16 /\
      String.length target = TARGET_LEN + 1 /\
      String.length target = 15) /\
  generate_with 3 5 = AssertionError 41 /\
  (forall source target, generate_with 3 5 <> Returned source target).
Proof.
  apply (generate_always_raises 3 5); unfold number_range, MIN_NUMBER, MAX_NUMBER; lia.
Defined.

End NaturalFacts.

(* ===================================================================== *)
(** * Properties of the batch partitioner *)
(* ===================================================================== *)

Module DatasetFacts.

Import Numpy Classifier Samples.
Local Open Scope Z_scope.

Section Slices.

Context {A : Type}.
Implicit Types l : list A.

(** On bounds that are not negative, a slice is the rows from [lo]
    (included) to [hi] (excluded) that exist. *)
Lemma slice_nat l (lo hi : nat) :
  (lo <= hi)%nat ->
  slice l (Z.of_nat lo) (Z.of_nat hi) = firstn (hi - lo) (skipn lo l).
Proof.
  intros Hle. unfold slice, slice_bound.
  destruct (Z.ltb_spec (Z.of_nat lo) 0) as [?|_]; [lia|].
  destruct (Z.ltb_spec (Z.of_nat hi) 0) as [?|_]; [lia|].
  destruct (Nat.le_gt_cases (length l) lo) as [Hout|Hin].
  - rewrite !skipn_all2 by lia. now rewrite !firstn_nil.
  - replace (Z.to_nat (Z.min (Z.of_nat lo) (Z.of_nat (length l)))) with lo by lia.
    destruct (Nat.le_gt_cases hi (length l)) as [Hhi|Hhi].
    + f_equal. lia.
    + rewrite !firstn_all2; [reflexivity| |]; rewrite length_skipn; lia.
Qed.

Lemma batch_rows l (i B : Z) :
  0 <= i -> 0 < B ->
  slice l (i * B) ((i + 1) * B) =
  firstn (Z.to_nat B) (skipn (Z.to_nat (i * B)) l).
Proof.
  intros Hi HB.
  rewrite <- (Z2Nat.id (i * B)) at 1 by nia.
  rewrite <- (Z2Nat.id ((i + 1) * B)) by nia.
  rewrite slice_nat by nia.
  f_equal. nia.
Qed.

Lemma firstn_plus l (n m : nat) :
  firstn (n + m) l = firstn n l ++ firstn m (skipn n l).
Proof.
  revert l. induction n as [|n IH]; intros l; [reflexivity|].
  destruct l as [|v l]; simpl.
  - now rewrite firstn_nil.
  - now rewrite IH.
Qed.

(** Consecutive batches of [B] rows, from batch 0, rebuild a prefix. *)
Lemma concat_batches l (B : nat) (n : nat) :
  concat (map (fun i => firstn B (skipn (i * B) l)) (seq 0 n)) =
  firstn (n * B) l.
Proof.
  induction n as [|n IH]; [reflexivity|].
  rewrite seq_S, map_app, concat_app, IH. simpl.
  rewrite app_nil_r, <- firstn_plus. f_equal. lia.
Qed.

Lemma nth_error_batch l (B lo k : nat) :
  (k < B)%nat ->
  nth_error (firstn B (skipn lo l)) k = nth_error l (lo + k).
Proof.
  intros Hk. rewrite nth_error_firstn.
  destruct (Nat.ltb_spec k B) as [_|?]; [|lia].
  apply nth_error_skipn.
Qed.

End Slices.

(** [Dataset.__init__] returns an object exactly when the batch size is
    not zero. *)
Lemma Dataset_init_ok inp out (B : Z) :
  B <> 0 ->
  Dataset_init inp out B =
  Ok {| input_set := inp; output_set := out; batch_size := B;
        num_batches := Z.of_nat (length inp) / B |}.
Proof.
  intros HB. unfold Dataset_init.
  destruct (Z.eqb_spec B 0); [contradiction | reflexivity].
Qed.

Lemma Dataset_init_inv inp out (B : Z) d :
  Dataset_init inp out B = Ok d ->
  B <> 0 /\ input_set d = inp /\ output_set d = out /\ batch_size d = B /\
  num_batches d = Z.of_nat (length inp) / B.
Proof.
  unfold Dataset_init. destruct (Z.eqb_spec B 0) as [|HB]; [discriminate|].
  intros H. injection H as <-. repeat split; assumption.
Qed.

Lemma range_spec (n : Z) (i : Z) : In i (range n) <-> 0 <= i < n.
Proof.
  unfold range. rewrite in_map_iff. split.
  - intros (k & <- & Hk). apply in_seq in Hk. lia.
  - intros Hi. exists (Z.to_nat i). split; [lia|]. apply in_seq. lia.
Qed.

Lemma map_range {T : Type} (f : Z -> T) (n : Z) :
  map f (range n) = map (fun k => f (Z.of_nat k)) (seq 0 (Z.to_nat n)).
Proof. unfold range. now rewrite map_map. Qed.

Lemma batch_length {A : Type} (l : list A) (i B : Z) :
  0 <= i -> 0 < B ->
  Z.of_nat (length (slice l (i * B) ((i + 1) * B))) =
  Z.max 0 (Z.min B (Z.of_nat (length l) - i * B)).
Proof.
  intros Hi HB. rewrite batch_rows by assumption.
  rewrite length_firstn, length_skipn. nia.
Qed.

Lemma concat_slices {A : Type} (l : list A) (B n : Z) :
  0 < B ->
  concat (map (fun i => slice l (i * B) ((i + 1) * B)) (range n)) =
  firstn (Z.to_nat (B * n)) l.
Proof.
  intros HB. rewrite map_range.
  rewrite (map_ext _ (fun k => firstn (Z.to_nat B) (skipn (k * Z.to_nat B) l))).
  - rewrite concat_batches. f_equal. nia.
  - intros k. rewrite batch_rows by lia. do 2 f_equal. nia.
Qed.

(** ** Small cases *)

Example range_3 : range 3 = [0; 1; 2].
Proof. reflexivity. Qed.

Example range_negative : range (-2) = [].
Proof. reflexivity. Qed.

Example slice_inside : slice [10; 11; 12; 13; 14] 2 4 = [12; 13].
Proof. reflexivity. Qed.

Example slice_clipped : slice [10; 11; 12; 13; 14] 4 6 = [14].
Proof. reflexivity. Qed.

Example slice_past_end : slice [10; 11; 12; 13; 14] 6 8 = [].
Proof. reflexivity. Qed.

(** Negative bounds count from the end, as in Python. *)
Example slice_from_end : slice [10; 11; 12; 13; 14] (-4) (-2) = [11; 12].
Proof. reflexivity. Qed.

Example sample_num_batches : num_batches sample_dataset = 1.
Proof. reflexivity. Qed.

Example sample_trailing_batch : output_batch sample_dataset 1 = [0].
Proof. reflexivity. Qed.

Example sample_batch_zero_size :
  Dataset_init sample_input sample_output 0 = Raise ZeroDivisionError.
Proof. reflexivity. Qed.

(** C2: a [Dataset] built on an input array and an output array of [N]
    rows with a batch size [0 < B <= N] has [num_batches = N div B]
    (floor division).  For every [i] in [[0, num_batches)], [input_batch i]
    and [output_batch i] are the rows [i*B] (included) to [(i+1)*B]
    (excluded) of their array, [B] rows each; and the batches, in index
    order, concatenate to the first [B * num_batches] rows. *)
Theorem dataset_batches (inp : list (list R)) (out : list Z) (N B : Z) :
  Z.of_nat (length inp) = N -> Z.of_nat (length out) = N ->
  0 < B <= N ->
  exists d,
    Dataset_init inp out B = Ok d /\
    num_batches d = N / B /\
    (forall i, 0 <= i < num_batches d ->
       input_batch d i = firstn (Z.to_nat B) (skipn (Z.to_nat (i * B)) inp) /\
       output_batch d i = firstn (Z.to_nat B) (skipn (Z.to_nat (i * B)) out) /\
       Z.of_nat (length (input_batch d i)) = B /\
       Z.of_nat (length (output_batch d i)) = B /\
       (forall k, (k < Z.to_nat B)%nat ->
          nth_error (input_batch d i) k = nth_error inp (Z.to_nat (i * B) + k) /\
          nth_error (output_batch d i) k = nth_error out (Z.to_nat (i * B) + k))) /\
    concat (map (input_batch d) (range (num_batches d))) =
      firstn (Z.to_nat (B * num_batches d)) inp /\
    concat (map (output_batch d) (range (num_batches d))) =
      firstn (Z.to_nat (B * num_batches d)) out /\
    B * num_batches d <= N.
Proof.
  intros Hinp Hout [HB HN].
  eexists. split; [apply Dataset_init_ok; lia|].
  cbn [num_batches]. rewrite Hinp. split; [reflexivity|].
  assert (Hdiv : B * (N / B) <= N) by (apply Z.mul_div_le; lia).
  split; [|split; [|split]].
  - intros i Hi. unfold input_batch, output_batch. cbn [input_set output_set batch_size].
    assert (Hfull : (i + 1) * B <= N) by nia.
    rewrite !batch_rows by lia.
    split; [reflexivity|]. split; [reflexivity|].
    split; [|split].
    + rewrite length_firstn, length_skipn. nia.
    + rewrite length_firstn, length_skipn. nia.
    + intros k Hk. split; apply nth_error_batch; assumption.
  - unfold input_batch. cbn [input_set batch_size]. now apply concat_slices.
  - unfold output_batch. cbn [output_set batch_size]. now apply concat_slices.
  - exact Hdiv.
Qed.

Lemma dataset_batches_witness :
  exists d,
    Dataset_init [[1%R]; [2%R]; [3%R]; [4%R]; [5%R]] [0; 1; 0; 1; 1] 2 = Ok d /\
    num_batches d = 5 / 2 /\
    (forall i, 0 <= i < num_batches d ->
       input_batch d i =
         firstn (Z.to_nat 2) (skipn (Z.to_nat (i * 2)) [[1%R]; [2%R]; [3%R]; [4%R]; [5%R]]) /\
       output_batch d i =
         firstn (Z.to_nat 2) (skipn (Z.to_nat (i * 2)) [0; 1; 0; 1; 1]) /\
       Z.of_nat (length (input_batch d i)) = 2 /\
       Z.of_nat (length (output_batch d i)) = 2 /\
       (forall k, (k < Z.to_nat 2)%nat ->
          nth_error (input_batch d i) k =
            nth_error [[1%R]; [2%R]; [3%R]; [4%R]; [5%R]] (Z.to_nat (i * 2) + k) /\
          nth_error (output_batch d i) k =
            nth_error [0; 1; 0; 1; 1] (Z.to_nat (i * 2) + k))) /\
    concat (map (input_batch d) (range (num_batches d))) =
      firstn (Z.to_nat (2 * num_batches d)) [[1%R]; [2%R]; [3%R]; [4%R]; [5%R]] /\
    concat (map (output_batch d) (range (num_batches d))) =
      firstn (Z.to_nat (2 * num_batches d)) [0; 1; 0; 1; 1] /\
    2 * num_batches d <= 5.
Proof.
  apply (dataset_batches [[1%R]; [2%R]; [3%R]; [4%R]; [5%R]] [0; 1; 0; 1; 1] 5 2);
    [reflexivity | reflexivity | lia].
Defined.

End DatasetFacts.

(* ===================================================================== *)
(** * Sums, softmax and the loss *)
(* ===================================================================== *)

Module LossFacts.

Import Numpy Classifier.
Local Open Scope R_scope.

Lemma Rsum_app (l1 l2 : list R) : Rsum (l1 ++ l2) = Rsum l1 + Rsum l2.
Proof. induction l1 as [|v l1 IH]; simpl; [lra | rewrite IH; lra]. Qed.

Lemma Rsum_le_0 (l : list R) : (forall v, In v l -> v <= 0) -> Rsum l <= 0.
Proof.
  induction l as [|v l IH]; intros H; simpl; [lra|].
  assert (v <= 0) by (apply H; now left).
  assert (Rsum l <= 0) by (apply IH; intros; apply H; now right).
  lra.
Qed.

Lemma Rsum_const {A : Type} (l : list A) (v : R) :
  Rsum (map (fun _ => v) l) = INR (length l) * v.
Proof.
  induction l as [|a l IH]; [simpl; lra|].
  cbn [map Rsum fold_right length]. fold (Rsum (map (fun _ => v) l)).
  rewrite IH, S_INR. lra.
Qed.

Lemma Rsum_map_ext {A : Type} (f g : A -> R) (l : list A) :
  (forall a, In a l -> f a = g a) -> Rsum (map f l) = Rsum (map g l).
Proof. intros H. f_equal. now apply map_ext_in. Qed.

Lemma big_sum_ext (n : nat) (f g : nat -> R) :
  (forall i, (i < n)%nat -> f i = g i) -> big_sum n f = big_sum n g.
Proof.
  intros H. apply Rsum_map_ext. intros i Hi. apply H. apply in_seq in Hi. lia.
Qed.

Lemma big_sum_S (n : nat) (f : nat -> R) :
  big_sum (S n) f = big_sum n f + f n.
Proof.
  unfold big_sum. rewrite seq_S, map_app, Rsum_app. simpl. lra.
Qed.

Lemma big_sum_const (n : nat) (v : R) : big_sum n (fun _ => v) = INR n * v.
Proof. unfold big_sum. now rewrite Rsum_const, length_seq. Qed.

Lemma big_sum_pos (n : nat) (f : nat -> R) :
  (0 < n)%nat -> (forall i, 0 < f i) -> 0 < big_sum n f.
Proof.
  intros Hn Hf. induction n as [|n IH]; [lia|].
  rewrite big_sum_S. destruct n as [|n].
  - unfold big_sum. simpl. specialize (Hf O). lra.
  - specialize (IH ltac:(lia)). specialize (Hf (S n)). lra.
Qed.

Lemma big_sum_term_le (n : nat) (f : nat -> R) (j : nat) :
  (forall i, 0 < f i) -> (j < n)%nat -> f j <= big_sum n f.
Proof.
  intros Hf. induction n as [|n IH]; intros Hj; [lia|].
  rewrite big_sum_S. destruct (Nat.eq_dec j n) as [->|Hne].
  - destruct n as [|n].
    + unfold big_sum. simpl. lra.
    + pose proof (big_sum_pos (S n) f ltac:(lia) Hf). lra.
  - specialize (IH ltac:(lia)). specialize (Hf n). lra.
Qed.

(** A sum that has a single non-zero term. *)
Lemma big_sum_single (n : nat) (f : nat -> R) (j : nat) :
  big_sum n (fun i => if Nat.eqb i j then f i else 0) =
  if (j <? n)%nat then f j else 0.
Proof.
  induction n as [|n IH]; [reflexivity|].
  rewrite big_sum_S, IH.
  destruct (Nat.eqb_spec n j) as [->|Hne].
  - destruct (Nat.ltb_spec j j); [lia|].
    destruct (Nat.ltb_spec j (S j)); [lra | lia].
  - destruct (Nat.ltb_spec j n), (Nat.ltb_spec j (S n)); try lia; lra.
Qed.

(** ** Softmax *)

Lemma softmax_denominator_pos (n : nat) (z : nat -> R) :
  (0 < n)%nat -> 0 < big_sum n (fun k => exp (z k)).
Proof. intros Hn. apply big_sum_pos; [assumption | intros; apply exp_pos]. Qed.

Lemma softmax_pos (n : nat) (z : nat -> R) (c : nat) :
  (0 < n)%nat -> 0 < softmax n z c.
Proof.
  intros Hn. unfold softmax. apply Rdiv_lt_0_compat; [apply exp_pos|].
  now apply softmax_denominator_pos.
Qed.

Lemma softmax_le_1 (n : nat) (z : nat -> R) (c : nat) :
  (c < n)%nat -> softmax n z c <= 1.
Proof.
  intros Hc. unfold softmax.
  assert (Hpos : 0 < big_sum n (fun k => exp (z k)))
    by (apply softmax_denominator_pos; lia).
  apply (Rmult_le_reg_r (big_sum n (fun k => exp (z k)))); [assumption|].
  unfold Rdiv. rewrite Rmult_assoc, Rinv_l by lra.
  rewrite Rmult_1_r, Rmult_1_l.
  apply (big_sum_term_le n (fun k => exp (z k)) c); [intros; apply exp_pos | assumption].
Qed.

Lemma ln_softmax_le_0 (n : nat) (z : nat -> R) (c : nat) :
  (c < n)%nat -> ln (softmax n z c) <= 0.
Proof.
  intros Hc.
  pose proof (softmax_pos n z c ltac:(lia)) as Hpos.
  destruct (softmax_le_1 n z c Hc) as [Hlt|Heq].
  - rewrite <- ln_1. left. now apply ln_increasing.
  - rewrite Heq, ln_1. lra.
Qed.

(** ** Selected columns *)

Lemma index_axis_in_range (n : nat) (t : Z) :
  (0 <= t < Z.of_nat n)%Z -> index_axis n t = Some (Z.to_nat t).
Proof.
  intros Ht. unfold index_axis.
  destruct (Z.leb_spec 0 t); [|lia].
  destruct (Z.ltb_spec t (Z.of_nat n)); [reflexivity | lia].
Qed.

Lemma index_axis_bound (n : nat) (t : Z) (c : nat) :
  index_axis n t = Some c -> (c < n)%nat.
Proof.
  unfold index_axis.
  destruct (Z.leb_spec 0 t), (Z.ltb_spec t (Z.of_nat n)); cbn [andb];
    try (intros E; injection E as <-; lia);
    destruct (Z.leb_spec (- Z.of_nat n) t), (Z.ltb_spec t 0); cbn [andb];
    try discriminate; intros E; injection E as <-; lia.
Qed.

Lemma target_columns_in_range (self : LinearClassifier) (target : list Z) :
  in_range (num_categories self) target ->
  target_columns self target = Some (map Z.to_nat target).
Proof.
  unfold in_range. induction target as [|t target IH]; intros H; [reflexivity|].
  cbn [target_columns fold_right map].
  fold (target_columns self target).
  rewrite index_axis_in_range by (apply H; now left).
  rewrite IH by (intros; apply H; now right). reflexivity.
Qed.

Lemma target_columns_bound (self : LinearClassifier) (target : list Z) :
  forall cols, target_columns self target = Some cols ->
    length cols = length target /\
    forall c, In c cols -> (c < num_categories self)%nat.
Proof.
  induction target as [|t target IH]; intros cols.
  - intros H. injection H as <-. split; [reflexivity | intros c []].
  - cbn [target_columns fold_right]. fold (target_columns self target).
    destruct (index_axis (num_categories self) t) as [c0|] eqn:E0; [|discriminate].
    destruct (target_columns self target) as [cs|]; [|discriminate].
    intros H. injection H as <-.
    destruct (IH cs eq_refl) as [Hlen Hall].
    split; [simpl; now rewrite Hlen|].
    intros c [<-|Hc]; [now apply index_axis_bound in E0 | now apply Hall].
Qed.

(** ** The loss *)

Lemma mean_le_0 (l : list R) : (forall v, In v l -> v <= 0) -> mean l <= 0.
Proof.
  intros H. unfold mean. destruct l as [|v l].
  - simpl. lra.
  - pose proof (Rsum_le_0 _ H) as Hs.
    assert (Hn : 0 < INR (length (v :: l))) by (apply lt_0_INR; simpl; lia).
    apply Rinv_0_lt_compat in Hn. unfold Rdiv. nra.
Qed.

Lemma mean_const {A : Type} (l : list A) (v : R) :
  l <> nil -> mean (map (fun _ => v) l) = v.
Proof.
  intros Hl. unfold mean. rewrite Rsum_const, length_map.
  assert (Hn : 0 < INR (length l)).
  { apply lt_0_INR. destruct l; [congruence | simpl; lia]. }
  field. lra.
Qed.

Lemma negative_log_likelihood_ok (self : LinearClassifier) (p : Params)
    (xv : list (list R)) (target : list Z) :
  dot_shape_ok self xv = true ->
  length target = length xv ->
  in_range (num_categories self) target ->
  negative_log_likelihood self p xv target =
  Ok (nll_value self p xv (map Z.to_nat target)).
Proof.
  intros Hshape Hlen Hrange. unfold negative_log_likelihood.
  rewrite Hshape. cbn [negb].
  destruct (Nat.leb_spec (length target) (length xv)) as [_|?]; [|lia].
  cbn [negb]. now rewrite target_columns_in_range.
Qed.

Lemma nll_value_nonneg (self : LinearClassifier) (p : Params)
    (xv : list (list R)) (cols : list nat) :
  (forall c, In c cols -> (c < num_categories self)%nat) ->
  0 <= nll_value self p xv cols.
Proof.
  intros Hcols. unfold nll_value.
  apply Ropp_0_ge_le_contravar, Rle_ge, mean_le_0.
  intros v Hv. apply in_map_iff in Hv as ([i c] & <- & Hic).
  apply in_combine_r in Hic. cbn [fst snd].
  unfold y_prob. apply ln_softmax_le_0. now apply Hcols.
Qed.

Lemma y_calculated_zero (self : LinearClassifier) (p : Params)
    (xv : list (list R)) (i c : nat) :
  (forall d k, W p d k = 0) -> (forall k, b p k = 0) ->
  y_calculated self p xv i c = 0.
Proof.
  intros HW Hb. unfold y_calculated.
  rewrite (big_sum_ext _ _ (fun _ => 0)) by (intros; rewrite HW; lra).
  rewrite big_sum_const, Hb. lra.
Qed.

Lemma y_prob_zero (self : LinearClassifier) (p : Params)
    (xv : list (list R)) (i c : nat) :
  (forall d k, W p d k = 0) -> (forall k, b p k = 0) ->
  y_prob self p xv i c = 1 / INR (num_categories self).
Proof.
  intros HW Hb. unfold y_prob, softmax.
  rewrite (big_sum_ext _ _ (fun _ => 1))
    by (intros; rewrite y_calculated_zero by assumption; apply exp_0).
  rewrite big_sum_const, y_calculated_zero, exp_0 by assumption.
  now rewrite Rmult_1_r.
Qed.

Lemma nll_value_zero (self : LinearClassifier) (p : Params)
    (xv : list (list R)) (cols : list nat) :
  (forall d k, W p d k = 0) -> (forall k, b p k = 0) ->
  cols <> nil ->
  nll_value self p xv cols = - ln (1 / INR (num_categories self)).
Proof.
  intros HW Hb Hne. unfold nll_value. f_equal.
  rewrite (map_ext _ (fun _ => ln (1 / INR (num_categories self))))
    by (intros; now rewrite y_prob_zero).
  apply mean_const.
  destruct cols as [|c cols]; [congruence | discriminate].
Qed.

(** C6: on a non-empty batch with in-range labels, one label per row,
    the loss is computed (no exception) and is not negative.  For a
    classifier just built by [__init__], whatever its shape, [W] and [b]
    are all zeros, and then the loss of every such batch is
    [-log(1/C) = log C], [C] being the number of categories. *)
Theorem loss_nonneg_and_initial (self : LinearClassifier) (p : Params)
    (xv : list (list R)) (target : list Z) :
  dot_shape_ok self xv = true ->
  length target = length xv ->
  in_range (num_categories self) target ->
  target <> nil ->
  (exists loss,
      negative_log_likelihood self p xv target = Ok loss /\ 0 <= loss) /\
  (forall (addr : nat) (st : Store),
     let fresh := LinearClassifier_init addr (x self) (input_dimension self)
                    (num_categories self) st in
     let p0 := snd fresh (shared (fst fresh)) in
     (forall d k, W p0 d k = 0) /\ (forall k, b p0 k = 0) /\
     negative_log_likelihood (fst fresh) p0 xv target =
       Ok (- ln (1 / INR (num_categories self))) /\
     - ln (1 / INR (num_categories self)) = ln (INR (num_categories self))).
Proof.
  intros Hshape Hlen Hrange Hne. split.
  - eexists. split; [now apply negative_log_likelihood_ok|].
    apply nll_value_nonneg. intros c Hc.
    apply in_map_iff in Hc as (t & <- & Ht). specialize (Hrange t Ht). lia.
  - intros addr st fresh p0.
    assert (Hp0 : p0 = zeros).
    { unfold p0, fresh, LinearClassifier_init, store_set. cbn [fst snd shared].
      now rewrite Nat.eqb_refl. }
    assert (HW : forall d k, W p0 d k = 0) by (now rewrite Hp0).
    assert (Hb : forall k, b p0 k = 0) by (now rewrite Hp0).
    split; [exact HW|]. split; [exact Hb|]. split.
    + rewrite negative_log_likelihood_ok; [| exact Hshape | exact Hlen | exact Hrange].
      f_equal. apply (nll_value_zero (fst fresh)); [exact HW | exact Hb |].
      destruct target; [congruence | discriminate].
    + assert (HC : 0 < INR (num_categories self)).
      { apply lt_0_INR. destruct target as [|t target]; [congruence|].
        specialize (Hrange t (or_introl eq_refl)). lia. }
      unfold Rdiv. rewrite Rmult_1_l, ln_Rinv by assumption. lra.
Qed.

Lemma sample_labels_in_range :
  in_range (num_categories Samples.sample_classifier) Samples.sample_y.
Proof.
  intros t [<-|[<-|[]]]; cbn; lia.
Qed.

Lemma loss_nonneg_and_initial_witness :
  (exists loss,
      negative_log_likelihood Samples.sample_classifier zeros
        Samples.sample_x Samples.sample_y = Ok loss /\ 0 <= loss) /\
  (forall (addr : nat) (st : Store),
     let fresh := LinearClassifier_init addr 0 1 2 st in
     let p0 := snd fresh (shared (fst fresh)) in
     (forall d k, W p0 d k = 0) /\ (forall k, b p0 k = 0) /\
     negative_log_likelihood (fst fresh) p0 Samples.sample_x Samples.sample_y =
       Ok (- ln (1 / INR 2)) /\
     - ln (1 / INR 2) = ln (INR 2)).
Proof.
  apply (loss_nonneg_and_initial Samples.sample_classifier zeros
           Samples.sample_x Samples.sample_y);
    [reflexivity | reflexivity | exact sample_labels_in_range | discriminate].
Defined.

End LossFacts.

(* ===================================================================== *)
(** * The gradient of the loss *)
(* ===================================================================== *)

Module GradientFacts.

Import Numpy Classifier LossFacts.
Local Open Scope R_scope.

(** ** Derivatives of the building blocks *)

Lemma derivable_value (f : R -> R) (x l l' : R) :
  derivable_pt_lim f x l -> l = l' -> derivable_pt_lim f x l'.
Proof. now intros H <-. Qed.

Lemma derivable_constant (c x : R) : derivable_pt_lim (fun _ => c) x 0.
Proof. exact (derivable_pt_lim_const c x). Qed.

Lemma derivable_sum (f g : R -> R) (x lf lg : R) :
  derivable_pt_lim f x lf -> derivable_pt_lim g x lg ->
  derivable_pt_lim (fun v => f v + g v) x (lf + lg).
Proof. exact (derivable_pt_lim_plus f g x lf lg). Qed.

Lemma derivable_difference (f g : R -> R) (x lf lg : R) :
  derivable_pt_lim f x lf -> derivable_pt_lim g x lg ->
  derivable_pt_lim (fun v => f v - g v) x (lf - lg).
Proof. exact (derivable_pt_lim_minus f g x lf lg). Qed.

Lemma derivable_scaled (a : R) (f : R -> R) (x l : R) :
  derivable_pt_lim f x l -> derivable_pt_lim (fun v => a * f v) x (a * l).
Proof. exact (derivable_pt_lim_scal f a x l). Qed.

Lemma derivable_exp_of (f : R -> R) (x l : R) :
  derivable_pt_lim f x l ->
  derivable_pt_lim (fun v => exp (f v)) x (exp (f x) * l).
Proof.
  intros H.
  exact (derivable_pt_lim_comp f exp x l (exp (f x)) H (derivable_pt_lim_exp (f x))).
Qed.

Lemma derivable_ln_of (f : R -> R) (x l : R) :
  0 < f x -> derivable_pt_lim f x l ->
  derivable_pt_lim (fun v => ln (f v)) x (l / f x).
Proof.
  intros Hpos H. unfold Rdiv. rewrite Rmult_comm.
  exact (derivable_pt_lim_comp f ln x l (/ f x) H (derivable_pt_lim_ln (f x) Hpos)).
Qed.

Lemma derivable_Rsum {A : Type} (l : list A) (F : A -> R -> R) (dF : A -> R) (x : R) :
  (forall a, In a l -> derivable_pt_lim (F a) x (dF a)) ->
  derivable_pt_lim (fun v => Rsum (map (fun a => F a v) l)) x (Rsum (map dF l)).
Proof.
  induction l as [|a l IH]; intros H.
  - exact (derivable_constant 0 x).
  - apply (derivable_sum (F a) (fun v => Rsum (map (fun a' => F a' v) l))).
    + apply H. now left.
    + apply IH. intros a' Ha'. apply H. now right.
Qed.

Lemma derivable_big_sum (n : nat) (F : nat -> R -> R) (dF : nat -> R) (x : R) :
  (forall i, (i < n)%nat -> derivable_pt_lim (F i) x (dF i)) ->
  derivable_pt_lim (fun v => big_sum n (fun i => F i v)) x (big_sum n dF).
Proof.
  intros H. unfold big_sum. apply derivable_Rsum.
  intros i Hi. apply H. apply in_seq in Hi. lia.
Qed.

Lemma big_sum_scaled (n : nat) (f : nat -> R) (a : R) :
  big_sum n f * a = big_sum n (fun i => f i * a).
Proof.
  induction n as [|n IH]; [unfold big_sum; simpl; lra|].
  rewrite !big_sum_S, <- IH. lra.
Qed.

Lemma big_sum_plus (n : nat) (f g : nat -> R) :
  big_sum n (fun i => f i + g i) = big_sum n f + big_sum n g.
Proof.
  induction n as [|n IH]; [unfold big_sum; simpl; lra|].
  rewrite !big_sum_S, IH. lra.
Qed.

(** The logarithm of a softmax entry, as a function of one real [v] that
    the scores depend on: its derivative is the derivative of the
    selected score minus the softmax-weighted mean of all of them. *)
Lemma derivable_ln_softmax (n : nat) (z : nat -> R -> R) (dz : nat -> R)
    (x0 : R) (t : nat) :
  (t < n)%nat ->
  (forall c, (c < n)%nat -> derivable_pt_lim (z c) x0 (dz c)) ->
  derivable_pt_lim (fun v => ln (softmax n (fun c => z c v) t)) x0
    (dz t - big_sum n (fun c => dz c * softmax n (fun c' => z c' x0) c)).
Proof.
  intros Ht Hz.
  assert (Hpos : forall v, 0 < big_sum n (fun c => exp (z c v)))
    by (intros v; apply (softmax_denominator_pos n (fun c => z c v)); lia).
  apply (derivable_pt_lim_ext
           (fun v => z t v - ln (big_sum n (fun c => exp (z c v))))).
  - intros v. unfold softmax, Rdiv.
    rewrite ln_mult, ln_Rinv, ln_exp;
      [lra | apply Hpos | apply exp_pos | apply Rinv_0_lt_compat, Hpos].
  - eapply derivable_value.
    + apply derivable_difference; [now apply Hz|].
      apply (derivable_ln_of (fun v => big_sum n (fun c => exp (z c v))));
        [apply Hpos|].
      apply (derivable_big_sum n (fun c v => exp (z c v))
               (fun c => exp (z c x0) * dz c)).
      intros c Hc. apply derivable_exp_of. now apply Hz.
    + f_equal. unfold Rdiv. rewrite big_sum_scaled.
      apply big_sum_ext. intros c _. unfold softmax, Rdiv. lra.
Qed.

(** ** Scores as functions of one parameter entry *)

Lemma derivable_entry_choice (cond : bool) (w x0 : R) :
  derivable_pt_lim (fun v => if cond then v else w) x0 (if cond then 1 else 0).
Proof.
  destruct cond; [exact (derivable_pt_lim_id x0) | exact (derivable_constant w x0)].
Qed.

Lemma y_calculated_set_W (self : LinearClassifier) (p : Params)
    (xv : list (list R)) (i c d k : nat) (x0 : R) :
  (d < input_dimension self)%nat ->
  derivable_pt_lim (fun v => y_calculated self (set_W p d k v) xv i c) x0
    (if Nat.eqb c k then entry xv i d else 0).
Proof.
  intros Hd. unfold y_calculated. cbn [W b set_W].
  eapply derivable_value.
  - apply derivable_sum.
    + apply (derivable_big_sum (input_dimension self)
               (fun d' v => entry xv i d' *
                            (if Nat.eqb d' d && Nat.eqb c k then v else W p d' c))
               (fun d' => entry xv i d' *
                          (if Nat.eqb d' d && Nat.eqb c k then 1 else 0))).
      intros d' _. apply derivable_scaled, derivable_entry_choice.
    + apply derivable_constant.
  - rewrite Rplus_0_r. destruct (Nat.eqb c k).
    + rewrite (big_sum_ext _ _ (fun d' => if Nat.eqb d' d then entry xv i d' else 0)).
      * rewrite big_sum_single.
        destruct (Nat.ltb_spec d (input_dimension self)); [reflexivity | lia].
      * intros d' _. rewrite andb_true_r. destruct (Nat.eqb d' d); lra.
    + rewrite (big_sum_ext _ _ (fun _ => 0)).
      * rewrite big_sum_const. lra.
      * intros d' _. rewrite andb_false_r. lra.
Qed.

Lemma y_calculated_set_b (self : LinearClassifier) (p : Params)
    (xv : list (list R)) (i c k : nat) (x0 : R) :
  derivable_pt_lim (fun v => y_calculated self (set_b p k v) xv i c) x0
    (if Nat.eqb c k then 1 else 0).
Proof.
  unfold y_calculated. cbn [W b set_b].
  eapply derivable_value.
  - apply derivable_sum.
    + apply derivable_constant.
    + apply derivable_entry_choice.
  - lra.
Qed.

Lemma y_calculated_set_W_same (self : LinearClassifier) (p : Params)
    (xv : list (list R)) (i c d k : nat) :
  y_calculated self (set_W p d k (W p d k)) xv i c = y_calculated self p xv i c.
Proof.
  unfold y_calculated. cbn [W b set_W]. f_equal.
  apply big_sum_ext. intros d' _.
  destruct (Nat.eqb_spec d' d) as [->|]; [|reflexivity].
  destruct (Nat.eqb_spec c k) as [->|]; reflexivity.
Qed.

Lemma y_calculated_set_b_same (self : LinearClassifier) (p : Params)
    (xv : list (list R)) (i c k : nat) :
  y_calculated self (set_b p k (b p k)) xv i c = y_calculated self p xv i c.
Proof.
  unfold y_calculated. cbn [W b set_b]. f_equal.
  destruct (Nat.eqb_spec c k) as [->|]; reflexivity.
Qed.

Lemma softmax_ext (n : nat) (z z' : nat -> R) (c : nat) :
  (forall j, z j = z' j) -> softmax n z c = softmax n z' c.
Proof.
  intros H. unfold softmax. rewrite H. f_equal.
  apply big_sum_ext. intros j _. now rewrite H.
Qed.

(** ** The loss along a path of parameters *)

Section Along.

Variable self : LinearClassifier.
Variable xv : list (list R).
Variable cols : list nat.

(** [q v] are the parameters when the moving entry has value [v]; [k] is
    the category of the moving entry and [a i] the rate at which score
    [k] of row [i] follows it. *)
Variable q : R -> Params.
Variable p : Params.
Variable x0 : R.
Variable k : nat.
Variable a : nat -> R.

Hypothesis k_bound : (k < num_categories self)%nat.
Hypothesis cols_bound : forall c, In c cols -> (c < num_categories self)%nat.
Hypothesis scores_follow :
  forall i c, derivable_pt_lim (fun v => y_calculated self (q v) xv i c) x0
                (if Nat.eqb c k then a i else 0).
Hypothesis scores_at : forall i c,
  y_calculated self (q x0) xv i c = y_calculated self p xv i c.

Lemma ln_y_prob_derivative (i t : nat) :
  (t < num_categories self)%nat ->
  derivable_pt_lim (fun v => ln (y_prob self (q v) xv i t)) x0
    ((if Nat.eqb t k then a i else 0) - a i * y_prob self p xv i k).
Proof.
  intros Ht. unfold y_prob.
  eapply derivable_value.
  - apply (derivable_ln_softmax (num_categories self)
             (fun c v => y_calculated self (q v) xv i c)
             (fun c => if Nat.eqb c k then a i else 0) x0 t Ht).
    intros c _. apply scores_follow.
  - f_equal.
    rewrite (big_sum_ext _ _
               (fun c => if Nat.eqb c k
                         then a i * softmax (num_categories self)
                                      (fun c' => y_calculated self (q x0) xv i c') c
                         else 0))
      by (intros c _; destruct (Nat.eqb c k); lra).
    rewrite big_sum_single.
    destruct (Nat.ltb_spec k (num_categories self)); [|lia].
    f_equal. apply softmax_ext. intros j. apply scores_at.
Qed.

Lemma nll_value_derivative :
  derivable_pt_lim (fun v => nll_value self (q v) xv cols) x0
    (- (Rsum (map (fun ic => (if Nat.eqb (snd ic) k then a (fst ic) else 0)
                             - a (fst ic) * y_prob self p xv (fst ic) k)
                  (combine (seq 0 (length cols)) cols))
        / INR (length cols))).
Proof.
  set (rows := combine (seq 0 (length cols)) cols).
  assert (Hlen : length rows = length cols).
  { unfold rows. rewrite length_combine, length_seq. apply Nat.min_id. }
  apply (derivable_pt_lim_ext
           (fun v => (- / INR (length cols)) *
                     Rsum (map (fun ic => ln (y_prob self (q v) xv (fst ic) (snd ic))) rows))).
  - intros v. unfold nll_value, mean. fold rows.
    rewrite length_map, Hlen. unfold Rdiv. lra.
  - eapply derivable_value.
    + apply derivable_scaled.
      apply (derivable_Rsum rows
               (fun ic v => ln (y_prob self (q v) xv (fst ic) (snd ic)))
               (fun ic => (if Nat.eqb (snd ic) k then a (fst ic) else 0)
                          - a (fst ic) * y_prob self p xv (fst ic) k)).
      intros [i t] Hit. cbn [fst snd]. apply ln_y_prob_derivative.
      apply cols_bound. now apply in_combine_r in Hit.
    + unfold Rdiv. lra.
Qed.

End Along.

(** ** The closed form *)

Lemma combine_seq_from (cols : list nat) :
  forall s,
    combine (seq s (length cols)) cols =
    map (fun i => (i, nth (i - s) cols O)) (seq s (length cols)).
Proof.
  induction cols as [|c cols IH]; intros s; [reflexivity|].
  cbn [length seq combine map]. rewrite Nat.sub_diag. cbn [nth]. f_equal.
  rewrite IH. apply map_ext_in. intros i Hi. apply in_seq in Hi.
  replace (i - s)%nat with (S (i - S s)) by lia. reflexivity.
Qed.

Lemma Rsum_selected (G : nat -> nat -> R) (cols : list nat) :
  Rsum (map (fun ic => G (fst ic) (snd ic)) (combine (seq 0 (length cols)) cols)) =
  big_sum (length cols) (fun i => G i (nth i cols O)).
Proof.
  rewrite combine_seq_from, map_map. unfold big_sum. cbn [fst snd].
  f_equal. apply map_ext. intros i. now rewrite Nat.sub_0_r.
Qed.

Lemma one_hot_column (target : list Z) (n i k : nat) :
  in_range n target -> (i < length target)%nat ->
  (if Nat.eqb (nth i (map Z.to_nat target) O) k then 1 else 0) =
  one_hot (nth i target 0%Z) k.
Proof.
  intros Hrange Hi. unfold one_hot.
  change O with (Z.to_nat 0). rewrite map_nth.
  pose proof (Hrange _ (nth_In target 0%Z Hi)) as Ht.
  destruct (Nat.eqb_spec (Z.to_nat (nth i target 0%Z)) k),
           (Z.eqb_spec (nth i target 0%Z) (Z.of_nat k)); try reflexivity; lia.
Qed.

(** The sum that differentiation produces is the closed form. *)
Lemma closed_form_sum (target : list Z) (n k : nat) (a P : nat -> R) :
  in_range n target ->
  - (Rsum (map (fun ic => (if Nat.eqb (snd ic) k then a (fst ic) else 0)
                          - a (fst ic) * P (fst ic))
               (combine (seq 0 (length (map Z.to_nat target))) (map Z.to_nat target)))
     / INR (length (map Z.to_nat target))) =
  big_sum (length target)
    (fun i => a i * (P i - one_hot (nth i target 0%Z) k))
  / INR (length target).
Proof.
  intros Hrange.
  rewrite (Rsum_selected (fun i c => (if Nat.eqb c k then a i else 0) - a i * P i)).
  rewrite length_map.
  assert (E : big_sum (length target)
                (fun i => a i * (P i - one_hot (nth i target 0%Z) k)) =
              big_sum (length target)
                (fun i => (if Nat.eqb (nth i (map Z.to_nat target) O) k then a i else 0)
                          - a i * P i) * -1).
  { rewrite big_sum_scaled. apply big_sum_ext. intros i Hi.
    rewrite <- (one_hot_column target n i k Hrange Hi).
    destruct (Nat.eqb (nth i (map Z.to_nat target) O) k); lra. }
  rewrite E. unfold Rdiv. ring.
Qed.

Section Gradient.

Variable self : LinearClassifier.
Variable p : Params.
Variable xv : list (list R).
Variable target : list Z.

Hypothesis shape_ok : dot_shape_ok self xv = true.
Hypothesis same_length : length target = length xv.
Hypothesis labels_ok : in_range (num_categories self) target.

Lemma cost_expression_value (q : Params) :
  cost_expression self xv target q = nll_value self q xv (map Z.to_nat target).
Proof.
  unfold cost_expression. now rewrite negative_log_likelihood_ok.
Qed.

Lemma columns_bound (c : nat) :
  In c (map Z.to_nat target) -> (c < num_categories self)%nat.
Proof.
  intros Hc. apply in_map_iff in Hc as (t & <- & Ht).
  specialize (labels_ok t Ht). lia.
Qed.

(** The partial derivative of the cost in entry [(d, k)] of [W]. *)
Lemma cost_derivative_W (d k : nat) :
  (d < input_dimension self)%nat -> (k < num_categories self)%nat ->
  derivable_pt_lim (fun v => cost_expression self xv target (set_W p d k v))
    (W p d k) (closed_form_W_gradient self p xv target d k).
Proof.
  intros Hd Hk.
  apply (derivable_pt_lim_ext
           (fun v => nll_value self (set_W p d k v) xv (map Z.to_nat target)));
    [intros v; now rewrite cost_expression_value|].
  eapply derivable_value.
  - apply (nll_value_derivative self xv (map Z.to_nat target)
             (fun v => set_W p d k v) p (W p d k) k (fun i => entry xv i d) Hk
             columns_bound).
    + intros i c. now apply y_calculated_set_W.
    + intros i c. apply y_calculated_set_W_same.
  - unfold closed_form_W_gradient. rewrite <- same_length.
    apply (closed_form_sum target (num_categories self) k
             (fun i => entry xv i d) (fun i => y_prob self p xv i k) labels_ok).
Qed.

(** The partial derivative of the cost in entry [k] of [b]. *)
Lemma cost_derivative_b (k : nat) :
  (k < num_categories self)%nat ->
  derivable_pt_lim (fun v => cost_expression self xv target (set_b p k v))
    (b p k) (closed_form_b_gradient self p xv target k).
Proof.
  intros Hk.
  apply (derivable_pt_lim_ext
           (fun v => nll_value self (set_b p k v) xv (map Z.to_nat target)));
    [intros v; now rewrite cost_expression_value|].
  eapply derivable_value.
  - apply (nll_value_derivative self xv (map Z.to_nat target)
             (fun v => set_b p k v) p (b p k) k (fun _ => 1) Hk columns_bound).
    + intros i c. apply y_calculated_set_b.
    + intros i c. apply y_calculated_set_b_same.
  - unfold closed_form_b_gradient. rewrite <- same_length.
    rewrite (closed_form_sum target (num_categories self) k
               (fun _ => 1) (fun i => y_prob self p xv i k) labels_ok).
    f_equal. apply big_sum_ext. intros i _. lra.
Qed.

(** The closed form is what [T.grad] must return. *)
Lemma closed_form_is_gradient :
  is_gradient (cost_expression self xv target) p
    (input_dimension self) (num_categories self)
    (closed_form_W_gradient self p xv target)
    (closed_form_b_gradient self p xv target).
Proof.
  split; [intros d k; apply cost_derivative_W | intros k; apply cost_derivative_b].
Qed.

End Gradient.

(** ** The compiled training step *)

(** C1: on every batch [xv] of well-shaped rows with one in-range label
    per row, for every learning rate and every current [W] and [b], and
    for every gradient routine that returns the partial derivatives of the
    cost, the compiled [train] returns the cost of the batch and stores
    [W - lr * x^T (softmax(x.W + b) - one_hot(target)) / B] as the new
    [W] and [b - lr * column_mean(softmax(x.W + b) - one_hot(target))] as
    the new [b], entry by entry; no other cell of the store changes. *)
Theorem train_step_closed_form
    (T_grad_W : (Params -> R) -> Params -> nat -> nat -> R)
    (T_grad_b : (Params -> R) -> Params -> nat -> R)
    (self : LinearClassifier) (training : Dataset) (lr : R) (index : Z)
    (w : World) (xv : list (list R)) (yv : list Z) (p : Params) :
  xv = input_batch training index ->
  yv = output_batch training index ->
  p = store w (shared self) ->
  dot_shape_ok self xv = true ->
  length yv = length xv ->
  in_range (num_categories self) yv ->
  is_gradient (cost_expression self xv yv) p
    (input_dimension self) (num_categories self)
    (T_grad_W (cost_expression self xv yv) p)
    (T_grad_b (cost_expression self xv yv) p) ->
  exists c w',
    train T_grad_W T_grad_b self training lr index w = Ok (c, w') /\
    negative_log_likelihood self p xv yv = Ok c /\
    (forall d k, (d < input_dimension self)%nat -> (k < num_categories self)%nat ->
       W (store w' (shared self)) d k =
       W p d k - lr * closed_form_W_gradient self p xv yv d k) /\
    (forall k, (k < num_categories self)%nat ->
       b (store w' (shared self)) k =
       b p k - lr * closed_form_b_gradient self p xv yv k) /\
    (forall a, a <> shared self -> store w' a = store w a).
Proof.
  intros Hx Hy Hp Hshape Hlen Hrange [HgW Hgb].
  pose proof (negative_log_likelihood_ok self p xv yv Hshape Hlen Hrange) as Hnll.
  exists (nll_value self p xv (map Z.to_nat yv)).
  eexists. split; [|split; [exact Hnll|]].
  - unfold train, bind, emit. cbn [store trace].
    rewrite <- Hx, <- Hy, <- Hp, Hnll. reflexivity.
  - cbn [store]. unfold store_set.
    split; [|split].
    + intros d k Hd Hk. rewrite Nat.eqb_refl. unfold updates. cbn [W].
      do 2 f_equal.
      apply (uniqueness_limite
               (fun v => cost_expression self xv yv (set_W p d k v)) (W p d k));
        [now apply HgW | now apply cost_derivative_W].
    + intros k Hk. rewrite Nat.eqb_refl. unfold updates. cbn [b].
      do 2 f_equal.
      apply (uniqueness_limite
               (fun v => cost_expression self xv yv (set_b p k v)) (b p k));
        [now apply Hgb | now apply cost_derivative_b].
    + intros a Ha. destruct (Nat.eqb_spec a (shared self)); [contradiction | reflexivity].
Qed.

Lemma train_step_closed_form_witness :
  exists c w',
    train Samples.sample_grad_W Samples.sample_grad_b Samples.sample_classifier
      Samples.sample_dataset (13 / 100) 0 Samples.sample_world = Ok (c, w') /\
    negative_log_likelihood Samples.sample_classifier zeros
      Samples.sample_x Samples.sample_y = Ok c /\
    (forall d k, (d < 1)%nat -> (k < 2)%nat ->
       W (store w' 0%nat) d k =
       W zeros d k - 13 / 100 *
         closed_form_W_gradient Samples.sample_classifier zeros
           Samples.sample_x Samples.sample_y d k) /\
    (forall k, (k < 2)%nat ->
       b (store w' 0%nat) k =
       b zeros k - 13 / 100 *
         closed_form_b_gradient Samples.sample_classifier zeros
           Samples.sample_x Samples.sample_y k) /\
    (forall a, a <> 0%nat -> store w' a = store Samples.sample_world a).
Proof.
  apply (train_step_closed_form Samples.sample_grad_W Samples.sample_grad_b
           Samples.sample_classifier Samples.sample_dataset (13 / 100) 0
           Samples.sample_world Samples.sample_x Samples.sample_y zeros);
    [reflexivity | reflexivity | reflexivity | reflexivity | reflexivity
    | exact sample_labels_in_range |].
  apply closed_form_is_gradient;
    [reflexivity | reflexivity | exact sample_labels_in_range].
Defined.

End GradientFacts.

(* ===================================================================== *)
(** * The error-rate functions and the driver *)
(* ===================================================================== *)

Module DriverFacts.

Import Numpy Classifier LossFacts DatasetFacts.
Local Open Scope Z_scope.

(** ** Batches of a well-formed dataset *)

Lemma In_firstn {A : Type} (n : nat) (l : list A) (a : A) :
  In a (firstn n l) -> In a l.
Proof.
  revert l. induction n as [|n IH]; intros l H; [contradiction|].
  destruct l as [|v l]; [contradiction|].
  destruct H as [<-|H]; [now left | right; now apply IH].
Qed.

Lemma In_skipn {A : Type} (n : nat) (l : list A) (a : A) :
  In a (skipn n l) -> In a l.
Proof.
  revert l. induction n as [|n IH]; intros l H; [exact H|].
  destruct l as [|v l]; [exact H|]. right. now apply IH.
Qed.

Lemma slice_incl {A : Type} (l : list A) (lo hi : Z) (a : A) :
  In a (slice l lo hi) -> In a l.
Proof.
  unfold slice. intros H. now apply In_firstn, In_skipn in H.
Qed.

Lemma slice_length_eq {A B : Type} (l1 : list A) (l2 : list B) (lo hi : Z) :
  length l1 = length l2 ->
  length (slice l1 lo hi) = length (slice l2 lo hi).
Proof.
  intros H. unfold slice. now rewrite !length_firstn, !length_skipn, H.
Qed.

Lemma dot_shape_ok_slice (self : LinearClassifier) (l : list (list R)) (lo hi : Z) :
  dot_shape_ok self l = true -> dot_shape_ok self (slice l lo hi) = true.
Proof.
  unfold dot_shape_ok. rewrite !forallb_forall.
  intros H row Hrow. apply H. now apply slice_incl in Hrow.
Qed.

Lemma in_range_slice (n : nat) (l : list Z) (lo hi : Z) :
  in_range n l -> in_range n (slice l lo hi).
Proof. intros H t Ht. apply H. now apply slice_incl in Ht. Qed.

Lemma batch_error_rate_fits (g : LinearClassifier) (p : Params) (d : Dataset) (i : Z) :
  fits g d ->
  batch_error_rate g p (input_batch d i) (output_batch d i) =
  Ok (error_rate_value g p (input_batch d i) (output_batch d i)).
Proof.
  intros [Hshape Hlen]. unfold batch_error_rate, input_batch, output_batch.
  rewrite dot_shape_ok_slice by assumption.
  rewrite (slice_length_eq (output_set d) (input_set d)) by assumption.
  now rewrite Nat.eqb_refl.
Qed.

Lemma negative_log_likelihood_fits (self : LinearClassifier) (p : Params)
    (d : Dataset) (i : Z) :
  fits self d -> in_range (num_categories self) (output_set d) ->
  negative_log_likelihood self p (input_batch d i) (output_batch d i) =
  Ok (cost_expression self (input_batch d i) (output_batch d i) p).
Proof.
  intros [Hshape Hlen] Hrange.
  assert (E : negative_log_likelihood self p (input_batch d i) (output_batch d i) =
              Ok (nll_value self p (input_batch d i) (map Z.to_nat (output_batch d i)))).
  { apply negative_log_likelihood_ok.
    - now apply dot_shape_ok_slice.
    - now apply slice_length_eq.
    - now apply in_range_slice. }
  unfold cost_expression. now rewrite E.
Qed.

(** ** Loops *)

Lemma for_each_app {A : Type} (l1 l2 : list A) (body : A -> M unit) (w : World) :
  for_each (l1 ++ l2) body w =
  match for_each l1 body w with
  | Ok (_, w') => for_each l2 body w'
  | Raise e => Raise e
  end.
Proof.
  revert w. induction l1 as [|a l1 IH]; intros w; [reflexivity|].
  cbn [app for_each]. unfold bind.
  destruct (body a w) as [[[] w1]|e]; [apply IH | reflexivity].
Qed.

Lemma range_succ (n : nat) :
  range (Z.of_nat (S n)) = range (Z.of_nat n) ++ [Z.of_nat n].
Proof.
  unfold range. rewrite !Nat2Z.id, seq_S, map_app. reflexivity.
Qed.

Lemma range_to_nat (n : Z) : range (Z.of_nat (Z.to_nat n)) = range n.
Proof. unfold range. now rewrite Nat2Z.id. Qed.

Lemma reaches_refl (addr : nat) (w : World) : reaches addr w w (store w addr) [].
Proof. repeat split. now rewrite app_nil_r. Qed.

Lemma reaches_trans (addr : nat) (w w1 w2 : World) (p1 p2 : Params)
    (e1 e2 : list event) :
  reaches addr w w1 p1 e1 -> reaches addr w1 w2 p2 e2 ->
  reaches addr w w2 p2 (e1 ++ e2).
Proof.
  intros (_ & Hs1 & Ht1) (Hp2 & Hs2 & Ht2). split; [exact Hp2|]. split.
  - intros a Ha. rewrite Hs2, Hs1 by assumption. reflexivity.
  - now rewrite Ht2, Ht1, app_assoc.
Qed.

Lemma bind_run {A B : Type} (m : M A) (k : A -> M B) (w : World) :
  bind m k w = match m w with
               | Ok (a, w') => k a w'
               | Raise e => Raise e
               end.
Proof. reflexivity. Qed.

(** ** The error-rate functions *)

(** The function that [batch_error_rate_function] compiles when the
    global [classifier] is [g]. *)
Lemma batch_error_rate_function_global (self g : LinearClassifier) (d : Dataset) :
  x g = x self ->
  batch_error_rate_function self {| classifier := Some g |} d =
  Ok (fun index =>
        emit (Batch d index) ;;
        fun w => lift (batch_error_rate g (store w (shared g))
                         (input_batch d index) (output_batch d index)) w).
Proof.
  intros Hx. unfold batch_error_rate_function. cbn [classifier].
  now rewrite Hx, Nat.eqb_refl.
Qed.

Lemma map_M_batches (g : LinearClassifier) (d : Dataset) :
  fits g d ->
  forall (l : list Z) (w : World),
    map_M (fun index =>
             emit (Batch d index) ;;
             fun w => lift (batch_error_rate g (store w (shared g))
                              (input_batch d index) (output_batch d index)) w)
          l w =
    Ok (map (fun i => error_rate_value g (store w (shared g))
                        (input_batch d i) (output_batch d i)) l,
        {| store := store w; trace := trace w ++ map (Batch d) l |}).
Proof.
  intros Hfit. induction l as [|i l IH]; intros w.
  - cbn [map_M map]. unfold ret. rewrite app_nil_r. now destruct w.
  - cbn [map_M map]. unfold bind at 1 2. unfold emit at 1. unfold lift at 1.
    cbn [store trace]. rewrite batch_error_rate_fits by assumption.
    unfold bind. rewrite IH. cbn [store trace]. unfold ret.
    now rewrite <- app_assoc.
Qed.

Lemma error_rate_function_global (self g : LinearClassifier) (d : Dataset) :
  x g = x self -> fits g d ->
  exists m,
    error_rate_function self {| classifier := Some g |} d = Ok m /\
    forall w,
      m w = Ok (dataset_error g (store w (shared g)) d,
                {| store := store w;
                   trace := trace w ++ map (Batch d) (range (num_batches d)) |}).
Proof.
  intros Hx Hfit. unfold error_rate_function.
  rewrite batch_error_rate_function_global by assumption.
  eexists. split; [reflexivity|].
  intros w. rewrite bind_run, map_M_batches by assumption. reflexivity.
Qed.

(** ** The training loops *)

Section Run.

Variable T_grad_W : (Params -> R) -> Params -> nat -> nat -> R.
Variable T_grad_b : (Params -> R) -> Params -> nat -> R.
Variable self : LinearClassifier.
Variables training validation testing : Dataset.

Hypothesis training_fits : fits self training.
Hypothesis training_labels : in_range (num_categories self) (output_set training).

Let addr := shared self.
Let step := sgd_step T_grad_W T_grad_b self training.
Let in_epoch := params_in_epoch T_grad_W T_grad_b self training.
Let after := params_after T_grad_W T_grad_b self training.

(** What batch [i] shows in an epoch started with [p]. *)
Let batch_events (p : Params) (i : Z) : list event :=
  Batch training i ::
  (if i mod 20 =? 0
   then [Print_training_cost i
           (cost_expression self (input_batch training i)
              (output_batch training i) (in_epoch p i))]
   else []).

Lemma batch_body_ok (i : Z) (w : World) :
  exists w',
    batch_body T_grad_W T_grad_b self training i w = Ok (tt, w') /\
    reaches addr w w' (step (store w addr) i)
      (Batch training i ::
       (if i mod 20 =? 0
        then [Print_training_cost i
                (cost_expression self (input_batch training i)
                   (output_batch training i) (store w addr))]
        else [])).
Proof.
  unfold batch_body, train, bind, emit. cbn [store trace].
  rewrite negative_log_likelihood_fits by assumption.
  destruct (i mod 20 =? 0).
  - eexists. split; [reflexivity|]. unfold reaches, store_set. cbn [store trace].
    split; [now rewrite Nat.eqb_refl|]. split.
    + intros a Ha. destruct (Nat.eqb_spec a (shared self)); [contradiction | reflexivity].
    + now rewrite <- app_assoc.
  - eexists. split; [reflexivity|]. unfold reaches, store_set. cbn [store trace].
    split; [now rewrite Nat.eqb_refl|]. split.
    + intros a Ha. destruct (Nat.eqb_spec a (shared self)); [contradiction | reflexivity].
    + reflexivity.
Qed.

Lemma in_epoch_succ (p : Params) (n : nat) :
  in_epoch p (Z.of_nat (S n)) = step (in_epoch p (Z.of_nat n)) (Z.of_nat n).
Proof.
  unfold in_epoch, params_in_epoch. rewrite range_succ, fold_left_app. reflexivity.
Qed.

(** The inner loop over the first [n] batches. *)
Lemma epoch_ok (n : nat) (w : World) :
  exists w',
    for_each (range (Z.of_nat n)) (batch_body T_grad_W T_grad_b self training) w =
      Ok (tt, w') /\
    reaches addr w w' (in_epoch (store w addr) (Z.of_nat n))
      (concat (map (batch_events (store w addr)) (range (Z.of_nat n)))).
Proof.
  induction n as [|n IH].
  - exists w. split; [reflexivity | apply reaches_refl].
  - destruct IH as (w1 & Hrun & Hreach).
    destruct (batch_body_ok (Z.of_nat n) w1) as (w2 & Hbody & Hstep).
    exists w2. split.
    + rewrite range_succ, for_each_app, Hrun. cbn [for_each]. unfold bind.
      rewrite Hbody. reflexivity.
    + rewrite range_succ, map_app, concat_app, in_epoch_succ.
      cbn [map concat]. rewrite app_nil_r.
      destruct Hreach as (Hp1 & Hs1 & Ht1).
      rewrite Hp1 in Hstep.
      exact (reaches_trans addr w w1 w2 _ _ _ _ (conj Hp1 (conj Hs1 Ht1)) Hstep).
Qed.

Lemma after_succ (r : Z) :
  0 <= r -> after (r + 1) = in_epoch (after r) (num_batches training).
Proof.
  intros Hr. unfold after, params_after.
  replace (Z.to_nat (r + 1)) with (S (Z.to_nat r)) by lia. reflexivity.
Qed.

Lemma in_epoch_to_nat (p : Params) (n : Z) :
  in_epoch p (Z.of_nat (Z.to_nat n)) = in_epoch p n.
Proof. unfold in_epoch, params_in_epoch. now rewrite range_to_nat. Qed.

Variables validator tester : M R.

Hypothesis validator_ok : forall w,
  validator w =
  Ok (dataset_error self (store w addr) validation,
      {| store := store w;
         trace := trace w ++ map (Batch validation) (range (num_batches validation)) |}).

Hypothesis tester_ok : forall w,
  tester w =
  Ok (dataset_error self (store w addr) testing,
      {| store := store w;
         trace := trace w ++ map (Batch testing) (range (num_batches testing)) |}).

(** One run of the outer loop, from the parameters of [r] epochs. *)
Lemma run_body_ok (r : Z) (w : World) :
  0 <= r -> store w addr = after r ->
  exists w',
    run_body T_grad_W T_grad_b self training validator r w = Ok (tt, w') /\
    reaches addr w w' (after (r + 1))
      (run_events T_grad_W T_grad_b self training validation r).
Proof.
  intros Hr Hw. unfold run_body. rewrite bind_run. unfold emit at 1.
  set (w1 := {| store := store w; trace := trace w ++ [Print_training_pass r] |}).
  destruct (epoch_ok (Z.to_nat (num_batches training)) w1) as (w2 & Hrun & Hreach).
  rewrite range_to_nat, in_epoch_to_nat in Hreach.
  rewrite range_to_nat in Hrun.
  rewrite bind_run, Hrun.
  assert (Hw1 : store w1 addr = after r) by exact Hw.
  rewrite Hw1 in Hreach. destruct Hreach as (Hp2 & Hs2 & Ht2).
  rewrite <- after_succ in Hp2 by assumption.
  unfold run_events. fold after.
  change (epoch_events T_grad_W T_grad_b self training (after r))
    with (concat (map (batch_events (after r)) (range (num_batches training)))).
  destruct (r mod 10 =? 9).
  - rewrite bind_run, validator_ok. unfold emit. cbn [store trace].
    eexists. split; [reflexivity|]. unfold reaches. cbn [store trace].
    split; [exact Hp2|]. split; [exact Hs2|].
    rewrite Hp2, Ht2. unfold w1. cbn [trace].
    rewrite <- !app_assoc. reflexivity.
  - exists w2. split; [reflexivity|]. unfold reaches.
    split; [exact Hp2|]. split; [exact Hs2|].
    rewrite Ht2. unfold w1. cbn [trace].
    rewrite app_nil_r, <- !app_assoc. reflexivity.
Qed.

(** The outer loop over the first [n] runs. *)
Lemma runs_ok (n : nat) (w : World) :
  store w addr = zeros ->
  exists w',
    for_each (range (Z.of_nat n))
      (run_body T_grad_W T_grad_b self training validator) w = Ok (tt, w') /\
    reaches addr w w' (after (Z.of_nat n))
      (concat (map (run_events T_grad_W T_grad_b self training validation)
                 (range (Z.of_nat n)))).
Proof.
  intros Hw. induction n as [|n IH].
  - exists w. split; [reflexivity|].
    change (after (Z.of_nat 0)) with zeros.
    rewrite <- Hw. apply reaches_refl.
  - destruct IH as (w1 & Hrun & Hreach).
    destruct (run_body_ok (Z.of_nat n) w1 ltac:(lia) (proj1 Hreach))
      as (w2 & Hbody & Hstep).
    exists w2. split.
    + rewrite range_succ, for_each_app, Hrun. cbn [for_each].
      rewrite bind_run, Hbody. reflexivity.
    + rewrite range_succ, map_app, concat_app. cbn [map concat].
      rewrite app_nil_r.
      replace (Z.of_nat (S n)) with (Z.of_nat n + 1) by lia.
      exact (reaches_trans addr w w1 w2 _ _ _ _ Hreach Hstep).
Qed.

Lemma training_loop_ok (w : World) :
  store w addr = zeros ->
  exists w',
    training_loop T_grad_W T_grad_b self training validator tester w = Ok (tt, w') /\
    reaches addr w w' (after runs)
      (expected_trace T_grad_W T_grad_b self training validation testing).
Proof.
  intros Hw. unfold training_loop.
  destruct (runs_ok (Z.to_nat runs) w Hw) as (w1 & Hrun & Hp1 & Hs1 & Ht1).
  rewrite range_to_nat in Hrun, Ht1.
  replace (Z.of_nat (Z.to_nat runs)) with runs in Hp1 by reflexivity.
  rewrite bind_run, Hrun, bind_run, tester_ok. unfold emit. cbn [store trace].
  eexists. split; [reflexivity|]. unfold reaches. cbn [store trace].
  split; [exact Hp1|]. split; [exact Hs1|].
  unfold expected_trace. fold after. rewrite Hp1, Ht1, <- !app_assoc. reflexivity.
Qed.

(** ** What the expected trace contains *)

Lemma batch_indices_epoch (p : Params) :
  batch_indices (epoch_events T_grad_W T_grad_b self training p) =
  range (num_batches training).
Proof.
  unfold epoch_events. induction (range (num_batches training)) as [|i l IH];
    [reflexivity|].
  cbn [map concat]. destruct (i mod 20 =? 0); cbn [app batch_indices]; now rewrite IH.
Qed.

Lemma In_epoch_events (p : Params) (e : event) :
  In e (epoch_events T_grad_W T_grad_b self training p) ->
  exists i, 0 <= i < num_batches training /\
            (e = Batch training i \/ exists c, e = Print_training_cost i c).
Proof.
  unfold epoch_events. intros H.
  apply in_concat in H as (l & Hl & He).
  apply in_map_iff in Hl as (i & <- & Hi). apply range_spec in Hi.
  exists i. split; [exact Hi|].
  destruct He as [<-|He]; [now left|].
  destruct (i mod 20 =? 0); [|contradiction].
  destruct He as [<-|[]]. right. eexists. reflexivity.
Qed.

Lemma In_run_events (r : Z) (e : event) :
  In e (run_events T_grad_W T_grad_b self training validation r) ->
  e = Print_training_pass r \/
  (exists i, 0 <= i < num_batches training /\
             (e = Batch training i \/ exists c, e = Print_training_cost i c)) \/
  (r mod 10 = 9 /\
   ((exists i, 0 <= i < num_batches validation /\ e = Batch validation i) \/
    e = Print_validation (dataset_error self (after (r + 1)) validation))).
Proof.
  unfold run_events. intros [<-|H]; [now left|]. right.
  apply in_app_or in H as [H|H]; [left; now apply In_epoch_events in H|].
  right. destruct (Z.eqb_spec (r mod 10) 9) as [E|]; [|contradiction].
  split; [exact E|].
  apply in_app_or in H as [H|[<-|[]]]; [left | now right].
  apply in_map_iff in H as (i & <- & Hi). apply range_spec in Hi. now exists i.
Qed.

(** Validation is reported on the runs [r] with [r mod 10 = 9], and only
    on those, as the mean over the validation batches for the parameters
    that the run has reached. *)
Lemma validation_reports (r : Z) :
  (r mod 10 = 9 ->
   In (Print_validation (dataset_error self (after (r + 1)) validation))
      (run_events T_grad_W T_grad_b self training validation r)) /\
  (r mod 10 <> 9 ->
   forall v, ~ In (Print_validation v)
               (run_events T_grad_W T_grad_b self training validation r)).
Proof.
  split.
  - intros E. unfold run_events. right. apply in_or_app. right.
    apply Z.eqb_eq in E. rewrite E. apply in_or_app. right. now left.
  - intros E v H. apply In_run_events in H as [H|[(i & _ & [H|[c H]])|(E' & _)]];
      try discriminate; contradiction.
Qed.

(** Every batch evaluated is a batch of its dataset. *)
Lemma expected_trace_batches (d : Dataset) (i : Z) :
  In (Batch d i) (expected_trace T_grad_W T_grad_b self training validation testing) ->
  (d = training \/ d = validation \/ d = testing) /\ 0 <= i < num_batches d.
Proof.
  unfold expected_trace. intros H.
  apply in_app_or in H as [H|H].
  - apply in_concat in H as (l & Hl & He).
    apply in_map_iff in Hl as (r & <- & _).
    apply In_run_events in He
      as [He|[(j & Hj & [He|[c He]])|(_ & [(j & Hj & He)|He])]];
      try discriminate; injection He as -> ->; auto.
  - apply in_app_or in H as [H|[H|[]]]; [|discriminate].
    apply in_map_iff in H as (j & He & Hj). apply range_spec in Hj.
    injection He as <- <-. auto.
Qed.

End Run.

Lemma dot_shape_ok_Forall (self : LinearClassifier) (l : list (list R)) :
  Forall (fun row => length row = input_dimension self) l ->
  dot_shape_ok self l = true.
Proof.
  intros H. unfold dot_shape_ok. apply forallb_forall. intros row Hrow.
  apply Nat.eqb_eq. revert row Hrow. now apply Forall_forall.
Qed.

(** ** The claims *)

(** C10: [batch_error_rate_function] builds its output from the global
    name [classifier], not from [self].  With no global [classifier] it
    raises a name error, and so does [error_rate_function].  With a global
    classifier [g] (built on the same symbolic input), the compiled
    function returns the error rate that [g], with the parameters of [g],
    has on the batch, and [error_rate_function] the mean of those over the
    batches: nothing of [self] but its symbolic input is read. *)
Theorem error_rate_reads_global (self g : LinearClassifier) (dataset : Dataset) :
  x g = x self ->
  fits g dataset ->
  batch_error_rate_function self {| classifier := None |} dataset = Raise NameError /\
  error_rate_function self {| classifier := None |} dataset = Raise NameError /\
  (exists f,
      batch_error_rate_function self {| classifier := Some g |} dataset = Ok f /\
      forall index w,
        f index w =
        Ok (error_rate_value g (store w (shared g))
              (input_batch dataset index) (output_batch dataset index),
            {| store := store w; trace := trace w ++ [Batch dataset index] |}) /\
        batch_error_rate g (store w (shared g))
          (input_batch dataset index) (output_batch dataset index) =
        Ok (error_rate_value g (store w (shared g))
              (input_batch dataset index) (output_batch dataset index))) /\
  (exists m,
      error_rate_function self {| classifier := Some g |} dataset = Ok m /\
      forall w,
        m w = Ok (dataset_error g (store w (shared g)) dataset,
                  {| store := store w;
                     trace := trace w ++
                              map (Batch dataset) (range (num_batches dataset)) |})).
Proof.
  intros Hx Hfit. split; [reflexivity|]. split; [reflexivity|]. split.
  - eexists. split; [now apply batch_error_rate_function_global|].
    intros index w. split; [|now apply batch_error_rate_fits].
    rewrite bind_run. unfold emit, lift. cbn [store trace].
    now rewrite batch_error_rate_fits.
  - now apply error_rate_function_global.
Qed.

(** C7: on well-formed data the driver runs to its end without raising.
    It performs [runs = 100] epochs; in each it evaluates the training
    batches [0, 1, ..., num_batches - 1] in that order, one
    gradient-descent step per batch, so that the parameters after the run
    are those of 100 epochs of ordered steps from zeros.  On the runs [r]
    with [r mod 10 = 9], and only on those, it reports the mean of the
    per-batch error rates over all validation batches; it ends by
    reporting the test error, averaged the same way.  Every batch index
    it evaluates is in [[0, num_batches)] of its dataset. *)
Theorem driver_run
    (T_grad_W : (Params -> R) -> Params -> nat -> nat -> R)
    (T_grad_b : (Params -> R) -> Params -> nat -> R)
    (data : Mnist) (addr x0 : nat) (w0 : World) :
  well_formed data ->
  exists training validation testing self w',
    Dataset_init (train_input data) (train_output data) 500 = Ok training /\
    Dataset_init (valid_input data) (valid_output data) 500 = Ok validation /\
    Dataset_init (test_input data) (test_output data) 500 = Ok testing /\
    self = {| x := x0; input_dimension := 28 * 28; num_categories := 10;
              shared := addr |} /\
    main T_grad_W T_grad_b data addr x0 w0 = Ok (tt, w') /\
    runs = 100 /\
    reaches addr w0 w' (params_after T_grad_W T_grad_b self training runs)
      (expected_trace T_grad_W T_grad_b self training validation testing) /\
    (forall p, batch_indices (epoch_events T_grad_W T_grad_b self training p) =
               range (num_batches training)) /\
    (forall r, 0 <= r < runs ->
       (r mod 10 = 9 ->
        In (Print_validation
              (dataset_error self
                 (params_after T_grad_W T_grad_b self training (r + 1)) validation))
           (run_events T_grad_W T_grad_b self training validation r)) /\
       (r mod 10 <> 9 ->
        forall v, ~ In (Print_validation v)
                    (run_events T_grad_W T_grad_b self training validation r))) /\
    (forall d i,
       In (Batch d i)
          (expected_trace T_grad_W T_grad_b self training validation testing) ->
       (d = training \/ d = validation \/ d = testing) /\
       0 <= i < num_batches d).
Proof.
  intros (Htr & Hva & Hte & Ltr & Lva & Lte & Hlabels).
  set (self := {| x := x0; input_dimension := 28 * 28; num_categories := 10;
                  shared := addr |}).
  set (training := {| input_set := train_input data; output_set := train_output data;
                      batch_size := 500;
                      num_batches := Z.of_nat (length (train_input data)) / 500 |}).
  set (validation := {| input_set := valid_input data; output_set := valid_output data;
                        batch_size := 500;
                        num_batches := Z.of_nat (length (valid_input data)) / 500 |}).
  set (testing := {| input_set := test_input data; output_set := test_output data;
                     batch_size := 500;
                     num_batches := Z.of_nat (length (test_input data)) / 500 |}).
  assert (Ftr : fits self training)
    by (split; [now apply dot_shape_ok_Forall | exact Ltr]).
  assert (Fva : fits self validation)
    by (split; [now apply dot_shape_ok_Forall | exact Lva]).
  assert (Fte : fits self testing)
    by (split; [now apply dot_shape_ok_Forall | exact Lte]).
  destruct (error_rate_function_global self self validation eq_refl Fva)
    as (validator & Hvalidator & Hv).
  destruct (error_rate_function_global self self testing eq_refl Fte)
    as (tester & Htester & Ht).
  set (w1 := {| store := store_set (store w0) addr zeros; trace := trace w0 |}).
  assert (Hw1 : store w1 (shared self) = zeros).
  { unfold w1, store_set. cbn [store shared self]. now rewrite Nat.eqb_refl. }
  destruct (training_loop_ok T_grad_W T_grad_b self training validation testing
              Ftr Hlabels validator tester Hv Ht w1 Hw1)
    as (w' & Hloop & Hp & Hs & Htrace).
  exists training, validation, testing, self, w'.
  split; [reflexivity|]. split; [reflexivity|]. split; [reflexivity|].
  split; [reflexivity|]. split; [|split; [reflexivity|split; [|split; [|split]]]].
  - unfold main, batch_size_main.
    rewrite bind_run. unfold lift at 1. rewrite Dataset_init_ok by lia.
    rewrite bind_run. unfold lift at 1. rewrite Dataset_init_ok by lia.
    rewrite bind_run. unfold lift at 1. rewrite Dataset_init_ok by lia.
    rewrite bind_run. cbn [LinearClassifier_init].
    fold self training validation testing w1.
    rewrite bind_run. unfold lift at 1. rewrite Hvalidator.
    rewrite bind_run. unfold lift at 1. rewrite Htester.
    exact Hloop.
  - split; [exact Hp|]. split; [|exact Htrace].
    intros a Ha. rewrite Hs by exact Ha.
    unfold w1, store_set. cbn [store].
    destruct (Nat.eqb_spec a addr); [contradiction | reflexivity].
  - intros p. apply batch_indices_epoch.
  - intros r _. apply validation_reports.
  - intros d i. apply expected_trace_batches.
Qed.

Lemma error_rate_reads_global_witness :
  batch_error_rate_function Samples.other_classifier {| classifier := None |}
    Samples.sample_dataset = Raise NameError /\
  error_rate_function Samples.other_classifier {| classifier := None |}
    Samples.sample_dataset = Raise NameError /\
  (exists f,
      batch_error_rate_function Samples.other_classifier
        {| classifier := Some Samples.sample_classifier |} Samples.sample_dataset = Ok f /\
      forall index w,
        f index w =
        Ok (error_rate_value Samples.sample_classifier (store w 0%nat)
              (input_batch Samples.sample_dataset index)
              (output_batch Samples.sample_dataset index),
            {| store := store w;
               trace := trace w ++ [Batch Samples.sample_dataset index] |}) /\
        batch_error_rate Samples.sample_classifier (store w 0%nat)
          (input_batch Samples.sample_dataset index)
          (output_batch Samples.sample_dataset index) =
        Ok (error_rate_value Samples.sample_classifier (store w 0%nat)
              (input_batch Samples.sample_dataset index)
              (output_batch Samples.sample_dataset index))) /\
  (exists m,
      error_rate_function Samples.other_classifier
        {| classifier := Some Samples.sample_classifier |} Samples.sample_dataset = Ok m /\
      forall w,
        m w = Ok (dataset_error Samples.sample_classifier (store w 0%nat)
                    Samples.sample_dataset,
                  {| store := store w;
                     trace := trace w ++
                              map (Batch Samples.sample_dataset)
                                (range (num_batches Samples.sample_dataset)) |})).
Proof.
  apply (error_rate_reads_global Samples.other_classifier Samples.sample_classifier
           Samples.sample_dataset);
    [reflexivity | split; reflexivity].
Defined.

(** ** An instance where the global classifier and [self] disagree *)

Lemma softmax_lt (n : nat) (z : nat -> R) (c c' : nat) :
  (0 < n)%nat -> (z c < z c')%R -> (softmax n z c < softmax n z c')%R.
Proof.
  intros Hn Hlt. unfold softmax, Rdiv.
  apply Rmult_lt_compat_r.
  - apply Rinv_0_lt_compat. now apply softmax_denominator_pos.
  - now apply exp_increasing.
Qed.

Lemma softmax_not_lt (n : nat) (z : nat -> R) (c c' : nat) :
  (0 < n)%nat -> (z c' <= z c)%R -> ~ (softmax n z c < softmax n z c')%R.
Proof.
  intros Hn [Hlt|Heq] H.
  - pose proof (softmax_lt n z c' c Hn Hlt). lra.
  - unfold softmax in H. rewrite Heq in H. lra.
Qed.

(** With two categories the prediction is 1 when score 1 is the larger,
    and 0 otherwise. *)
Lemma predictions_binary (self : LinearClassifier) (p : Params)
    (xv : list (list R)) (i : nat) :
  num_categories self = 2%nat ->
  predictions self p xv i =
  if Rlt_dec (y_calculated self p xv i 0) (y_calculated self p xv i 1)
  then 1%nat else 0%nat.
Proof.
  intros HC. unfold predictions, y_prob. rewrite HC. cbn [argmax].
  set (z := y_calculated self p xv i).
  destruct (Rlt_dec (softmax 2 z 0) (softmax 2 z 0)) as [Habs|_]; [lra|].
  destruct (Rlt_dec (softmax 2 z 0) (softmax 2 z 1)) as [H|H];
    destruct (Rlt_dec (z 0%nat) (z 1%nat)) as [H'|H']; try reflexivity.
  - exfalso. apply (softmax_not_lt 2 z 0 1); [lia | lra | exact H].
  - exfalso. apply H. apply softmax_lt; [lia | exact H'].
Qed.

(** Called on [other_classifier], whose own parameters make no error on
    the first batch, the compiled function returns the error rate of the
    global classifier, which is one half. *)
Lemma error_rate_of_global_not_own :
  exists f w',
    batch_error_rate_function Samples.other_classifier
      {| classifier := Some Samples.sample_classifier |} Samples.sample_dataset = Ok f /\
    f 0 Samples.two_cell_world = Ok ((1 / 2)%R, w') /\
    batch_error_rate Samples.other_classifier
      (store Samples.two_cell_world (shared Samples.other_classifier))
      (input_batch Samples.sample_dataset 0)
      (output_batch Samples.sample_dataset 0) = Ok 0%R.
Proof.
  eexists. eexists. split; [reflexivity|]. split.
  - rewrite bind_run. unfold emit, lift. cbn [store trace].
    rewrite batch_error_rate_fits by (split; reflexivity).
    f_equal. f_equal.
    change (input_batch Samples.sample_dataset 0) with Samples.sample_x.
    change (output_batch Samples.sample_dataset 0) with Samples.sample_y.
    unfold error_rate_value, Samples.sample_y, mean.
    cbn [length seq combine map fst snd Rsum fold_right].
    rewrite !predictions_binary by reflexivity.
    rewrite !y_calculated_zero by reflexivity.
    destruct (Rlt_dec 0 0) as [H|_]; [lra|].
    unfold neq. cbn [Z.of_nat Z.eqb INR]. simpl. lra.
  - change (input_batch Samples.sample_dataset 0) with Samples.sample_x.
    change (output_batch Samples.sample_dataset 0) with Samples.sample_y.
    unfold batch_error_rate. cbn [negb dot_shape_ok].
    change (dot_shape_ok Samples.other_classifier Samples.sample_x) with true.
    cbn [negb]. change (length Samples.sample_y =? length Samples.sample_x)%nat with true.
    cbn [negb]. f_equal.
    unfold error_rate_value, Samples.sample_y, mean.
    cbn [length seq combine map fst snd Rsum fold_right].
    rewrite !predictions_binary by reflexivity.
    unfold y_calculated, big_sum, entry, Samples.sample_x.
    cbn [Samples.two_cell_world store Samples.other_classifier shared input_dimension
         Nat.eqb Samples.tuned_params W b seq map Rsum fold_right nth].
    destruct (Rlt_dec _ _) as [H|_]; [lra|].
    destruct (Rlt_dec _ _) as [_|H]; [|exfalso; apply H; lra].
    unfold neq. cbn [Z.of_nat Z.eqb INR]. simpl. lra.
Qed.

Lemma sample_mnist_well_formed : well_formed Samples.sample_mnist.
Proof.
  unfold well_formed, Samples.sample_mnist.
  cbn [train_input train_output valid_input valid_output test_input test_output].
  assert (Hrows : Forall (fun row : list R => length row = (28 * 28)%nat)
                    (repeat (repeat 0%R (28 * 28)) 500)).
  { apply Forall_forall. intros row Hrow. apply repeat_spec in Hrow.
    subst row. apply repeat_length. }
  split; [exact Hrows|]. split; [exact Hrows|]. split; [exact Hrows|].
  rewrite !repeat_length.
  split; [reflexivity|]. split; [reflexivity|]. split; [reflexivity|].
  intros t Ht. apply repeat_spec in Ht. subst t. lia.
Qed.

Lemma driver_run_witness :
  exists training validation testing self w',
    Dataset_init (train_input Samples.sample_mnist)
      (train_output Samples.sample_mnist) 500 = Ok training /\
    Dataset_init (valid_input Samples.sample_mnist)
      (valid_output Samples.sample_mnist) 500 = Ok validation /\
    Dataset_init (test_input Samples.sample_mnist)
      (test_output Samples.sample_mnist) 500 = Ok testing /\
    self = {| x := 0; input_dimension := 28 * 28; num_categories := 10;
              shared := 0 |} /\
    main Samples.sample_grad_W Samples.sample_grad_b Samples.sample_mnist 0 0
      Samples.sample_world = Ok (tt, w') /\
    runs = 100 /\
    reaches 0 Samples.sample_world w'
      (params_after Samples.sample_grad_W Samples.sample_grad_b self training runs)
      (expected_trace Samples.sample_grad_W Samples.sample_grad_b self training
         validation testing) /\
    (forall p,
       batch_indices
         (epoch_events Samples.sample_grad_W Samples.sample_grad_b self training p) =
       range (num_batches training)) /\
    (forall r, 0 <= r < runs ->
       (r mod 10 = 9 ->
        In (Print_validation
              (dataset_error self
                 (params_after Samples.sample_grad_W Samples.sample_grad_b self
                    training (r + 1)) validation))
           (run_events Samples.sample_grad_W Samples.sample_grad_b self training
              validation r)) /\
       (r mod 10 <> 9 ->
        forall v, ~ In (Print_validation v)
                    (run_events Samples.sample_grad_W Samples.sample_grad_b self
                       training validation r))) /\
    (forall d i,
       In (Batch d i)
          (expected_trace Samples.sample_grad_W Samples.sample_grad_b self training
             validation testing) ->
       (d = training \/ d = validation \/ d = testing) /\
       0 <= i < num_batches d).
Proof.
  apply (driver_run Samples.sample_grad_W Samples.sample_grad_b Samples.sample_mnist
           0 0 Samples.sample_world).
  exact sample_mnist_well_formed.
Defined.

End DriverFacts.

(* ===================================================================== *)
(** * Further properties of the example generator *)
(* ===================================================================== *)

Module PaddingFacts.

Import Natural NaturalFacts.
Local Open Scope string_scope.

(** For every string, the padding functions return (the loop ends) the
    string followed by spaces only, as many as it takes to pass the
    limit: the result has [max(len(s), LEN + 1)] characters. *)
Theorem pad_result (s : string) :
  source_pad s = Some (s ++ spaces (S SOURCE_LEN - String.length s)) /\
  target_pad s = Some (s ++ spaces (S TARGET_LEN - String.length s)) /\
  String.length (s ++ spaces (S SOURCE_LEN - String.length s)) =
    Nat.max (String.length s) (SOURCE_LEN + 1) /\
  String.length (s ++ spaces (S TARGET_LEN - String.length s)) =
    Nat.max (String.length s) (TARGET_LEN + 1).
Proof.
  split; [apply source_pad_spec|]. split; [apply target_pad_spec|].
  rewrite !length_append, !length_spaces. lia.
Qed.

Lemma append_empty (s : string) : s ++ "" = s.
Proof. induction s as [|c s IH]; simpl; [reflexivity | now rewrite IH]. Qed.

Lemma pad_long (limit : nat) (t : string) :
  limit < String.length t -> t ++ spaces (S limit - String.length t) = t.
Proof.
  intros Ht. replace (S limit - String.length t) with 0 by lia.
  apply append_empty.
Qed.

Lemma pad_while_idempotent (limit : nat) (s : string) :
  exists r,
    pad_while (pad_fuel limit) limit s = Some r /\
    pad_while (pad_fuel limit) limit r = Some r /\
    limit < String.length r.
Proof.
  exists (s ++ spaces (S limit - String.length s)).
  assert (Hlen : limit < String.length (s ++ spaces (S limit - String.length s)))
    by (rewrite length_append, length_spaces; lia).
  split; [apply pad_while_spec; unfold pad_fuel; lia|].
  split; [|exact Hlen].
  rewrite pad_while_spec by (unfold pad_fuel; lia).
  now rewrite pad_long.
Qed.

(** Padding a padded string changes nothing: the padded string is longer
    than the limit, and such a string comes back as it is. *)
Theorem pad_idempotent (s : string) :
  (exists r, source_pad s = Some r /\ source_pad r = Some r /\
             SOURCE_LEN < String.length r) /\
  (exists r, target_pad s = Some r /\ target_pad r = Some r /\
             TARGET_LEN < String.length r).
Proof.
  split; apply pad_while_idempotent.
Qed.

(** For every draw in [1, 127] both alphabet assertions of [generate]
    hold on the padded strings. *)
Theorem padded_alphabets (a b : Z) :
  number_range a -> number_range b ->
  exists source target,
    source_pad (source_text a b) = Some source /\
    target_pad (target_text a b) = Some target /\
    all_in SOURCE_VOCAB source = true /\
    all_in TARGET_VOCAB target = true.
Proof.
  unfold number_range, MIN_NUMBER. intros Ha Hb.
  eexists. eexists.
  split; [apply source_pad_spec|]. split; [apply target_pad_spec|].
  rewrite !all_in_append.
  rewrite source_text_vocab, target_text_vocab by lia.
  rewrite !all_in_spaces by reflexivity. split; reflexivity.
Qed.

Lemma padded_alphabets_witness :
  exists source target,
    source_pad (source_text 6 7) = Some source /\
    target_pad (target_text 6 7) = Some target /\
    all_in SOURCE_VOCAB source = true /\
    all_in TARGET_VOCAB target = true.
Proof.
  apply (padded_alphabets 6 7); unfold number_range, MIN_NUMBER, MAX_NUMBER; lia.
Defined.

(** The binary rendering of a positive number has as many digits as the
    number has bits. *)
Lemma size_nat_log2 (p : positive) :
  Pos.size_nat p = S (Z.to_nat (Z.log2 (Zpos p))).
Proof.
  assert (Hsize : forall q, Z.to_nat (Zpos (Pos.size q)) = Pos.size_nat q).
  { induction q as [q IH|q IH|]; simpl; try reflexivity;
      rewrite <- IH; lia. }
  destruct p as [q|q|]; simpl; try reflexivity; now rewrite <- Hsize.
Qed.

Theorem format_b_length (n : Z) :
  (0 < n)%Z ->
  String.length (format_b n) = S (Z.to_nat (Z.log2 n)).
Proof.
  intros Hn. destruct n as [|p|p]; try lia.
  simpl format_b. rewrite length_bin_pos. apply size_nat_log2.
Qed.

Lemma format_b_length_witness :
  String.length (format_b 127) = S (Z.to_nat (Z.log2 127)).
Proof. apply (format_b_length 127). lia. Defined.

(** Before padding, the source of a draw has between 3 and [SOURCE_LEN]
    characters and the target between 1 and [TARGET_LEN]; the draw
    [(127, 127)] reaches both upper bounds. *)
Theorem unpadded_lengths (a b : Z) :
  number_range a -> number_range b ->
  3 <= String.length (source_text a b) <= SOURCE_LEN /\
  1 <= String.length (target_text a b) <= TARGET_LEN /\
  String.length (source_text MAX_NUMBER MAX_NUMBER) = SOURCE_LEN /\
  String.length (target_text MAX_NUMBER MAX_NUMBER) = TARGET_LEN.
Proof.
  intros Ha Hb.
  pose proof (source_text_length a b Ha) as Hs.
  pose proof (target_text_length a b Ha Hb) as Ht.
  unfold number_range, MIN_NUMBER in *.
  split; [|split; [|split; reflexivity]].
  - split; [|exact Hs]. unfold source_text.
    rewrite !length_append, format_b_length by lia. simpl. lia.
  - split; [|exact Ht]. unfold target_text.
    rewrite format_b_length by nia. lia.
Qed.

Lemma unpadded_lengths_witness :
  3 <= String.length (source_text 1 1) <= SOURCE_LEN /\
  1 <= String.length (target_text 1 1) <= TARGET_LEN /\
  String.length (source_text MAX_NUMBER MAX_NUMBER) = SOURCE_LEN /\
  String.length (target_text MAX_NUMBER MAX_NUMBER) = TARGET_LEN.
Proof.
  apply (unpadded_lengths 1 1); unfold number_range, MIN_NUMBER, MAX_NUMBER; lia.
Defined.

(** The target string of a draw determines the product: two draws with
    the same target string have the same product. *)
Theorem target_determines_product (a b a' b' : Z) :
  number_range a -> number_range b -> number_range a' -> number_range b' ->
  target_text a b = target_text a' b' -> (a * b = a' * b')%Z.
Proof.
  unfold number_range, MIN_NUMBER. intros Ha Hb Ha' Hb' E.
  assert (H : parse_binary (target_text a b) = parse_binary (target_text a' b'))
    by now rewrite E.
  unfold target_text in H. rewrite !parse_format_b in H by nia.
  now injection H.
Qed.

Lemma target_determines_product_witness : (2 * 6 = 3 * 4)%Z.
Proof.
  apply (target_determines_product 2 6 3 4);
    try (unfold number_range, MIN_NUMBER, MAX_NUMBER; lia).
  reflexivity.
Defined.

End PaddingFacts.

(* ===================================================================== *)
(** * Further properties of the batch partitioner *)
(* ===================================================================== *)

Module BatchFacts.

Import Numpy Classifier DatasetFacts.
Local Open Scope Z_scope.

(** A slice is a block of consecutive elements of the list, whatever the
    bounds: it starts at the clipped lower bound. *)
Lemma slice_block {A : Type} (l : list A) (lo hi : Z) :
  exists pre post,
    l = pre ++ slice l lo hi ++ post /\
    length pre = Nat.min (Z.to_nat (slice_bound (Z.of_nat (length l)) lo)) (length l).
Proof.
  unfold slice.
  set (start := Z.to_nat (slice_bound (Z.of_nat (length l)) lo)).
  set (m := Z.to_nat (slice_bound (Z.of_nat (length l)) hi -
                      slice_bound (Z.of_nat (length l)) lo)).
  exists (firstn start l), (skipn m (skipn start l)).
  split.
  - now rewrite firstn_skipn, firstn_skipn.
  - apply length_firstn.
Qed.

(** For every index, checked or not, and every batch size, the input
    batch and the output batch of a dataset with one label per row are
    blocks of consecutive rows that start at the same position and have
    the same length: rows and labels stay paired. *)
Theorem batches_aligned (d : Dataset) (i : Z) :
  length (output_set d) = length (input_set d) ->
  exists pre post pre' post',
    input_set d = pre ++ input_batch d i ++ post /\
    output_set d = pre' ++ output_batch d i ++ post' /\
    length pre = length pre' /\
    length (input_batch d i) = length (output_batch d i).
Proof.
  intros Hlen. unfold input_batch, output_batch.
  destruct (slice_block (input_set d) (i * batch_size d) ((i + 1) * batch_size d))
    as (pre & post & E & Hpre).
  destruct (slice_block (output_set d) (i * batch_size d) ((i + 1) * batch_size d))
    as (pre' & post' & E' & Hpre').
  exists pre, post, pre', post'.
  split; [exact E|]. split; [exact E'|]. split.
  - rewrite Hpre, Hpre', Hlen. reflexivity.
  - unfold slice. now rewrite !length_firstn, !length_skipn, Hlen.
Qed.

Lemma batches_aligned_witness :
  exists pre post pre' post',
    input_set Samples.sample_dataset =
      pre ++ input_batch Samples.sample_dataset (-1) ++ post /\
    output_set Samples.sample_dataset =
      pre' ++ output_batch Samples.sample_dataset (-1) ++ post' /\
    length pre = length pre' /\
    length (input_batch Samples.sample_dataset (-1)) =
    length (output_batch Samples.sample_dataset (-1)).
Proof.
  apply (batches_aligned Samples.sample_dataset (-1)). reflexivity.
Defined.

(** Row [j] of the dataset, for [j] below [B * num_batches], is row
    [j mod B] of batch [j div B], which is a batch the loops visit; the
    same holds for its label.  The rows from [B * num_batches] on, of
    which there are [N mod B], belong to no visited batch. *)
Theorem row_lookup (inp : list (list R)) (out : list Z) (B : Z) (d : Dataset) (j : Z) :
  Dataset_init inp out B = Ok d ->
  0 < B ->
  0 <= j < B * num_batches d ->
  0 <= j / B < num_batches d /\
  nth_error (input_batch d (j / B)) (Z.to_nat (j mod B)) = nth_error inp (Z.to_nat j) /\
  nth_error (output_batch d (j / B)) (Z.to_nat (j mod B)) = nth_error out (Z.to_nat j) /\
  Z.of_nat (length inp) - B * num_batches d = Z.of_nat (length inp) mod B /\
  (forall i k, 0 <= i < num_batches d -> 0 <= k < B -> i * B + k < B * num_batches d).
Proof.
  intros Hinit HB Hj.
  apply Dataset_init_inv in Hinit as (_ & Hi & Ho & Hb & Hn).
  pose proof (Z.div_mod j B ltac:(lia)) as Hdm.
  pose proof (Z.mod_pos_bound j B HB) as Hmod.
  assert (Hq : 0 <= j / B < num_batches d).
  { split; [apply Z.div_pos; lia|].
    apply Z.div_lt_upper_bound; lia. }
  split; [exact Hq|].
  unfold input_batch, output_batch. rewrite Hi, Ho, Hb.
  rewrite !batch_rows by lia.
  assert (Hpos : (Z.to_nat (j / B * B) + Z.to_nat (j mod B))%nat = Z.to_nat j) by nia.
  split; [|split; [|split]].
  - rewrite nth_error_batch by lia. now rewrite Hpos.
  - rewrite nth_error_batch by lia. now rewrite Hpos.
  - rewrite Hn. pose proof (Z.div_mod (Z.of_nat (length inp)) B ltac:(lia)). lia.
  - intros i k Hik Hk. nia.
Qed.

Lemma row_lookup_witness :
  0 <= 1 / 2 < num_batches Samples.sample_dataset /\
  nth_error (input_batch Samples.sample_dataset (1 / 2)) (Z.to_nat (1 mod 2)) =
    nth_error Samples.sample_input (Z.to_nat 1) /\
  nth_error (output_batch Samples.sample_dataset (1 / 2)) (Z.to_nat (1 mod 2)) =
    nth_error Samples.sample_output (Z.to_nat 1) /\
  Z.of_nat (length Samples.sample_input) - 2 * num_batches Samples.sample_dataset =
    Z.of_nat (length Samples.sample_input) mod 2 /\
  (forall i k, 0 <= i < num_batches Samples.sample_dataset -> 0 <= k < 2 ->
               i * 2 + k < 2 * num_batches Samples.sample_dataset).
Proof.
  apply (row_lookup Samples.sample_input Samples.sample_output 2
           Samples.sample_dataset 1); [reflexivity | lia | cbn; lia].
Defined.

(** A batch size larger than the dataset, or a negative one, leaves no
    batch to visit: [range(num_batches)] is empty. *)
Theorem no_batch (inp : list (list R)) (out : list Z) (B : Z) (d : Dataset) :
  Dataset_init inp out B = Ok d ->
  Z.of_nat (length inp) < B \/ B < 0 ->
  num_batches d <= 0 /\ range (num_batches d) = [].
Proof.
  intros Hinit HB.
  apply Dataset_init_inv in Hinit as (_ & _ & _ & _ & Hn).
  assert (Hle : num_batches d <= 0).
  { rewrite Hn. destruct HB as [HB|HB].
    - rewrite Z.div_small by lia. lia.
    - pose proof (Z.div_mod (Z.of_nat (length inp)) B ltac:(lia)).
      pose proof (Z.mod_neg_bound (Z.of_nat (length inp)) B HB). nia. }
  split; [exact Hle|].
  unfold range. replace (Z.to_nat (num_batches d)) with O by lia. reflexivity.
Qed.

Lemma no_batch_witness :
  num_batches {| input_set := Samples.sample_input;
                 output_set := Samples.sample_output;
                 batch_size := 5;
                 num_batches := Z.of_nat (length Samples.sample_input) / 5 |} <= 0 /\
  range (num_batches
           {| input_set := Samples.sample_input;
              output_set := Samples.sample_output;
              batch_size := 5;
              num_batches := Z.of_nat (length Samples.sample_input) / 5 |}) = [].
Proof.
  apply (no_batch Samples.sample_input Samples.sample_output 5);
    [reflexivity | left; cbn; lia].
Defined.

End BatchFacts.

(* ===================================================================== *)
(** * Further properties of the classifier *)
(* ===================================================================== *)

Module PredictionFacts.

Import Numpy Classifier LossFacts GradientFacts.
Local Open Scope R_scope.

(** ** Probabilities *)

Lemma softmax_sum (n : nat) (z : nat -> R) :
  (0 < n)%nat -> big_sum n (softmax n z) = 1.
Proof.
  intros Hn. pose proof (softmax_denominator_pos n z Hn) as Hpos.
  unfold softmax, Rdiv.
  rewrite <- (big_sum_scaled n (fun c => exp (z c))).
  apply Rinv_r. lra.
Qed.

(** Each row of [y_prob] is a probability distribution over the
    categories: its entries are not negative, at most one, and sum to
    one. *)
Theorem y_prob_distribution (self : LinearClassifier) (p : Params)
    (xv : list (list R)) (i : nat) :
  (0 < num_categories self)%nat ->
  (forall c, 0 <= y_prob self p xv i c) /\
  (forall c, (c < num_categories self)%nat -> y_prob self p xv i c <= 1) /\
  big_sum (num_categories self) (y_prob self p xv i) = 1.
Proof.
  intros HC. unfold y_prob. split; [|split].
  - intros c. left. now apply softmax_pos.
  - intros c Hc. now apply softmax_le_1.
  - now apply softmax_sum.
Qed.

Lemma y_prob_distribution_witness :
  (forall c, 0 <= y_prob Samples.sample_classifier Samples.tuned_params
                    Samples.sample_x 0 c) /\
  (forall c, (c < 2)%nat ->
             y_prob Samples.sample_classifier Samples.tuned_params
               Samples.sample_x 0 c <= 1) /\
  big_sum 2 (y_prob Samples.sample_classifier Samples.tuned_params
               Samples.sample_x 0) = 1.
Proof.
  apply (y_prob_distribution Samples.sample_classifier Samples.tuned_params
           Samples.sample_x 0).
  cbn. lia.
Defined.

(** ** Predictions *)

Lemma argmax_spec (n : nat) (f : nat -> R) :
  (0 < n)%nat ->
  (argmax n f < n)%nat /\
  (forall c, (c < n)%nat -> f c <= f (argmax n f)) /\
  (forall c, (c < argmax n f)%nat -> f c < f (argmax n f)).
Proof.
  induction n as [|n IH]; intros Hn; [lia|].
  cbn [argmax]. destruct n as [|n].
  - cbn [argmax]. destruct (Rlt_dec (f O) (f O)) as [H|_]; [lra|].
    split; [lia|]. split.
    + intros c Hc. replace c with O by lia. lra.
    + intros c Hc. lia.
  - destruct (IH ltac:(lia)) as (Hlt & Hmax & Hfirst).
    set (j := argmax (S n) f) in *.
    destruct (Rlt_dec (f j) (f (S n))) as [Hbetter|Hkeep].
    + split; [lia|]. split.
      * intros c Hc. destruct (Nat.eq_dec c (S n)) as [->|Hne]; [lra|].
        specialize (Hmax c ltac:(lia)). lra.
      * intros c Hc. specialize (Hmax c Hc). lra.
    + split; [lia|]. split.
      * intros c Hc. destruct (Nat.eq_dec c (S n)) as [->|Hne]; [lra|].
        apply Hmax. lia.
      * exact Hfirst.
Qed.

(** The predicted category of a row is a category, no category has a
    larger probability, and every category before it has a strictly
    smaller one: ties go to the first. *)
Theorem predictions_best (self : LinearClassifier) (p : Params)
    (xv : list (list R)) (i : nat) :
  (0 < num_categories self)%nat ->
  (predictions self p xv i < num_categories self)%nat /\
  (forall c, (c < num_categories self)%nat ->
     y_prob self p xv i c <= y_prob self p xv i (predictions self p xv i)) /\
  (forall c, (c < predictions self p xv i)%nat ->
     y_prob self p xv i c < y_prob self p xv i (predictions self p xv i)).
Proof.
  intros HC. unfold predictions. now apply argmax_spec.
Qed.

Lemma predictions_best_witness :
  (predictions Samples.sample_classifier zeros Samples.sample_x 0 < 2)%nat /\
  (forall c, (c < 2)%nat ->
     y_prob Samples.sample_classifier zeros Samples.sample_x 0 c <=
     y_prob Samples.sample_classifier zeros Samples.sample_x 0
       (predictions Samples.sample_classifier zeros Samples.sample_x 0)) /\
  (forall c, (c < predictions Samples.sample_classifier zeros Samples.sample_x 0)%nat ->
     y_prob Samples.sample_classifier zeros Samples.sample_x 0 c <
     y_prob Samples.sample_classifier zeros Samples.sample_x 0
       (predictions Samples.sample_classifier zeros Samples.sample_x 0)).
Proof.
  apply (predictions_best Samples.sample_classifier zeros Samples.sample_x 0).
  cbn. lia.
Defined.

Lemma argmax_same_order (n : nat) (f g : nat -> R) :
  (forall c c', f c < f c' <-> g c < g c') ->
  argmax n f = argmax n g.
Proof.
  intros H. induction n as [|n IH]; [reflexivity|].
  cbn [argmax]. rewrite IH.
  destruct (Rlt_dec (f (argmax n g)) (f n)) as [Hf|Hf];
    destruct (Rlt_dec (g (argmax n g)) (g n)) as [Hg|Hg]; try reflexivity.
  - exfalso. apply Hg. now apply H.
  - exfalso. apply Hf. now apply H.
Qed.

Lemma softmax_order (n : nat) (z : nat -> R) (c c' : nat) :
  (0 < n)%nat -> (softmax n z c < softmax n z c' <-> z c < z c').
Proof.
  intros Hn. pose proof (softmax_denominator_pos n z Hn) as Hpos.
  unfold softmax, Rdiv. split.
  - intros H. apply exp_lt_inv.
    apply (Rmult_lt_reg_r (/ big_sum n (fun k => exp (z k))));
      [now apply Rinv_0_lt_compat | exact H].
  - intros H. apply Rmult_lt_compat_r;
      [now apply Rinv_0_lt_compat | now apply exp_increasing].
Qed.

(** As the comment in [__init__] says, the softmax plays no part in the
    prediction: the predicted category is the position of the largest
    score of [y_calculated], first position on ties. *)
Theorem predictions_from_scores (self : LinearClassifier) (p : Params)
    (xv : list (list R)) (i : nat) :
  predictions self p xv i =
  argmax (num_categories self) (y_calculated self p xv i).
Proof.
  unfold predictions. destruct (num_categories self) as [|n] eqn:E; [reflexivity|].
  apply argmax_same_order. intros c c'. unfold y_prob. rewrite E.
  apply softmax_order. lia.
Qed.

(** ** Error rate *)

Lemma mean_bounds (l : list R) :
  (forall v, In v l -> 0 <= v <= 1) -> 0 <= mean l <= 1.
Proof.
  intros H. unfold mean. destruct l as [|v0 l0]; [simpl; lra|].
  set (l := v0 :: l0) in *.
  assert (Hn : 0 < INR (length l)) by (apply lt_0_INR; simpl; lia).
  assert (Hs : 0 <= Rsum l <= INR (length l)).
  { clearbody l. clear Hn. induction l as [|v l IH].
    - simpl. lra.
    - cbn [Rsum fold_right length]. fold (Rsum l). rewrite S_INR.
      assert (0 <= v <= 1) by (apply H; now left).
      assert (0 <= Rsum l <= INR (length l)) by (apply IH; intros; apply H; now right).
      lra. }
  split.
  - apply Rmult_le_pos; [lra | left; now apply Rinv_0_lt_compat].
  - apply (Rmult_le_reg_r (INR (length l))); [exact Hn|].
    unfold Rdiv. rewrite Rmult_assoc, Rinv_l by lra. lra.
Qed.

Lemma Rsum_zero (l : list R) :
  (forall v, In v l -> 0 <= v) -> Rsum l = 0 -> forall v, In v l -> v = 0.
Proof.
  induction l as [|u l IH]; intros Hpos Hsum v Hv; [contradiction|].
  cbn [Rsum fold_right] in Hsum. fold (Rsum l) in Hsum.
  assert (0 <= u) by (apply Hpos; now left).
  assert (Hl : forall w, In w l -> 0 <= w) by (intros; apply Hpos; now right).
  assert (0 <= Rsum l).
  { clear -Hl. induction l as [|w l IH]; [simpl; lra|].
    cbn [Rsum fold_right]. fold (Rsum l).
    assert (0 <= w) by (apply Hl; now left).
    assert (0 <= Rsum l) by (apply IH; intros; apply Hl; now right). lra. }
  destruct Hv as [<-|Hv]; [lra|].
  apply IH; [exact Hl | lra | exact Hv].
Qed.

(** When [batch_error_rate] returns on a non-empty batch, its value is a
    fraction between 0 and 1, and a value of 0 means that every row of
    the batch is predicted as labelled. *)
Theorem error_rate_range (self : LinearClassifier) (p : Params)
    (xv : list (list R)) (target : list Z) (v : R) :
  target <> nil ->
  batch_error_rate self p xv target = Ok v ->
  0 <= v <= 1 /\
  (v = 0 ->
   forall i, (i < length target)%nat ->
     nth i target 0%Z = Z.of_nat (predictions self p xv i)).
Proof.
  intros _. unfold batch_error_rate.
  destruct (dot_shape_ok self xv); [|discriminate]. cbn [negb].
  destruct (length target =? length xv)%nat; [|discriminate]. cbn [negb].
  intros E. injection E as <-. unfold error_rate_value.
  set (l := map (fun it => neq (snd it) (predictions self p xv (fst it)))
                (combine (seq 0 (length target)) target)).
  assert (Hl : forall u, In u l -> 0 <= u <= 1).
  { intros u Hu. apply in_map_iff in Hu as (it & <- & _).
    unfold neq. destruct (Z.eqb _ _); lra. }
  split; [now apply mean_bounds|].
  intros Hzero i Hi.
  assert (Hsum : Rsum l = 0).
  { unfold mean in Hzero.
    assert (Hn : 0 < INR (length l)).
    { apply lt_0_INR. unfold l.
      rewrite length_map, length_combine, length_seq. lia. }
    unfold Rdiv in Hzero.
    apply Rmult_integral in Hzero as [Hz|Hz]; [exact Hz|].
    apply Rinv_0_lt_compat in Hn. lra. }
  assert (Hin : In (neq (nth i target 0%Z) (predictions self p xv i)) l).
  { unfold l. apply in_map_iff. exists (i, nth i target 0%Z). split; [reflexivity|].
    replace i with (nth i (seq 0 (length target)) O) at 1
      by (rewrite seq_nth; lia).
    rewrite <- combine_nth by (now rewrite length_seq).
    apply nth_In. rewrite length_combine, length_seq. lia. }
  pose proof (Rsum_zero l (fun u Hu => proj1 (Hl u Hu)) Hsum _ Hin) as Hneq.
  unfold neq in Hneq.
  destruct (Z.eqb_spec (nth i target 0%Z) (Z.of_nat (predictions self p xv i)));
    [assumption | lra].
Qed.

Lemma error_rate_range_witness :
  0 <= error_rate_value Samples.sample_classifier zeros
         Samples.sample_x Samples.sample_y <= 1 /\
  (error_rate_value Samples.sample_classifier zeros
     Samples.sample_x Samples.sample_y = 0 ->
   forall i, (i < length Samples.sample_y)%nat ->
     nth i Samples.sample_y 0%Z =
     Z.of_nat (predictions Samples.sample_classifier zeros Samples.sample_x i)).
Proof.
  apply (error_rate_range Samples.sample_classifier zeros
           Samples.sample_x Samples.sample_y);
    [discriminate | reflexivity].
Defined.

(** ** Shifting the bias *)

Lemma softmax_shift (n : nat) (z z' : nat -> R) (delta : R) (c : nat) :
  (forall k, z' k = z k + delta) -> softmax n z' c = softmax n z c.
Proof.
  intros H. unfold softmax.
  rewrite (big_sum_ext n (fun k => exp (z' k)) (fun k => exp (z k) * exp delta))
    by (intros k _; now rewrite H, exp_plus).
  rewrite <- big_sum_scaled, H, exp_plus.
  pose proof (exp_pos delta).
  destruct (Req_dec (big_sum n (fun k => exp (z k))) 0) as [E|E].
  - rewrite E, Rmult_0_l. unfold Rdiv. rewrite Rinv_0. lra.
  - field. split; lra.
Qed.

(** Adding one constant to every entry of [b] changes neither the
    probabilities, nor the predictions, nor the loss, nor the error
    rate. *)
Theorem bias_shift_invariant (self : LinearClassifier) (p p' : Params)
    (delta : R) (xv : list (list R)) (target : list Z) :
  (forall d k, W p' d k = W p d k) ->
  (forall k, b p' k = b p k + delta) ->
  (forall i c, y_prob self p' xv i c = y_prob self p xv i c) /\
  (forall i, predictions self p' xv i = predictions self p xv i) /\
  negative_log_likelihood self p' xv target = negative_log_likelihood self p xv target /\
  batch_error_rate self p' xv target = batch_error_rate self p xv target.
Proof.
  intros HW Hb.
  assert (Hz : forall i k, y_calculated self p' xv i k =
                           y_calculated self p xv i k + delta).
  { intros i k. unfold y_calculated. rewrite Hb.
    rewrite (big_sum_ext _ _ (fun d => entry xv i d * W p d k))
      by (intros d _; now rewrite HW).
    lra. }
  assert (Hprob : forall i c, y_prob self p' xv i c = y_prob self p xv i c).
  { intros i c. unfold y_prob. apply (softmax_shift _ _ _ delta). apply Hz. }
  assert (Hpred : forall i, predictions self p' xv i = predictions self p xv i).
  { intros i. unfold predictions. apply argmax_same_order.
    intros c c'. now rewrite !Hprob. }
  split; [exact Hprob|]. split; [exact Hpred|]. split.
  - unfold negative_log_likelihood.
    destruct (dot_shape_ok self xv); [|reflexivity]. cbn [negb].
    destruct (length target <=? length xv)%nat; [|reflexivity]. cbn [negb].
    destruct (target_columns self target) as [cols|]; [|reflexivity].
    unfold nll_value. do 3 f_equal.
    apply map_ext. intros ic. now rewrite Hprob.
  - unfold batch_error_rate.
    destruct (dot_shape_ok self xv); [|reflexivity]. cbn [negb].
    destruct (length target =? length xv)%nat; [|reflexivity]. cbn [negb].
    unfold error_rate_value. do 2 f_equal.
    apply map_ext. intros it. now rewrite Hpred.
Qed.

Lemma bias_shift_invariant_witness :
  (forall i c, y_prob Samples.sample_classifier {| W := W zeros; b := fun _ => 5 |}
                 Samples.sample_x i c =
               y_prob Samples.sample_classifier zeros Samples.sample_x i c) /\
  (forall i, predictions Samples.sample_classifier {| W := W zeros; b := fun _ => 5 |}
               Samples.sample_x i =
             predictions Samples.sample_classifier zeros Samples.sample_x i) /\
  negative_log_likelihood Samples.sample_classifier {| W := W zeros; b := fun _ => 5 |}
    Samples.sample_x Samples.sample_y =
  negative_log_likelihood Samples.sample_classifier zeros
    Samples.sample_x Samples.sample_y /\
  batch_error_rate Samples.sample_classifier {| W := W zeros; b := fun _ => 5 |}
    Samples.sample_x Samples.sample_y =
  batch_error_rate Samples.sample_classifier zeros
    Samples.sample_x Samples.sample_y.
Proof.
  apply (bias_shift_invariant Samples.sample_classifier
           zeros {| W := W zeros; b := fun _ => 5 |} 5
           Samples.sample_x Samples.sample_y).
  - reflexivity.
  - intros k. cbn [b zeros]. lra.
Defined.

End PredictionFacts.

(* ===================================================================== *)
(** * What a training step keeps *)
(* ===================================================================== *)

Module StepFacts.

Import Numpy Classifier LossFacts GradientFacts PredictionFacts.
Local Open Scope R_scope.

Lemma big_sum_zero (n : nat) : big_sum n (fun _ => 0) = 0.
Proof. rewrite big_sum_const. lra. Qed.

Lemma big_sum_minus (n : nat) (f g : nat -> R) :
  big_sum n (fun i => f i - g i) = big_sum n f - big_sum n g.
Proof.
  induction n as [|n IH]; [unfold big_sum; simpl; lra|].
  rewrite !big_sum_S, IH. lra.
Qed.

Lemma big_sum_swap (n m : nat) (f : nat -> nat -> R) :
  big_sum n (fun i => big_sum m (fun k => f i k)) =
  big_sum m (fun k => big_sum n (fun i => f i k)).
Proof.
  induction n as [|n IH].
  - rewrite (big_sum_ext m _ (fun _ => 0)) by (intros; reflexivity).
    now rewrite big_sum_zero.
  - rewrite big_sum_S, IH, <- big_sum_plus.
    apply big_sum_ext. intros k _. now rewrite big_sum_S.
Qed.

Lemma one_hot_sum (n : nat) (t : Z) :
  (0 <= t < Z.of_nat n)%Z -> big_sum n (one_hot t) = 1.
Proof.
  intros Ht.
  rewrite (big_sum_ext n (one_hot t)
             (fun k => if Nat.eqb k (Z.to_nat t) then 1 else 0)).
  - rewrite (big_sum_single n (fun _ => 1)).
    destruct (Nat.ltb_spec (Z.to_nat t) n); [reflexivity | lia].
  - intros k _. unfold one_hot.
    destruct (Z.eqb_spec t (Z.of_nat k)), (Nat.eqb_spec k (Z.to_nat t));
      try reflexivity; lia.
Qed.

Section Sums.

Variable self : LinearClassifier.
Variable p : Params.
Variable xv : list (list R).
Variable target : list Z.

Hypothesis same_length : length target = length xv.
Hypothesis labels_ok : in_range (num_categories self) target.

(** In every row, the differences between probabilities and one-hot
    entries cancel out. *)
Lemma row_residual_sum (i : nat) :
  (i < length xv)%nat ->
  big_sum (num_categories self)
    (fun k => y_prob self p xv i k - one_hot (nth i target 0%Z) k) = 0.
Proof.
  intros Hi. rewrite big_sum_minus.
  assert (Ht : (0 <= nth i target 0 < Z.of_nat (num_categories self))%Z)
    by (apply labels_ok, nth_In; lia).
  rewrite one_hot_sum by exact Ht.
  unfold y_prob. rewrite softmax_sum by lia. lra.
Qed.

Lemma closed_form_b_gradient_sum :
  big_sum (num_categories self) (closed_form_b_gradient self p xv target) = 0.
Proof.
  unfold closed_form_b_gradient, Rdiv.
  rewrite <- (big_sum_scaled (num_categories self)
                (fun k => big_sum (length xv)
                            (fun i => y_prob self p xv i k -
                                      one_hot (nth i target 0%Z) k))).
  rewrite <- big_sum_swap.
  rewrite (big_sum_ext _ _ (fun _ => 0)) by (intros i Hi; now apply row_residual_sum).
  rewrite big_sum_zero. lra.
Qed.

Lemma closed_form_W_gradient_sum (d : nat) :
  big_sum (num_categories self) (closed_form_W_gradient self p xv target d) = 0.
Proof.
  unfold closed_form_W_gradient, Rdiv.
  rewrite <- (big_sum_scaled (num_categories self)
                (fun k => big_sum (length xv)
                            (fun i => entry xv i d *
                                      (y_prob self p xv i k -
                                       one_hot (nth i target 0%Z) k)))).
  rewrite <- big_sum_swap.
  rewrite (big_sum_ext _ _ (fun _ => 0)).
  - rewrite big_sum_zero. lra.
  - intros i Hi.
    rewrite (big_sum_ext _ _
               (fun k => (y_prob self p xv i k - one_hot (nth i target 0%Z) k) *
                         entry xv i d)) by (intros; lra).
    rewrite <- big_sum_scaled, row_residual_sum by exact Hi. lra.
Qed.

End Sums.

(** A training step moves probability mass between categories only: with
    a gradient routine that returns the partial derivatives, the entries
    of the new [b] sum to what the entries of [b] summed to, and so do
    the entries of each row of [W]. *)
Theorem train_keeps_sums
    (T_grad_W : (Params -> R) -> Params -> nat -> nat -> R)
    (T_grad_b : (Params -> R) -> Params -> nat -> R)
    (self : LinearClassifier) (training : Dataset) (lr : R) (index : Z)
    (w : World) (xv : list (list R)) (yv : list Z) (p : Params) :
  xv = input_batch training index ->
  yv = output_batch training index ->
  p = store w (shared self) ->
  dot_shape_ok self xv = true ->
  length yv = length xv ->
  in_range (num_categories self) yv ->
  is_gradient (cost_expression self xv yv) p
    (input_dimension self) (num_categories self)
    (T_grad_W (cost_expression self xv yv) p)
    (T_grad_b (cost_expression self xv yv) p) ->
  exists c w',
    train T_grad_W T_grad_b self training lr index w = Ok (c, w') /\
    big_sum (num_categories self) (b (store w' (shared self))) =
      big_sum (num_categories self) (b p) /\
    (forall d, (d < input_dimension self)%nat ->
       big_sum (num_categories self) (W (store w' (shared self)) d) =
       big_sum (num_categories self) (W p d)).
Proof.
  intros Hx Hy Hp Hshape Hlen Hrange [HgW Hgb].
  pose proof (negative_log_likelihood_ok self p xv yv Hshape Hlen Hrange) as Hnll.
  eexists. eexists. split.
  - unfold train, bind, emit. cbn [store trace].
    rewrite <- Hx, <- Hy, <- Hp, Hnll. reflexivity.
  - cbn [store]. unfold store_set. rewrite Nat.eqb_refl. unfold updates. cbn [W b].
    split.
    + rewrite (big_sum_ext _ _
                 (fun k => b p k - lr * closed_form_b_gradient self p xv yv k)).
      * rewrite big_sum_minus.
        rewrite (big_sum_ext _ (fun k => lr * closed_form_b_gradient self p xv yv k)
                   (fun k => closed_form_b_gradient self p xv yv k * lr))
          by (intros; lra).
        rewrite <- big_sum_scaled, closed_form_b_gradient_sum by assumption. lra.
      * intros k Hk. do 2 f_equal.
        apply (uniqueness_limite
                 (fun v => cost_expression self xv yv (set_b p k v)) (b p k));
          [now apply Hgb | now apply cost_derivative_b].
    + intros d Hd.
      rewrite (big_sum_ext _ _
                 (fun k => W p d k - lr * closed_form_W_gradient self p xv yv d k)).
      * rewrite big_sum_minus.
        rewrite (big_sum_ext _ (fun k => lr * closed_form_W_gradient self p xv yv d k)
                   (fun k => closed_form_W_gradient self p xv yv d k * lr))
          by (intros; lra).
        rewrite <- big_sum_scaled, closed_form_W_gradient_sum by assumption. lra.
      * intros k Hk. do 2 f_equal.
        apply (uniqueness_limite
                 (fun v => cost_expression self xv yv (set_W p d k v)) (W p d k));
          [now apply HgW | now apply cost_derivative_W].
Qed.

Lemma train_keeps_sums_witness :
  exists c w',
    train Samples.sample_grad_W Samples.sample_grad_b Samples.sample_classifier
      Samples.sample_dataset (13 / 100) 0 Samples.sample_world = Ok (c, w') /\
    big_sum 2 (b (store w' 0%nat)) = big_sum 2 (b zeros) /\
    (forall d, (d < 1)%nat ->
       big_sum 2 (W (store w' 0%nat) d) = big_sum 2 (W zeros d)).
Proof.
  apply (train_keeps_sums Samples.sample_grad_W Samples.sample_grad_b
           Samples.sample_classifier Samples.sample_dataset (13 / 100) 0
           Samples.sample_world Samples.sample_x Samples.sample_y zeros);
    [reflexivity | reflexivity | reflexivity | reflexivity | reflexivity
    | exact sample_labels_in_range |].
  apply closed_form_is_gradient;
    [reflexivity | reflexivity | exact sample_labels_in_range].
Defined.

End StepFacts.

(* ===================================================================== *)
(** * The download cache *)
(* ===================================================================== *)

Module CacheFacts.

Import Datasets NaturalFacts.
Local Open Scope string_scope.

Lemma has_slash_append (s t : string) :
  has_slash (s ++ t) = has_slash s || has_slash t.
Proof.
  induction s as [|c s IH]; simpl; [reflexivity|].
  now rewrite IH, orb_assoc.
Qed.

(** The file name taken from a source has no slash in it; a source
    without a slash is its own file name; and a source with a slash is
    some head, a slash, and the file name. *)
Theorem split_tail_spec (p : string) :
  has_slash (split_tail p) = false /\
  (if has_slash p
   then exists head, p = head ++ "/" ++ split_tail p
   else split_tail p = p).
Proof.
  induction p as [|c rest IH]; [split; reflexivity|].
  destruct IH as [IHno IHshape].
  cbn [split_tail has_slash].
  destruct (has_slash rest) eqn:Hrest.
  - split; [exact IHno|]. rewrite orb_true_r.
    destruct IHshape as [head Hhead].
    exists (String c head).
    change (String c rest = String c (head ++ "/" ++ split_tail rest)).
    now f_equal.
  - destruct (Ascii.eqb_spec c "/"%char) as [->|Hc].
    + split; [exact Hrest|]. cbn [orb]. exists "". reflexivity.
    + cbn [orb]. split; [|reflexivity].
      cbn [has_slash]. rewrite Hrest.
      destruct (Ascii.eqb_spec c "/"%char); [contradiction | reflexivity].
Qed.

(** Splitting undoes joining: the file name of [head/name] is [name]
    when [name] has no slash. *)
Theorem split_tail_join (head name : string) :
  has_slash name = false ->
  split_tail (head ++ "/" ++ name) = name.
Proof.
  intros Hname. induction head as [|c head IH].
  - cbn [append split_tail]. rewrite Hname. reflexivity.
  - cbn [append split_tail].
    rewrite has_slash_append. cbn [append has_slash].
    rewrite Ascii.eqb_refl. cbn [orb]. rewrite orb_true_r. exact IH.
Qed.

Lemma split_tail_join_witness :
  split_tail ("http://www.iro.umontreal.ca/~lisa/deep/data/mnist" ++ "/" ++ "mnist.pkl.gz") =
  "mnist.pkl.gz".
Proof.
  apply (split_tail_join "http://www.iro.umontreal.ca/~lisa/deep/data/mnist"
           "mnist.pkl.gz").
  reflexivity.
Defined.

Example MNIST_file_name : split_tail MNIST = "mnist.pkl.gz".
Proof. reflexivity. Qed.

(** Once [data_path] has returned for a source, the file is there, only
    that one path of the disk has changed, and every later call for a
    source with the same file name returns the same path without
    fetching or printing anything, whether or not the network can be
    reached: the content fetched first is what stays. *)
Theorem data_path_cached (resolve : string -> string)
    (reachable reachable' : string -> bool)
    (source source' answer : string) (w w' : Disk) :
  data_path resolve reachable source w = Returned answer w' ->
  split_tail source' = split_tail source ->
  answer = resolve ("~/data/" ++ split_tail source) /\
  isfile w' answer = true /\
  (forall path, path <> answer -> files w' path = files w path) /\
  (isfile w answer = false -> files w' answer = Some source) /\
  data_path resolve reachable' source' w' = Returned answer w'.
Proof.
  unfold data_path. intros Hrun Hname. rewrite Hname.
  remember (resolve ("~/data/" ++ split_tail source)) as a eqn:Ea.
  destruct (isfile w a) eqn:Hfile; cbn [negb] in Hrun.
  - assert (Ha : a = answer) by congruence.
    assert (Hw : w = w') by congruence.
    subst answer w'.
    split; [reflexivity|]. split; [exact Hfile|]. split; [reflexivity|].
    split; [congruence|]. now rewrite Hfile.
  - destruct (reachable source); [|discriminate].
    assert (Ha : a = answer) by congruence.
    assert (Hw : urlretrieve source a
                   (print ("Downloading data from " ++ source) w) = w')
      by congruence.
    subst answer w'.
    assert (Hnow : isfile (urlretrieve source a
                             (print ("Downloading data from " ++ source) w)) a = true).
    { unfold isfile, urlretrieve. cbn [files]. now rewrite String.eqb_refl. }
    split; [reflexivity|]. split; [exact Hnow|]. split; [|split].
    + intros path Hpath. unfold urlretrieve, print. cbn [files].
      destruct (String.eqb_spec path a); [contradiction | reflexivity].
    + intros _. unfold urlretrieve. cbn [files]. now rewrite String.eqb_refl.
    + now rewrite Hnow.
Qed.

Lemma data_path_cached_witness :
  "/home/user/data/mnist.pkl.gz" =
    (fun p => "/home/user" ++ substring 1 (String.length p) p)
      ("~/data/" ++ split_tail MNIST) /\
  isfile (urlretrieve MNIST "/home/user/data/mnist.pkl.gz"
            (print ("Downloading data from " ++ MNIST)
               {| files := fun _ => None; printed := [] |}))
    "/home/user/data/mnist.pkl.gz" = true /\
  (forall path, path <> "/home/user/data/mnist.pkl.gz" ->
     files (urlretrieve MNIST "/home/user/data/mnist.pkl.gz"
              (print ("Downloading data from " ++ MNIST)
                 {| files := fun _ => None; printed := [] |})) path =
     files {| files := fun _ => None; printed := [] |} path) /\
  (isfile {| files := fun _ => None; printed := [] |}
     "/home/user/data/mnist.pkl.gz" = false ->
   files (urlretrieve MNIST "/home/user/data/mnist.pkl.gz"
            (print ("Downloading data from " ++ MNIST)
               {| files := fun _ => None; printed := [] |}))
     "/home/user/data/mnist.pkl.gz" = Some MNIST) /\
  data_path (fun p => "/home/user" ++ substring 1 (String.length p) p)
    (fun _ => false) "ftp://mirror/mnist.pkl.gz"
    (urlretrieve MNIST "/home/user/data/mnist.pkl.gz"
       (print ("Downloading data from " ++ MNIST)
          {| files := fun _ => None; printed := [] |})) =
  Returned "/home/user/data/mnist.pkl.gz"
    (urlretrieve MNIST "/home/user/data/mnist.pkl.gz"
       (print ("Downloading data from " ++ MNIST)
          {| files := fun _ => None; printed := [] |})).
Proof.
  apply (data_path_cached
           (fun p => "/home/user" ++ substring 1 (String.length p) p)
           (fun _ => true) (fun _ => false)
           MNIST "ftp://mirror/mnist.pkl.gz" "/home/user/data/mnist.pkl.gz"
           {| files := fun _ => None; printed := [] |});
    reflexivity.
Defined.

End CacheFacts.

(* ===================================================================== *)
(** * The whole run *)
(* ===================================================================== *)

Module RunFacts.

Import Numpy Classifier Script LossFacts DatasetFacts GradientFacts DriverFacts StepFacts.
Local Open Scope Z_scope.

Section Whole.

Variable T_grad_W : (Params -> R) -> Params -> nat -> nat -> R.
Variable T_grad_b : (Params -> R) -> Params -> nat -> R.
Variable data : Mnist.
Variables addr x0 : nat.

Let self := main_classifier addr x0.
Let training := main_training data.
Let validation := main_validation data.
Let testing := main_testing data.

Hypothesis data_ok : well_formed data.

Lemma main_fits :
  fits self training /\ fits self validation /\ fits self testing /\
  in_range (num_categories self) (output_set training).
Proof.
  destruct data_ok as (Htr & Hva & Hte & Ltr & Lva & Lte & Hlabels).
  split; [split; [now apply dot_shape_ok_Forall | exact Ltr]|].
  split; [split; [now apply dot_shape_ok_Forall | exact Lva]|].
  split; [split; [now apply dot_shape_ok_Forall | exact Lte]|].
  exact Hlabels.
Qed.

(** The script runs to its end, from any world. *)
Lemma main_reaches (w0 : World) :
  exists w',
    main T_grad_W T_grad_b data addr x0 w0 = Ok (tt, w') /\
    reaches addr w0 w' (params_after T_grad_W T_grad_b self training runs)
      (expected_trace T_grad_W T_grad_b self training validation testing).
Proof.
  destruct main_fits as (Ftr & Fva & Fte & Hlabels).
  destruct (error_rate_function_global self self validation eq_refl Fva)
    as (validator & Hvalidator & Hv).
  destruct (error_rate_function_global self self testing eq_refl Fte)
    as (tester & Htester & Ht).
  set (w1 := {| store := store_set (store w0) addr zeros; trace := trace w0 |}).
  assert (Hw1 : store w1 (shared self) = zeros).
  { unfold w1, store_set. cbn [store shared self main_classifier].
    now rewrite Nat.eqb_refl. }
  destruct (training_loop_ok T_grad_W T_grad_b self training validation testing
              Ftr Hlabels validator tester Hv Ht w1 Hw1)
    as (w' & Hloop & Hp & Hs & Htrace).
  exists w'. split.
  - unfold main.
    rewrite bind_run. unfold lift at 1.
    rewrite Dataset_init_ok by (unfold batch_size_main; lia).
    rewrite bind_run. unfold lift at 1.
    rewrite Dataset_init_ok by (unfold batch_size_main; lia).
    rewrite bind_run. unfold lift at 1.
    rewrite Dataset_init_ok by (unfold batch_size_main; lia).
    rewrite bind_run. cbn [LinearClassifier_init].
    change {| x := x0; input_dimension := 28 * 28; num_categories := 10;
              shared := addr |} with self.
    change {| input_set := train_input data; output_set := train_output data;
              batch_size := batch_size_main;
              num_batches := Z.of_nat (length (train_input data)) / batch_size_main |}
      with training.
    change {| input_set := valid_input data; output_set := valid_output data;
              batch_size := batch_size_main;
              num_batches := Z.of_nat (length (valid_input data)) / batch_size_main |}
      with validation.
    change {| input_set := test_input data; output_set := test_output data;
              batch_size := batch_size_main;
              num_batches := Z.of_nat (length (test_input data)) / batch_size_main |}
      with testing.
    fold w1.
    rewrite bind_run. unfold lift at 1. rewrite Hvalidator.
    rewrite bind_run. unfold lift at 1. rewrite Htester.
    exact Hloop.
  - split; [exact Hp|]. split; [|exact Htrace].
    intros a Ha. rewrite Hs by exact Ha.
    unfold w1, store_set. cbn [store].
    destruct (Nat.eqb_spec a addr); [contradiction | reflexivity].
Qed.

End Whole.

(** ** How often each thing happens *)

Lemma batch_indices_app (l1 l2 : list event) :
  batch_indices (l1 ++ l2) = (batch_indices l1 ++ batch_indices l2)%list.
Proof.
  induction l1 as [|e l1 IH]; [reflexivity|].
  destruct e; cbn [app batch_indices]; now rewrite IH.
Qed.

Lemma batch_indices_Batch (d : Dataset) (l : list Z) :
  batch_indices (map (Batch d) l) = l.
Proof. induction l as [|i l IH]; [reflexivity|]. cbn. now rewrite IH. Qed.

Lemma count_validation_app (l1 l2 : list event) :
  count_validation (l1 ++ l2) = (count_validation l1 + count_validation l2)%nat.
Proof.
  induction l1 as [|e l1 IH]; [reflexivity|].
  destruct e; cbn [app count_validation]; rewrite IH; reflexivity.
Qed.

Lemma count_validation_Batch (d : Dataset) (l : list Z) :
  count_validation (map (Batch d) l) = O.
Proof. induction l as [|i l IH]; [reflexivity | exact IH]. Qed.

Section Counting.

Variable T_grad_W : (Params -> R) -> Params -> nat -> nat -> R.
Variable T_grad_b : (Params -> R) -> Params -> nat -> R.
Variable self : LinearClassifier.
Variables training validation testing : Dataset.

Lemma count_validation_epoch (p : Params) :
  count_validation (epoch_events T_grad_W T_grad_b self training p) = O.
Proof.
  unfold epoch_events. induction (range (num_batches training)) as [|i l IH];
    [reflexivity|].
  cbn [map concat]. destruct (i mod 20 =? 0); cbn [app count_validation]; exact IH.
Qed.

Lemma batch_indices_run (r : Z) :
  batch_indices (run_events T_grad_W T_grad_b self training validation r) =
  (range (num_batches training) ++
   (if r mod 10 =? 9 then range (num_batches validation) else []))%list.
Proof.
  unfold run_events. cbn [batch_indices].
  rewrite batch_indices_app, batch_indices_epoch. f_equal.
  destruct (r mod 10 =? 9); [|reflexivity].
  rewrite batch_indices_app, batch_indices_Batch. cbn. now rewrite app_nil_r.
Qed.

Lemma count_validation_run (r : Z) :
  count_validation (run_events T_grad_W T_grad_b self training validation r) =
  if r mod 10 =? 9 then 1%nat else 0%nat.
Proof.
  unfold run_events. cbn [count_validation].
  rewrite count_validation_app, count_validation_epoch.
  destruct (r mod 10 =? 9); [|reflexivity].
  rewrite count_validation_app, count_validation_Batch. reflexivity.
Qed.

Lemma batch_indices_runs (l : list Z) :
  batch_indices
    (concat (map (run_events T_grad_W T_grad_b self training validation) l)) =
  concat (map (fun r => (range (num_batches training) ++
                         (if r mod 10 =? 9 then range (num_batches validation)
                          else []))%list) l).
Proof.
  induction l as [|r l IH]; [reflexivity|].
  cbn [map concat]. now rewrite batch_indices_app, batch_indices_run, IH.
Qed.

Lemma count_validation_runs (l : list Z) :
  count_validation
    (concat (map (run_events T_grad_W T_grad_b self training validation) l)) =
  list_sum (map (fun r => if r mod 10 =? 9 then 1%nat else 0%nat) l).
Proof.
  induction l as [|r l IH]; [reflexivity|].
  cbn [map concat list_sum fold_right].
  now rewrite count_validation_app, count_validation_run, IH.
Qed.

Lemma expected_trace_counts :
  batch_indices (expected_trace T_grad_W T_grad_b self training validation testing) =
    (concat (map (fun r => (range (num_batches training) ++
                            (if r mod 10 =? 9 then range (num_batches validation)
                             else []))%list) (range runs)) ++
     range (num_batches testing))%list /\
  count_validation
    (expected_trace T_grad_W T_grad_b self training validation testing) = 10%nat.
Proof.
  unfold expected_trace. split.
  - rewrite !batch_indices_app, batch_indices_runs, batch_indices_Batch.
    cbn [batch_indices]. now rewrite app_nil_r.
  - rewrite !count_validation_app, count_validation_runs, count_validation_Batch.
    reflexivity.
Qed.

End Counting.

(** On well-formed data the run evaluates, in this order: for each of the
    100 runs the training batches [0 .. num_batches - 1], followed on
    every 10th run by the validation batches; then the test batches.  It
    reports the validation error exactly ten times. *)
Theorem run_counts
    (T_grad_W : (Params -> R) -> Params -> nat -> nat -> R)
    (T_grad_b : (Params -> R) -> Params -> nat -> R)
    (data : Mnist) (addr x0 : nat) (w0 : World) :
  well_formed data ->
  exists w',
    main T_grad_W T_grad_b data addr x0 w0 = Ok (tt, w') /\
    batch_indices (trace w') =
      (batch_indices (trace w0) ++
       concat (map (fun r => (range (num_batches (main_training data)) ++
                              (if r mod 10 =? 9
                               then range (num_batches (main_validation data))
                               else []))%list) (range runs)) ++
       range (num_batches (main_testing data)))%list /\
    count_validation (trace w') = (count_validation (trace w0) + 10)%nat.
Proof.
  intros Hdata.
  destruct (main_reaches T_grad_W T_grad_b data addr x0 Hdata w0)
    as (w' & Hmain & _ & _ & Htrace).
  exists w'. split; [exact Hmain|].
  rewrite Htrace, batch_indices_app, count_validation_app.
  destruct (expected_trace_counts T_grad_W T_grad_b (main_classifier addr x0)
              (main_training data) (main_validation data) (main_testing data))
    as [Hb Hc].
  now rewrite Hb, Hc.
Qed.

Lemma run_counts_witness :
  exists w',
    main Samples.sample_grad_W Samples.sample_grad_b Samples.sample_mnist 0 0
      Samples.sample_world = Ok (tt, w') /\
    batch_indices (trace w') =
      (batch_indices (trace Samples.sample_world) ++
       concat (map (fun r => (range (num_batches (main_training Samples.sample_mnist)) ++
                              (if r mod 10 =? 9
                               then range (num_batches (main_validation Samples.sample_mnist))
                               else []))%list) (range runs)) ++
       range (num_batches (main_testing Samples.sample_mnist)))%list /\
    count_validation (trace w') =
      (count_validation (trace Samples.sample_world) + 10)%nat.
Proof.
  apply (run_counts Samples.sample_grad_W Samples.sample_grad_b
           Samples.sample_mnist 0 0 Samples.sample_world).
  exact sample_mnist_well_formed.
Defined.

(** ** A training set smaller than one batch *)

Lemma iter_fixed {A : Type} (f : A -> A) (a : A) (n : nat) :
  f a = a -> Nat.iter n f a = a.
Proof.
  intros H. induction n as [|n IH]; [reflexivity|].
  change (Nat.iter (S n) f a) with (f (Nat.iter n f a)). now rewrite IH.
Qed.

(** With fewer than 500 training rows there is no training batch: the
    run ends without a single step and [W] and [b] are still zeros,
    whatever the gradient routine. *)
Theorem small_training_set
    (T_grad_W : (Params -> R) -> Params -> nat -> nat -> R)
    (T_grad_b : (Params -> R) -> Params -> nat -> R)
    (data : Mnist) (addr x0 : nat) (w0 : World) :
  well_formed data ->
  Z.of_nat (length (train_input data)) < 500 ->
  exists w',
    main T_grad_W T_grad_b data addr x0 w0 = Ok (tt, w') /\
    num_batches (main_training data) = 0 /\
    store w' addr = zeros.
Proof.
  intros Hdata Hsmall.
  destruct (main_reaches T_grad_W T_grad_b data addr x0 Hdata w0)
    as (w' & Hmain & Hp & _ & _).
  assert (Hnb : num_batches (main_training data) = 0).
  { unfold main_training, main_dataset, batch_size_main. cbn [num_batches].
    apply Z.div_small. lia. }
  exists w'. split; [exact Hmain|]. split; [exact Hnb|].
  rewrite Hp. unfold params_after. apply iter_fixed.
  unfold params_in_epoch. now rewrite Hnb.
Qed.

Lemma tiny_mnist_well_formed : well_formed tiny_mnist.
Proof.
  unfold well_formed, tiny_mnist.
  cbn [train_input train_output valid_input valid_output test_input test_output].
  assert (Hrows : Forall (fun row : list R => length row = (28 * 28)%nat)
                    (repeat (repeat 0%R (28 * 28)) 3)).
  { apply Forall_forall. intros row Hrow. apply repeat_spec in Hrow.
    subst row. apply repeat_length. }
  split; [exact Hrows|]. split; [exact Hrows|]. split; [exact Hrows|].
  rewrite !repeat_length.
  split; [reflexivity|]. split; [reflexivity|]. split; [reflexivity|].
  intros t Ht. apply repeat_spec in Ht. subst t. lia.
Qed.

Lemma small_training_set_witness :
  exists w',
    main Samples.sample_grad_W Samples.sample_grad_b tiny_mnist 0 0
      Samples.sample_world = Ok (tt, w') /\
    num_batches (main_training tiny_mnist) = 0 /\
    store w' 0%nat = zeros.
Proof.
  apply (small_training_set Samples.sample_grad_W Samples.sample_grad_b
           tiny_mnist 0 0 Samples.sample_world).
  - exact tiny_mnist_well_formed.
  - cbn. lia.
Defined.

(** ** Sums of the parameters through the run *)

Section Invariant.

Variable T_grad_W : (Params -> R) -> Params -> nat -> nat -> R.
Variable T_grad_b : (Params -> R) -> Params -> nat -> R.
Variable self : LinearClassifier.
Variable training : Dataset.

Hypothesis training_fits : fits self training.
Hypothesis training_labels : in_range (num_categories self) (output_set training).

(** The gradient routine is right on every training batch. *)
Hypothesis gradient_ok : forall i p,
  0 <= i < num_batches training ->
  is_gradient
    (cost_expression self (input_batch training i) (output_batch training i)) p
    (input_dimension self) (num_categories self)
    (T_grad_W (cost_expression self (input_batch training i)
                 (output_batch training i)) p)
    (T_grad_b (cost_expression self (input_batch training i)
                 (output_batch training i)) p).

Lemma updates_sums (lr : R) (xv : list (list R)) (yv : list Z) (p : Params) :
  dot_shape_ok self xv = true ->
  length yv = length xv ->
  in_range (num_categories self) yv ->
  is_gradient (cost_expression self xv yv) p
    (input_dimension self) (num_categories self)
    (T_grad_W (cost_expression self xv yv) p)
    (T_grad_b (cost_expression self xv yv) p) ->
  big_sum (num_categories self) (b (updates T_grad_W T_grad_b self lr xv yv p)) =
    big_sum (num_categories self) (b p) /\
  (forall d, (d < input_dimension self)%nat ->
     big_sum (num_categories self) (W (updates T_grad_W T_grad_b self lr xv yv p) d) =
     big_sum (num_categories self) (W p d)).
Proof.
  intros Hshape Hlen Hrange [HgW Hgb]. unfold updates. cbn [W b]. split.
  - rewrite (big_sum_ext _ _
               (fun k => (b p k - lr * closed_form_b_gradient self p xv yv k)%R)).
    + rewrite big_sum_minus.
      rewrite (big_sum_ext _ (fun k => (lr * closed_form_b_gradient self p xv yv k)%R)
                 (fun k => (closed_form_b_gradient self p xv yv k * lr)%R))
        by (intros; lra).
      rewrite <- big_sum_scaled, closed_form_b_gradient_sum by assumption. lra.
    + intros k Hk. do 2 f_equal.
      apply (uniqueness_limite
               (fun v => cost_expression self xv yv (set_b p k v)) (b p k));
        [now apply Hgb | now apply cost_derivative_b].
  - intros d Hd.
    rewrite (big_sum_ext _ _
               (fun k => (W p d k - lr * closed_form_W_gradient self p xv yv d k)%R)).
    + rewrite big_sum_minus.
      rewrite (big_sum_ext _ (fun k => (lr * closed_form_W_gradient self p xv yv d k)%R)
                 (fun k => (closed_form_W_gradient self p xv yv d k * lr)%R))
        by (intros; lra).
      rewrite <- big_sum_scaled, closed_form_W_gradient_sum by assumption. lra.
    + intros k Hk. do 2 f_equal.
      apply (uniqueness_limite
               (fun v => cost_expression self xv yv (set_W p d k v)) (W p d k));
        [now apply HgW | now apply cost_derivative_W].
Qed.

Lemma sgd_step_sums (p : Params) (i : Z) :
  0 <= i < num_batches training ->
  sums_zero self p ->
  sums_zero self (sgd_step T_grad_W T_grad_b self training p i).
Proof.
  intros Hi [Hb HW]. destruct training_fits as [Hshape Hlen].
  destruct (updates_sums learning_rate_main
              (input_batch training i) (output_batch training i) p) as [Hb' HW'].
  - now apply dot_shape_ok_slice.
  - now apply slice_length_eq.
  - now apply in_range_slice.
  - now apply gradient_ok.
  - unfold sgd_step. split.
    + now rewrite Hb'.
    + intros d Hd. rewrite HW' by exact Hd. now apply HW.
Qed.

Lemma params_in_epoch_sums (p : Params) (n : nat) :
  Z.of_nat n <= num_batches training ->
  sums_zero self p ->
  sums_zero self (params_in_epoch T_grad_W T_grad_b self training p (Z.of_nat n)).
Proof.
  intros Hn Hp. induction n as [|n IH]; [exact Hp|].
  rewrite in_epoch_succ. apply sgd_step_sums; [lia|]. apply IH. lia.
Qed.

Lemma params_after_sums (r : Z) :
  sums_zero self (params_after T_grad_W T_grad_b self training r).
Proof.
  unfold params_after. induction (Z.to_nat r) as [|n IH].
  - split; [|intros d _]; apply big_sum_zero.
  - change (Nat.iter (S n) ?f ?a) with (f (Nat.iter n f a)). cbv beta.
    set (q := Nat.iter n _ zeros) in *. clearbody q.
    destruct (Z.le_gt_cases 0 (num_batches training)) as [Hpos|Hneg].
    + rewrite <- (in_epoch_to_nat T_grad_W T_grad_b self training).
      apply params_in_epoch_sums; [lia | exact IH].
    + unfold params_in_epoch, range.
      replace (Z.to_nat (num_batches training)) with O by lia. exact IH.
Qed.

End Invariant.

(** With a gradient routine that is right on every training batch, the
    entries of [b], and of each row of [W], sum to zero when the run
    ends, as they do at every epoch boundary: training only moves weight
    from one category to another. *)
Theorem sums_zero_after_run
    (T_grad_W : (Params -> R) -> Params -> nat -> nat -> R)
    (T_grad_b : (Params -> R) -> Params -> nat -> R)
    (data : Mnist) (addr x0 : nat) (w0 : World) :
  well_formed data ->
  (forall i p,
     0 <= i < num_batches (main_training data) ->
     is_gradient
       (cost_expression (main_classifier addr x0)
          (input_batch (main_training data) i) (output_batch (main_training data) i)) p
       (28 * 28) 10
       (T_grad_W (cost_expression (main_classifier addr x0)
                    (input_batch (main_training data) i)
                    (output_batch (main_training data) i)) p)
       (T_grad_b (cost_expression (main_classifier addr x0)
                    (input_batch (main_training data) i)
                    (output_batch (main_training data) i)) p)) ->
  exists w',
    main T_grad_W T_grad_b data addr x0 w0 = Ok (tt, w') /\
    sums_zero (main_classifier addr x0) (store w' addr) /\
    (forall r, sums_zero (main_classifier addr x0)
                 (params_after T_grad_W T_grad_b (main_classifier addr x0)
                    (main_training data) r)).
Proof.
  intros Hdata Hgrad.
  destruct (main_reaches T_grad_W T_grad_b data addr x0 Hdata w0)
    as (w' & Hmain & Hp & _ & _).
  destruct (main_fits data addr x0 Hdata) as (Ftr & _ & _ & Hlabels).
  exists w'. split; [exact Hmain|].
  assert (Hall : forall r, sums_zero (main_classifier addr x0)
                   (params_after T_grad_W T_grad_b (main_classifier addr x0)
                      (main_training data) r)).
  { intros r. apply params_after_sums; assumption. }
  split; [|exact Hall]. rewrite Hp. apply Hall.
Qed.

Lemma mnist_grad_ok (i : Z) (p : Params) :
  0 <= i < num_batches (main_training Samples.sample_mnist) ->
  is_gradient
    (cost_expression (main_classifier 0 0)
       (input_batch (main_training Samples.sample_mnist) i)
       (output_batch (main_training Samples.sample_mnist) i)) p
    (28 * 28) 10
    (mnist_grad_W (cost_expression (main_classifier 0 0)
                     (input_batch (main_training Samples.sample_mnist) i)
                     (output_batch (main_training Samples.sample_mnist) i)) p)
    (mnist_grad_b (cost_expression (main_classifier 0 0)
                     (input_batch (main_training Samples.sample_mnist) i)
                     (output_batch (main_training Samples.sample_mnist) i)) p).
Proof.
  intros Hi.
  assert (Hnb : num_batches (main_training Samples.sample_mnist) = 1).
  { unfold main_training, main_dataset, Samples.sample_mnist, batch_size_main.
    cbn [num_batches train_input]. now rewrite repeat_length. }
  assert (i = 0) by lia. subst i.
  destruct (main_fits Samples.sample_mnist 0 0 sample_mnist_well_formed)
    as ([Hshape Hlen] & _ & _ & Hlabels).
  unfold mnist_grad_W, mnist_grad_b.
  apply (closed_form_is_gradient (main_classifier 0 0) p).
  - now apply dot_shape_ok_slice.
  - now apply slice_length_eq.
  - now apply in_range_slice.
Qed.

Lemma sums_zero_after_run_witness :
  exists w',
    main mnist_grad_W mnist_grad_b Samples.sample_mnist 0 0 Samples.sample_world =
      Ok (tt, w') /\
    sums_zero (main_classifier 0 0) (store w' 0%nat) /\
    (forall r, sums_zero (main_classifier 0 0)
                 (params_after mnist_grad_W mnist_grad_b (main_classifier 0 0)
                    (main_training Samples.sample_mnist) r)).
Proof.
  apply (sums_zero_after_run mnist_grad_W mnist_grad_b Samples.sample_mnist 0 0
           Samples.sample_world).
  - exact sample_mnist_well_formed.
  - exact mnist_grad_ok.
Defined.

End RunFacts.

(* ===================================================================== *)
(** * Batches at any 64-bit index *)
(* ===================================================================== *)

Module CompiledFacts.

Import Numpy Classifier Compiled DatasetFacts.
Local Open Scope Z_scope.

(** ** 64-bit arithmetic *)

Lemma wrap64_range (z : Z) : is_int64 (wrap64 z).
Proof.
  unfold is_int64, wrap64, int64_min, int64_max.
  pose proof (Z.mod_pos_bound (z + 9223372036854775808) 18446744073709551616
                ltac:(lia)). lia.
Qed.

Lemma wrap64_small (z : Z) : is_int64 z -> wrap64 z = z.
Proof.
  unfold is_int64, wrap64, int64_min, int64_max. intros Hz.
  rewrite Z.mod_small by lia. lia.
Qed.

Lemma wrap64_shift (z k : Z) : wrap64 (z + k * 18446744073709551616) = wrap64 z.
Proof.
  unfold wrap64.
  replace (z + k * 18446744073709551616 + 9223372036854775808)
    with (z + 9223372036854775808 + k * 18446744073709551616) by lia.
  now rewrite Z_mod_plus_full.
Qed.

Lemma wrap64_decompose (z : Z) :
  exists k, wrap64 z = z + k * 18446744073709551616.
Proof.
  exists (- ((z + 9223372036854775808) / 18446744073709551616)).
  unfold wrap64. rewrite Z.mod_eq by lia. lia.
Qed.

Lemma mul64_wrap_l (a c : Z) : mul64 (wrap64 a) c = mul64 a c.
Proof.
  unfold mul64. destruct (wrap64_decompose a) as [k ->].
  replace ((a + k * 18446744073709551616) * c)
    with (a * c + (k * c) * 18446744073709551616) by lia.
  apply wrap64_shift.
Qed.

(** The upper bound is the lower bound plus the batch size, up to one
    wrap-around. *)
Lemma upper_bound64 (i B : Z) :
  0 < B <= int64_max ->
  mul64 (add64 i 1) B = mul64 i B + B \/
  mul64 (add64 i 1) B = mul64 i B + B - 18446744073709551616.
Proof.
  unfold int64_max. intros HB. unfold add64. rewrite mul64_wrap_l.
  unfold mul64. replace ((i + 1) * B) with (i * B + B) by lia.
  generalize (i * B). intros x.
  pose proof (wrap64_range x) as Hx. pose proof (wrap64_range (x + B)) as Hy.
  destruct (wrap64_decompose x) as [k Hk].
  destruct (wrap64_decompose (x + B)) as [k' Hk'].
  unfold is_int64, int64_min, int64_max in *. lia.
Qed.

(** ** Slices *)

Lemma slice_length {A : Type} (l : list A) (lo hi : Z) :
  Z.of_nat (length (slice l lo hi)) =
  Z.max 0 (Z.min (slice_bound (Z.of_nat (length l)) hi -
                  slice_bound (Z.of_nat (length l)) lo)
                 (Z.of_nat (length l) - slice_bound (Z.of_nat (length l)) lo)).
Proof.
  unfold slice. rewrite length_firstn, length_skipn.
  assert (0 <= slice_bound (Z.of_nat (length l)) lo).
  { unfold slice_bound. destruct (Z.ltb_spec lo 0); lia. }
  lia.
Qed.

(** Whatever the 64-bit bounds, a slice between a bound and that bound
    plus [B], up to one wrap-around, has at most [B] elements. *)
Lemma slice_length_le {A : Type} (l : list A) (lo hi B : Z) :
  0 < B <= int64_max ->
  Z.of_nat (length l) <= int64_max ->
  is_int64 lo -> is_int64 hi ->
  hi = lo + B \/ hi = lo + B - 18446744073709551616 ->
  Z.of_nat (length (slice l lo hi)) <= B.
Proof.
  unfold is_int64, int64_min, int64_max. intros HB HN Hlo Hhi Hrel.
  rewrite slice_length. unfold slice_bound.
  destruct (Z.ltb_spec lo 0), (Z.ltb_spec hi 0); lia.
Qed.

(** ** The compiled batches *)

Lemma upper_bound64_wrap (i B : Z) :
  mul64 (add64 i 1) B = wrap64 ((i + 1) * B).
Proof. unfold add64. now rewrite mul64_wrap_l. Qed.

(** Where the bounds fit in 64 bits the compiled batches are the slice
    expressions on integers. *)
Lemma batch_int64_exact (d : Dataset) (i : Z) :
  is_int64 (i * batch_size d) -> is_int64 ((i + 1) * batch_size d) ->
  input_batch_int64 d i = input_batch d i /\
  output_batch_int64 d i = output_batch d i.
Proof.
  intros Hlo Hhi.
  unfold input_batch_int64, output_batch_int64, input_batch, output_batch.
  rewrite upper_bound64_wrap. unfold mul64.
  now rewrite !wrap64_small by assumption.
Qed.

Example compiled_in_range : output_batch_int64 four_rows 1 = [12; 13].
Proof. reflexivity. Qed.

Example compiled_last_index : output_batch_int64 four_rows (-1) = [].
Proof. reflexivity. Qed.

Example compiled_from_end : output_batch_int64 four_rows (-2) = [10; 11].
Proof. reflexivity. Qed.

Example compiled_wraps :
  output_batch_int64 five_rows 4611686018427387904 = [10; 11; 12; 13].
Proof. reflexivity. Qed.

(** C8, as the claim states it, does not hold: an index outside
    [[0, num_batches)] can get a full batch.  On four rows in batches of
    two, index [-2] counts from the end and gets rows 0 and 1; on five
    rows in batches of four, index [2^62] is above [num_batches = 1] and
    its bounds wrap around to 0 and 4, so it gets rows 0 to 3. *)
Lemma batches_unchecked_counterexample :
  ~ (forall i : Z,
       is_int64 i -> ~ (0 <= i < num_batches four_rows) ->
       Z.of_nat (length (output_batch_int64 four_rows i)) < batch_size four_rows) /\
  ~ (forall i : Z,
       is_int64 i -> num_batches five_rows <= i ->
       Z.of_nat (length (input_batch_int64 five_rows i)) < batch_size five_rows).
Proof.
  split; intros H.
  - specialize (H (-2)).
    assert (Hlt : Z.of_nat (length (output_batch_int64 four_rows (-2))) <
                  batch_size four_rows).
    { apply H; [unfold is_int64, int64_min, int64_max; lia | lia]. }
    vm_compute in Hlt. discriminate.
  - specialize (H 4611686018427387904).
    assert (Hlt : Z.of_nat (length (input_batch_int64 five_rows 4611686018427387904)) <
                  batch_size five_rows).
    { apply H; [unfold is_int64, int64_min, int64_max; lia | cbn; lia]. }
    change (Z.of_nat 4 < 4) in Hlt. lia.
Qed.

(** C8, amended: [input_batch] and [output_batch] check nothing about
    their index.  For every 64-bit index [i] they return, without
    raising, the slice whose bounds are [i*B] and [(i+1)*B] computed in
    64 bits; that slice never has more than [B] rows.  For [i >= 0] whose
    upper bound does not overflow it is made of the rows of
    [[i*B, (i+1)*B)] that exist: fewer than [B] rows for
    [i >= num_batches], and none for [i > num_batches]. *)
Theorem batches_unchecked_int64 (inp : list (list R)) (out : list Z) (B : Z)
    (d : Dataset) (i : Z) :
  Dataset_init inp out B = Ok d ->
  length out = length inp ->
  0 < B <= int64_max ->
  Z.of_nat (length inp) <= int64_max ->
  is_int64 i ->
  input_batch_int64 d i = slice inp (wrap64 (i * B)) (wrap64 ((i + 1) * B)) /\
  output_batch_int64 d i = slice out (wrap64 (i * B)) (wrap64 ((i + 1) * B)) /\
  Z.of_nat (length (input_batch_int64 d i)) <= B /\
  Z.of_nat (length (output_batch_int64 d i)) <= B /\
  (0 <= i -> (i + 1) * B <= int64_max ->
     input_batch_int64 d i = firstn (Z.to_nat B) (skipn (Z.to_nat (i * B)) inp) /\
     output_batch_int64 d i = firstn (Z.to_nat B) (skipn (Z.to_nat (i * B)) out)) /\
  (num_batches d <= i -> (i + 1) * B <= int64_max ->
     Z.of_nat (length (input_batch_int64 d i)) < B /\
     Z.of_nat (length (output_batch_int64 d i)) < B) /\
  (num_batches d < i -> (i + 1) * B <= int64_max ->
     input_batch_int64 d i = [] /\ output_batch_int64 d i = []).
Proof.
  intros Hinit Hlen HB HN Hi.
  apply Dataset_init_inv in Hinit as (_ & Hin & Hout & Hb & Hn).
  assert (Hnb : 0 <= num_batches d) by (rewrite Hn; apply Z.div_pos; lia).
  assert (Hrem : Z.of_nat (length inp) < (num_batches d + 1) * B).
  { rewrite Hn.
    pose proof (Z.mod_pos_bound (Z.of_nat (length inp)) B ltac:(lia)).
    pose proof (Z.div_mod (Z.of_nat (length inp)) B). nia. }
  assert (Hexact : 0 <= i -> (i + 1) * B <= int64_max ->
                   input_batch_int64 d i = slice inp (i * B) ((i + 1) * B) /\
                   output_batch_int64 d i = slice out (i * B) ((i + 1) * B)).
  { intros Hi0 Hfit.
    destruct (batch_int64_exact d i) as [E1 E2].
    - rewrite Hb. unfold is_int64, int64_min, int64_max in *. nia.
    - rewrite Hb. unfold is_int64, int64_min, int64_max in *. nia.
    - rewrite E1, E2. unfold input_batch, output_batch. now rewrite Hin, Hout, Hb. }
  unfold input_batch_int64 at 1, output_batch_int64 at 1.
  rewrite upper_bound64_wrap, Hin, Hout, Hb.
  split; [reflexivity|]. split; [reflexivity|].
  split; [|split; [|split; [|split]]].
  - unfold input_batch_int64. rewrite Hin, Hb.
    apply slice_length_le; try assumption; try apply wrap64_range.
    now apply upper_bound64.
  - unfold output_batch_int64. rewrite Hout, Hb.
    apply slice_length_le; try assumption; try apply wrap64_range.
    + now rewrite Hlen.
    + now apply upper_bound64.
  - intros Hi0 Hfit. destruct (Hexact Hi0 Hfit) as [-> ->].
    now rewrite !batch_rows by lia.
  - intros Hge Hfit. destruct (Hexact ltac:(lia) Hfit) as [-> ->].
    rewrite !batch_length by lia. rewrite Hlen. nia.
  - intros Hgt Hfit. destruct (Hexact ltac:(lia) Hfit) as [-> ->].
    split; apply length_zero_iff_nil; apply Nat2Z.inj;
      rewrite batch_length by lia; rewrite ?Hlen; nia.
Qed.

Lemma batches_unchecked_int64_witness :
  input_batch_int64 Samples.sample_dataset 2 =
    slice Samples.sample_input (wrap64 (2 * 2)) (wrap64 ((2 + 1) * 2)) /\
  output_batch_int64 Samples.sample_dataset 2 =
    slice Samples.sample_output (wrap64 (2 * 2)) (wrap64 ((2 + 1) * 2)) /\
  Z.of_nat (length (input_batch_int64 Samples.sample_dataset 2)) <= 2 /\
  Z.of_nat (length (output_batch_int64 Samples.sample_dataset 2)) <= 2 /\
  (0 <= 2 -> (2 + 1) * 2 <= int64_max ->
     input_batch_int64 Samples.sample_dataset 2 =
       firstn (Z.to_nat 2) (skipn (Z.to_nat (2 * 2)) Samples.sample_input) /\
     output_batch_int64 Samples.sample_dataset 2 =
       firstn (Z.to_nat 2) (skipn (Z.to_nat (2 * 2)) Samples.sample_output)) /\
  (num_batches Samples.sample_dataset <= 2 -> (2 + 1) * 2 <= int64_max ->
     Z.of_nat (length (input_batch_int64 Samples.sample_dataset 2)) < 2 /\
     Z.of_nat (length (output_batch_int64 Samples.sample_dataset 2)) < 2) /\
  (num_batches Samples.sample_dataset < 2 -> (2 + 1) * 2 <= int64_max ->
     input_batch_int64 Samples.sample_dataset 2 = [] /\
     output_batch_int64 Samples.sample_dataset 2 = []).
Proof.
  apply (batches_unchecked_int64 Samples.sample_input Samples.sample_output 2
           Samples.sample_dataset 2);
    [reflexivity | reflexivity
    | unfold int64_max; lia | unfold int64_max; cbn; lia
    | unfold is_int64, int64_min, int64_max; lia].
Defined.

End CompiledFacts.
